(** * Verification of the forensic probe utilities (systemUtils, IPC handlers)

    The repository ships two variants of [systemUtils.js].  They are embedded
    below as the modules [V1] (the variant that also exports
    [registerSelfDestruct], [analyzeProcesses], [scanMinecraftMods] and
    [detectInjections]) and [V2] (the shorter variant built on [promisify]).
    The IPC registration of the main process is embedded as [Main], the
    API that the preload script exposes as [Preload], and the click handler
    of the renderer's location links as [Renderer].

    Conventions of the embedding:
    - a JavaScript string is a [string] whose characters are its code
      units, each below 256 (the Latin-1 range); [toLowerCase] folds the
      capital letters of that range, accented ones included;
    - a JavaScript number that stems from a [Date] is a [jsnum]: an integer
      time value or [NaN] (the time value of an invalid date);
    - [Array.prototype.sort] is computed the way the engine computes it for
      an array of fewer than 64 elements (see [Js.sort]);
    - constant texts of the source with letters outside ASCII are written
      as they stand in the source file; they are only produced and compared;
    - operating-system answers (directory listings, command output that has
      been parsed) are inputs of the embedded functions. *)

From Stdlib Require Import Ascii String.
From stdpp Require Import base numbers option list strings gmap sorting.

Local Open Scope string_scope.
Local Open Scope Z_scope.
Local Open Scope list_scope.

#[local] Set Warnings "-clear-no-such-hyp".

(** ** JavaScript primitives used by the source *)
Module Js.

(** *** Strings *)

(** The lower-case mapping of a code unit below 256: the letters [A] to [Z]
    (65 to 90) and the capital letters of the Latin-1 range (192 to 222,
    except the multiplication sign 215) have their lower-case counterpart
    32 places further on; every other code unit maps to itself. *)
Definition lower_ascii (c : ascii) : ascii :=
  let n := nat_of_ascii c in
  if ((65 <=? n)%nat && (n <=? 90)%nat)%bool ||
     ((192 <=? n)%nat && (n <=? 222)%nat && negb (n =? 215)%nat)%bool
  then ascii_of_nat (n + 32) else c.

(** [String.prototype.toLowerCase]: every code unit is mapped on its own. *)
Fixpoint toLowerCase (s : string) : string :=
  match s with
  | EmptyString => EmptyString
  | String c r => String (lower_ascii c) (toLowerCase r)
  end.

(** [String.prototype.startsWith]. *)
Fixpoint startsWith (s p : string) : bool :=
  match p, s with
  | EmptyString, _ => true
  | String _ _, EmptyString => false
  | String a p', String b s' => if decide (a = b) then startsWith s' p' else false
  end.

(** [String.prototype.includes]: some suffix of [s] starts with [sub]. *)
Fixpoint includes (s sub : string) : bool :=
  startsWith s sub ||
  match s with
  | EmptyString => false
  | String _ r => includes r sub
  end.

(** [String.prototype.endsWith]. *)
Fixpoint endsWith (s p : string) : bool :=
  (if decide (s = p) then true else false) ||
  match s with
  | EmptyString => false
  | String _ r => endsWith r p
  end.

(** [s.split(sep)] for a one-character separator: never the empty list. *)
Fixpoint split (sep : ascii) (s : string) : list string :=
  match s with
  | EmptyString => [EmptyString]
  | String c r =>
      if decide (c = sep) then EmptyString :: split sep r
      else match split sep r with
           | [] => [String c EmptyString]
           | w :: ws => String c w :: ws
           end
  end.

(** [parts.join(sep)]. *)
Fixpoint join (sep : string) (parts : list string) : string :=
  match parts with
  | [] => EmptyString
  | [w] => w
  | w :: ws => w +:+ sep +:+ join sep ws
  end.

(** [s.substring(0, n)] and [s.substring(n)]. *)
Definition substringTo (n : nat) (s : string) : string := String.substring 0 n s.
Definition substringFrom (n : nat) (s : string) : string :=
  String.substring n (String.length s - n) s.

(** *** Numbers obtained from dates *)

(** A time value: an integer number of milliseconds, or [NaN] for an
    invalid date ([new Date(text).getTime()] on text that does not parse). *)
Inductive jsnum : Type :=
  | Num (z : Z)
  | NaN.

#[export] Instance jsnum_eq_dec : EqDecision jsnum.
Proof. solve_decision. Defined.

(** [a - b] on time values. *)
Definition sub (a b : jsnum) : jsnum :=
  match a, b with
  | Num x, Num y => Num (x - y)
  | _, _ => NaN
  end.

(** [a >= b]: false as soon as one side is [NaN]. *)
Definition geb (a b : jsnum) : bool :=
  match a, b with
  | Num x, Num y => bool_decide (y <= x)
  | _, _ => false
  end.

Definition valid (a : jsnum) : Prop := a <> NaN.

(** *** Array.prototype.sort

    The engine of the program (V8) sorts an array of fewer than 64 elements
    in two steps: it takes the longest run at the start of the array that is
    already in order (reversing it when it is strictly descending), and then
    inserts the remaining elements one by one, each at the place that a
    binary search finds for it.  The definitions below follow these steps
    comparison by comparison, so they give the array that the engine gives
    also when the comparator is not consistent, as with [NaN] answers next
    to an invalid date.  A longer array is cut by the engine into several
    such runs, which it merges; the result is the same whenever the
    comparator is consistent on the array, because the language fixes the
    result of the stable sort then. *)

Section Sort.
Context {A : Type} (comparefn : A -> A -> jsnum).

(** The engine reads an answer [comparefn(a, b)] as a number, takes [NaN]
    for 0, and only asks whether the number is below 0: then [a] comes
    before [b]. *)
Definition comes_before (a b : A) : bool :=
  match comparefn a b with
  | Num v => bool_decide (v < 0)
  | NaN => false
  end.

(** The run is continued while the next element stands to its predecessor
    as the second element stands to the first: the elements of the run
    behind [previous], and the rest of the array. *)
Fixpoint continueRun (descending : bool) (previous : A) (rest : list A)
  : list A * list A :=
  match rest with
  | [] => ([], [])
  | current :: rest' =>
      if bool_decide (comes_before current previous = descending) then
        let (run, others) := continueRun descending current rest' in
        (current :: run, others)
      else ([], rest)
  end.

(** The run at the start of the array, brought into ascending order, and
    the elements behind it. *)
Definition countAndMakeRun (work : list A) : list A * list A :=
  match work with
  | first :: second :: rest =>
      let descending := comes_before second first in
      let (run, others) := continueRun descending second rest in
      (if descending then reverse (first :: second :: run) else first :: second :: run,
       others)
  | _ => (work, [])
  end.

(** The binary search for the place of [pivot] between [left] and [right]:
    [while (left < right)] with [mid = left + ((right - left) >> 1)].
    [fuel] bounds the number of rounds; the loop never needs more than
    [right - left] of them. *)
Fixpoint insertionPoint (fuel : nat) (pivot : A) (work : list A) (left right : nat) : nat :=
  match fuel with
  | O => left
  | S fuel =>
      if bool_decide (left < right)%nat then
        let mid := (left + (right - left) / 2)%nat in
        match work !! mid with
        | Some element =>
            if comes_before pivot element
            then insertionPoint fuel pivot work left mid
            else insertionPoint fuel pivot work (S mid) right
        | None => left
        end
      else left
  end.

(** One round of the binary insertion: [pivot] is the element behind the
    part that is in order already. *)
Definition binaryInsert (sorted : list A) (pivot : A) : list A :=
  let left := insertionPoint (length sorted) pivot sorted 0 (length sorted) in
  take left sorted ++ pivot :: drop left sorted.

Definition sort (l : list A) : list A :=
  let (run, others) := countAndMakeRun l in
  foldl binaryInsert run others.
End Sort.

(** *** De-duplication with a [Set]

    The body of [for (const item of items) if (!seen.has(key)) { seen.add(key);
    kept.push(item) }]: the state is the set of keys seen and the array of
    items kept. *)
Definition keepUnseen {A : Type} (key : A -> string)
    (state : gset string * list A) (item : A) : gset string * list A :=
  if bool_decide (key item ∈ state.1) then state
  else ({[key item]} ∪ state.1, (state.2 ++ [item])%list).

(** [arr.slice(0, n)]. *)
Definition slice0 {A : Type} (n : nat) (l : list A) : list A := firstn n l.

(** *** Completion of a call: a value or a thrown error *)

Record JsError : Type := mkError { message : string }.

Inductive outcome (A : Type) : Type :=
  | Returned (a : A)
  | Threw (e : JsError).
Arguments Returned {A} a.
Arguments Threw {A} e.

Definition bind {A B : Type} (m : outcome A) (k : A -> outcome B) : outcome B :=
  match m with
  | Returned a => k a
  | Threw e => Threw e
  end.

(** [try { body } catch (error) { handler(error) }]. *)
Definition try_catch {A : Type} (body : outcome A) (handler : JsError -> outcome A)
  : outcome A :=
  match body with
  | Returned a => Returned a
  | Threw e => handler e
  end.

(** *** A [try] block that mutates an object

    The block works on a state; when an exception leaves it the mutations
    done so far stay and the rest of the block is skipped. *)
Inductive flow (S : Type) : Type :=
  | Continue (s : S)
  | Abort (s : S).
Arguments Continue {S} s.
Arguments Abort {S} s.

Definition andThen {S : Type} (m : flow S) (k : S -> flow S) : flow S :=
  match m with
  | Continue s => k s
  | Abort s => Abort s
  end.

(** The state when the [catch] clause has swallowed the exception. *)
Definition caught {S : Type} (m : flow S) : S :=
  match m with
  | Continue s => s
  | Abort s => s
  end.

(** [for (const x of xs) body] inside the block. *)
Fixpoint forEach {S A : Type} (body : S -> A -> flow S) (xs : list A) (s : S) : flow S :=
  match xs with
  | [] => Continue s
  | x :: rest => andThen (body s x) (forEach body rest)
  end.

#[export] Instance outcome_ret : MRet outcome := fun A a => Returned a.
#[export] Instance outcome_bind : MBind outcome := fun A B k m => bind m k.

End Js.
Export Js.

(** ** The operating system as seen by the probes *)
Module Os.

(** [process.platform]. *)
Inductive Platform : Type := win32 | darwin | linux | otherPlatform.

#[export] Instance Platform_eq_dec : EqDecision Platform.
Proof. solve_decision. Defined.

(** An entry of [readdir(dir, { withFileTypes: true })]. *)
Record Dirent : Type := mkDirent { d_name : string; d_isDirectory : bool; d_isFile : bool }.

(** The fields of [fs.Stats] the probes read; times are the time values of
    the [Date] fields, which the file system always provides. *)
Record Stats : Type := mkStats {
  st_size : Z;
  st_mtime : Z;
  st_birthtime : Z;
  st_isDirectory : bool;
  st_isFile : bool
}.

(** The answers of the [fs], [path] and [os] modules.  [None] stands for a
    call that throws (or a promise that rejects). *)
Record FileSystem : Type := mkFileSystem {
  platform : Platform;
  homedir : string;
  pathJoin : string -> string -> string;
  existsSync : string -> bool;
  readdirTypes : string -> option (list Dirent);
  readdirNames : string -> option (list string);
  stat : string -> option Stats
}.

(** A file operation that a probe performs besides reading. *)
Inductive FsEvent : Type :=
  | CopyFile (source target : string)
  | SqlQuery (dataSource : string)
  | Unlink (target : string)
  | WriteFile (target : string)
  | SpawnScript (script : string).

#[export] Instance FsEvent_eq_dec : EqDecision FsEvent.
Proof. solve_decision. Defined.

(** The files of [os.tmpdir()] and the file operations so far. *)
Record TempDir : Type := mkTempDir {
  tempFiles : gset string;
  trace : list FsEvent
}.

(** [path.join(a, b, c, ...)]. *)
Definition pathJoinAll (fs : FileSystem) (base : string) (segments : list string) : string :=
  foldl (pathJoin fs) base segments.

End Os.
Export Os.

(** ** First variant of systemUtils *)
Module V1.

(** *** Original-name guess *)

(** The alternatives of the second and of the third group of
    [/^(.+)\.(jar|exe|dll|bat|vbs)\.(txt|png|jpg|jpeg)$/i]. *)
Definition innerExts : list string := ["jar"; "exe"; "dll"; "bat"; "vbs"].
Definition outerExts : list string := ["txt"; "png"; "jpg"; "jpeg"].

(** The text after a leading dot, if there is one. *)
Definition afterDot (s : string) : option string :=
  match s with
  | String c r => if bool_decide (c = "."%char) then Some r else None
  | EmptyString => None
  end.

(** [o] is one of the outer extensions, up to letter case, and ends the
    input. *)
Definition isOuterExt (o : string) : bool := bool_decide (toLowerCase o ∈ outerExts).

(** [r] starts with the inner extension [e], up to letter case, followed by
    a dot and an outer extension. *)
Definition innerExtAt (r e : string) : bool :=
  bool_decide (toLowerCase (substringTo (String.length e) r) = e) &&
  match afterDot (substringFrom (String.length e) r) with
  | Some o => isOuterExt o
  | None => false
  end.

(** The part of the pattern after the first group, matched against all of
    [rest]: a dot, an inner extension, a dot, an outer extension, end of
    input.  The answer is the text matched by the second group. *)
Definition matchExtTail (rest : string) : option string :=
  match afterDot rest with
  | Some r =>
      match filter (fun e => innerExtAt r e = true) innerExts with
      | e :: _ => Some (substringTo (String.length e) r)
      | [] => None
      end
  | None => None
  end.

(** [.] of a regular expression matches any character but a line end. *)
Definition isLineTerminator (c : ascii) : bool :=
  bool_decide (c = "010"%char) || bool_decide (c = "013"%char).

Fixpoint noLineTerminator (s : string) : bool :=
  match s with
  | EmptyString => true
  | String c r => negb (isLineTerminator c) && noLineTerminator r
  end.

(** [filename.match(doubleExtRegex)]: the greedy first group [(.+)] is tried
    from the longest prefix down to one character; the answer holds the
    groups 1 and 2. *)
Fixpoint matchDoubleExt_from (n : nat) (filename : string) : option (string * string) :=
  match n with
  | O => None
  | S m =>
      if noLineTerminator (substringTo n filename) then
        match matchExtTail (substringFrom n filename) with
        | Some g2 => Some (substringTo n filename, g2)
        | None => matchDoubleExt_from m filename
        end
      else matchDoubleExt_from m filename
  end.

Definition matchDoubleExt (filename : string) : option (string * string) :=
  matchDoubleExt_from (String.length filename) filename.

(** [getOriginalNameGuess]: [null] is [None]. *)
Definition getOriginalNameGuess (filename : string) : option string :=
  match matchDoubleExt filename with
  | Some (g1, g2) => Some (g1 +:+ "." +:+ g2)
  | None => None
  end.

(** *** JAR finder *)

Record JarInfo : Type := mkJarInfo {
  jar_name : string;
  jar_path : string;
  jar_size : Z;
  lastModified : Z;
  createdTime : Z
}.

(** The [options] argument: a bound is [None] when the property is absent
    (falsy), else the time value of [new Date(bound)]. *)
Record SearchOptions : Type := mkOptions {
  fechaInicio : option jsnum;
  fechaFin : option jsnum
}.

Definition noOptions : SearchOptions := mkOptions None None.

Definition skipDirs : list string :=
  ["Windows"; "Program Files"; "Program Files (x86)"; "ProgramData";
   "System Volume Information"; "$Recycle.Bin"; "node_modules";
   "AppData\Local\Temp"; "Recovery"; "Config.Msi"; "$WINDOWS.~BT";
   "$WinREAgent"; "Windows.old"; "DriverStore"; "Temp"; "tmp"].

(** [directory.replace(/\\/g, '/')]. *)
Fixpoint backslashesToSlashes (s : string) : string :=
  match s with
  | EmptyString => EmptyString
  | String c r =>
      String (if bool_decide (c = "\"%char) then "/"%char else c) (backslashesToSlashes r)
  end.

Definition shouldSkipDirectory (directory : string) : bool :=
  let normalizedPath := toLowerCase (backslashesToSlashes directory) in
  existsb (fun dir => includes normalizedPath (toLowerCase dir)) skipDirs.

(** [fileDate < startDate] and [fileDate > endDate] on dates. *)
Definition dateBefore (fileDate : Z) (bound : jsnum) : bool :=
  match bound with Num b => bool_decide (fileDate < b) | NaN => false end.
Definition dateAfter (fileDate : Z) (bound : jsnum) : bool :=
  match bound with Num b => bool_decide (b < fileDate) | NaN => false end.

(** The date filter of the loop body: [false] where the source says
    [continue]. *)
Definition passesDateFilter (options : SearchOptions) (stats : Stats) : bool :=
  let fileDate := st_mtime stats in
  match fechaInicio options with
  | Some startDate => if dateBefore fileDate startDate then false else
      match fechaFin options with
      | Some endDate => negb (dateAfter fileDate endDate)
      | None => true
      end
  | None =>
      match fechaFin options with
      | Some endDate => negb (dateAfter fileDate endDate)
      | None => true
      end
  end.

(** [searchJarFilesRecursively(directory, result, depth, options)]; [levels]
    counts the levels left before [depth > 15], so the call at depth 0 has
    16 of them.  The answer is the [result] array after the call. *)
Fixpoint searchJarFilesRecursively (levels : nat) (fs : FileSystem)
    (options : SearchOptions) (directory : string) (result : list JarInfo)
  : list JarInfo :=
  match levels with
  | O => result
  | S deeper =>
      if shouldSkipDirectory directory then result else
      match readdirTypes fs directory with
      | None => result
      | Some items =>
          foldl (fun result item =>
            let fullPath := pathJoin fs directory (d_name item) in
            if d_isDirectory item then
              searchJarFilesRecursively deeper fs options fullPath result
            else if endsWith (toLowerCase (d_name item)) ".jar" then
              match stat fs fullPath with
              | None => result
              | Some stats =>
                  let fileInfo :=
                    mkJarInfo (d_name item) fullPath (st_size stats)
                              (st_mtime stats) (st_birthtime stats) in
                  if passesDateFilter options stats then (result ++ [fileInfo])%list
                  else result
              end
            else result) result items
      end
  end.

(** [getSystemDrives]: [wmicDrives] holds the trimmed lines of
    [wmic logicaldisk get caption] that start with a drive letter and a
    colon, or [None] when the command fails. *)
Definition getSystemDrives (fs : FileSystem) (wmicDrives : option (list string))
  : list string :=
  match platform fs with
  | win32 =>
      match wmicDrives with
      | Some lines => map (fun drive => drive +:+ "\") lines
      | None => [homedir fs]
      end
  | darwin =>
      match readdirNames fs "/Volumes" with
      | Some items => "/" :: map (fun item => "/Volumes/" +:+ item) items
      | None => [homedir fs]
      end
  | _ => ["/"]
  end.

Definition byLastModifiedDesc (a b : JarInfo) : jsnum :=
  sub (Num (lastModified b)) (Num (lastModified a)).

Definition findAllJarFiles (fs : FileSystem) (wmicDrives : option (list string))
    (options : SearchOptions) : list JarInfo :=
  let drives := getSystemDrives fs wmicDrives in
  let result :=
    foldl (fun result drive => searchJarFilesRecursively 16 fs options drive result)
          [] drives in
  sort byLastModifiedDesc result.

(** *** Executed-JAR finder *)

(** A finding of the executed-JAR probe.  [startTime] is the number the
    final comparator computes from the field (the field itself when it is a
    number, the time value of [new Date(field)] when it is a string). *)
Record ExecutedJar : Type := mkExecutedJar {
  ej_name : string;
  ej_path : string;
  ej_startTime : jsnum;
  ej_source : string;
  ej_size : option Z
}.

(** An entry of [getCompleteExecutionHistory]; an absent property is the
    empty string, which is falsy like [undefined]. *)
Record Execution : Type := mkExecution {
  ex_command : string;
  ex_name : string;
  ex_startTime : jsnum;
  ex_source : string
}.

Definition truthy (s : string) : bool := negb (bool_decide (s = "")).

(** What the executed-JAR probe obtains from its collaborators.  The two
    regular expressions applied to a command line are taken as functions
    that yield the first group of a match. *)
Record JarSources : Type := mkJarSources {
  recentJarsFromRegistry : list ExecutedJar;
  execHistory : option (list Execution);
  javaLogs : list ExecutedJar;
  jarAfterFlag : string -> option string;
  quotedJar : string -> option string;
  basename : string -> string
}.

Definition isJarExecution (item : Execution) : bool :=
  (truthy (ex_command item) && includes (toLowerCase (ex_command item)) ".jar") ||
  (truthy (ex_name item) && endsWith (toLowerCase (ex_name item)) ".jar").

Definition jarPathOf (src : JarSources) (execution : Execution) : string :=
  let jarPath :=
    if truthy (ex_command execution) then
      match jarAfterFlag src (ex_command execution) with
      | Some jarMatch => jarMatch
      | None =>
          match quotedJar src (ex_command execution) with
          | Some pathMatch => pathMatch
          | None => ""
          end
      end
    else "" in
  if negb (truthy jarPath) && truthy (ex_name execution) then ex_name execution
  else jarPath.

Definition fileSize (fs : FileSystem) (jarPath : string) : Z :=
  if existsSync fs jarPath then
    match stat fs jarPath with
    | Some stats => st_size stats
    | None => 0
    end
  else 0.

Definition jarOfExecution (fs : FileSystem) (src : JarSources) (execution : Execution)
  : list ExecutedJar :=
  let jarPath := jarPathOf src execution in
  if truthy jarPath then
    [mkExecutedJar (basename src jarPath) jarPath (ex_startTime execution)
       (if truthy (ex_source execution) then ex_source execution
        else "Historial de ejecución")
       (Some (fileSize fs jarPath))]
  else [].

(** The [result] array when the three collection methods are done. *)
Definition collectExecutedJars (fs : FileSystem) (src : JarSources) : list ExecutedJar :=
  let fromRegistry :=
    if bool_decide (platform fs = win32) then recentJarsFromRegistry src else [] in
  let fromHistory :=
    match execHistory src with
    | Some history => flat_map (jarOfExecution fs src) (filter (fun item => isJarExecution item = true) history)
    | None => []
    end in
  (fromRegistry ++ fromHistory ++ javaLogs src)%list.

Definition uniqueByPath (result : list ExecutedJar) : list ExecutedJar :=
  (foldl (keepUnseen ej_path) (∅, []) result).2.

Definition byStartTimeDesc (a b : ExecutedJar) : jsnum :=
  sub (ej_startTime b) (ej_startTime a).

Definition getRecentlyExecutedJars (fs : FileSystem) (src : JarSources)
  : list ExecutedJar :=
  let result := collectExecutedJars fs src in
  let uniqueResults := uniqueByPath result in
  sort byStartTimeDesc uniqueResults.

(** *** Deleted-file finder *)

Record DeletedFile : Type := mkDeletedFile {
  df_name : string;
  df_path : string;
  deletedTime : jsnum;
  df_operation : string
}.

(** [trash] holds what the search of the platform's trash pushed
    ([searchRecycleBin], [searchDeletedFiles] or [searchLinuxTrash]);
    [eventLogs] is the answer of [getFileOperationsFromEventLog], [None]
    when it throws. *)
Definition collectDeletedFiles (fs : FileSystem) (trash : list DeletedFile)
    (eventLogs : option (list DeletedFile)) : list DeletedFile :=
  match platform fs with
  | win32 =>
      match eventLogs with
      | Some events =>
          (trash ++ filter (fun item => df_operation item = "delete") events)%list
      | None => trash
      end
  | _ => trash
  end.

Definition byDeletedTimeDesc (a b : DeletedFile) : jsnum :=
  sub (deletedTime b) (deletedTime a).

Definition getRecentlyDeletedFiles (fs : FileSystem) (trash : list DeletedFile)
    (eventLogs : option (list DeletedFile)) : list DeletedFile :=
  let result := collectDeletedFiles fs trash eventLogs in
  sort byDeletedTimeDesc result.

(** *** Searches of the trash *)

(** What the searches of the trash read besides listings and [stat]:
    [readText] is [fs.promises.readFile(path, 'utf8')] and [readBuffer] is
    [fs.promises.readFile(path)], [None] when the call fails;
    [permissionDenied] tells whether a failing [readdir] of the path fails
    with the code [EPERM] or [EACCES]; [parseDate] is the time value of
    [new Date(text)]; [pathBasename] is [path.basename]; [utf16le] decodes
    the bytes that [buffer.toString('utf16le', start, end)] selects. *)
Record TrashFiles : Type := mkTrashFiles {
  readText : string -> option string;
  readBuffer : string -> option (list Z);
  permissionDenied : string -> bool;
  parseDate : string -> jsnum;
  pathBasename : string -> string;
  utf16le : list Z -> string
}.

(** The text matched by a group of any characters: up to the next line
    end. *)
Fixpoint untilLineEnd (s : string) : string :=
  match s with
  | EmptyString => EmptyString
  | String c r => if isLineTerminator c then EmptyString else String c (untilLineEnd r)
  end.

(** [content.match(pattern)] for a pattern that is the text [key] followed
    by a group of any characters: the group of the leftmost match. *)
Fixpoint matchAfter (key content : string) : option string :=
  if startsWith content key then
    Some (untilLineEnd (substringFrom (String.length key) content))
  else
    match content with
    | EmptyString => None
    | String _ r => matchAfter key r
    end.

(** [s.replace(pattern, replacement)] for a string pattern: the leftmost
    occurrence is replaced. *)
Fixpoint replaceFirst (pattern replacement s : string) : string :=
  if startsWith s pattern then
    replacement +:+ substringFrom (String.length pattern) s
  else
    match s with
    | EmptyString => EmptyString
    | String c r => String c (replaceFirst pattern replacement r)
    end.

(** A value of [infoMap]. *)
Record TrashInfo : Type := mkTrashInfo {
  originalPath : string;
  deletionDate : jsnum
}.

(** The body of the loop over the [info] folder. *)
Definition readTrashInfo (fs : FileSystem) (files : TrashFiles) (infoPath : string)
    (timeThreshold : jsnum) (infoMap : gmap string TrashInfo) (item : Dirent)
  : gmap string TrashInfo :=
  if d_isFile item && endsWith (d_name item) ".trashinfo" then
    match readText files (pathJoin fs infoPath (d_name item)) with
    | Some content =>
        match matchAfter "Path=" content, matchAfter "DeletionDate=" content with
        | Some originalPath, Some deletionText =>
            let deletionDate := parseDate files deletionText in
            if geb deletionDate timeThreshold then
              let basename := replaceFirst ".trashinfo" "" (d_name item) in
              <[basename := mkTrashInfo originalPath deletionDate]> infoMap
            else infoMap
        | _, _ => infoMap
        end
    | None => infoMap
    end
  else infoMap.

(** The body of the loop over the [files] folder. *)
Definition pushTrashed (files : TrashFiles) (infoMap : gmap string TrashInfo)
    (result : list DeletedFile) (item : Dirent) : list DeletedFile :=
  match infoMap !! d_name item with
  | Some info =>
      result ++ [mkDeletedFile (pathBasename files (originalPath info)) (originalPath info)
                               (deletionDate info) ""]
  | None => result
  end.

(** [searchLinuxTrash(trashPath, infoPath, result, timeThreshold)]: the
    [result] array afterwards. *)
Definition searchLinuxTrash (fs : FileSystem) (files : TrashFiles)
    (trashPath infoPath : string) (result : list DeletedFile) (timeThreshold : jsnum)
  : list DeletedFile :=
  if negb (existsSync fs trashPath) || negb (existsSync fs infoPath) then result else
  match readdirTypes fs trashPath with
  | Some trashItems =>
      match readdirTypes fs infoPath with
      | Some infoItems =>
          let infoMap := foldl (readTrashInfo fs files infoPath timeThreshold) ∅ infoItems in
          foldl (pushTrashed files infoMap) result trashItems
      | None => result
      end
  | None => result
  end.

(** The loop [while (nameEnd < buffer.length && buffer[nameEnd] !== 0 &&
    buffer[nameEnd + 1] !== 0) nameEnd += 2]; an index past the end reads
    [undefined], which is not 0.  [fuel] bounds the number of rounds. *)
Fixpoint scanNameEnd (fuel : nat) (buffer : list Z) (nameEnd : nat) : nat :=
  match fuel with
  | O => nameEnd
  | S fuel =>
      if bool_decide (nameEnd < length buffer)%nat &&
         negb (bool_decide (buffer !! nameEnd = Some 0)) &&
         negb (bool_decide (buffer !! (nameEnd + 1)%nat = Some 0))
      then scanNameEnd fuel buffer (nameEnd + 2)
      else nameEnd
  end.

(** The name given to a finding of the recycle bin: the name of the [$R]
    file, or the text read from the [$I] file beside it.  An exception in
    this block leaves the name as it is. *)
Definition originalNameOf (fs : FileSystem) (files : TrashFiles) (fullPath name : string)
  : string :=
  if startsWith name "$R" then
    let infoFilePath := pathJoin fs fullPath (replaceFirst "$R" "$I" name) in
    if existsSync fs infoFilePath then
      match readBuffer files infoFilePath with
      | Some buffer =>
          if bool_decide (24 < length buffer)%nat then
            let nameStart := 24%nat in
            let nameEnd := scanNameEnd (length buffer) buffer nameStart in
            if bool_decide (nameStart < nameEnd)%nat
            then utf16le files (take (nameEnd - nameStart) (drop nameStart buffer))
            else name
          else name
      | None => name
      end
    else name
  else name.

(** The body of the loop over the entries of one folder of the recycle
    bin; a failing [stat] is caught per entry. *)
Definition pushBinned (fs : FileSystem) (files : TrashFiles) (fullPath : string)
    (timeThreshold : jsnum) (result : list DeletedFile) (subItem : Dirent)
  : list DeletedFile :=
  let subItemPath := pathJoin fs fullPath (d_name subItem) in
  match stat fs subItemPath with
  | Some stats =>
      if geb (Num (st_mtime stats)) timeThreshold then
        result ++ [mkDeletedFile (originalNameOf fs files fullPath (d_name subItem))
                                 subItemPath (Num (st_mtime stats)) ""]
      else result
  | None => result
  end.

(** The body of the loop over the folders of the recycle bin.  Its [catch]
    clause names [fullPath], a constant of the [try] block: unless the error
    is a permission error, the clause itself throws and the search ends. *)
Definition searchBinFolder (fs : FileSystem) (files : TrashFiles) (directory : string)
    (timeThreshold : jsnum) (result : list DeletedFile) (item : Dirent)
  : flow (list DeletedFile) :=
  let fullPath := pathJoin fs directory (d_name item) in
  if d_isDirectory item then
    match readdirTypes fs fullPath with
    | Some subItems =>
        Continue (foldl (pushBinned fs files fullPath timeThreshold) result subItems)
    | None =>
        if permissionDenied files fullPath then Continue result else Abort result
    end
  else Continue result.

(** [searchRecycleBin(directory, result, timeThreshold)]: the [result]
    array afterwards. *)
Definition searchRecycleBin (fs : FileSystem) (files : TrashFiles) (directory : string)
    (result : list DeletedFile) (timeThreshold : jsnum) : list DeletedFile :=
  if negb (existsSync fs directory) then result else
  caught
    match readdirTypes fs directory with
    | Some items => forEach (searchBinFolder fs files directory timeThreshold) items result
    | None => Abort result
    end.

(** The trash of a Linux home and the recycle bin below [USERPROFILE], as
    [getRecentlyDeletedFiles] of the first variant searches them. *)
Definition linuxTrash (fs : FileSystem) (files : TrashFiles) (timeThreshold : jsnum)
  : list DeletedFile :=
  searchLinuxTrash fs files
    (pathJoinAll fs (homedir fs) [".local"; "share"; "Trash"; "files"])
    (pathJoinAll fs (homedir fs) [".local"; "share"; "Trash"; "info"])
    [] timeThreshold.

Definition recycleBin (fs : FileSystem) (files : TrashFiles) (userProfile : string)
    (timeThreshold : jsnum) : list DeletedFile :=
  searchRecycleBin fs files (pathJoin fs userProfile "$Recycle.Bin") [] timeThreshold.

(** *** Extension-change checker *)

(** An entry of [similarFiles]. *)
Record SimilarFile : Type := mkSimilarFile {
  sf_name : string;
  sf_path : string;
  sf_modifiedTime : Z
}.

(** A finding of [checkFileExtensionChanges]. *)
Record ExtensionChange : Type := mkExtensionChange {
  ec_name : string;
  ec_path : string;
  modifiedTime : Z;
  ec_reason : string;
  similarFiles : list SimilarFile
}.

Definition suspiciousExtensions : list string :=
  [".jar.txt"; ".exe.txt"; ".jar.png"; ".exe.png"; ".jar.jpg"; ".exe.jpg";
   ".minecraft.jar"; ".dll.txt"; ".dll.jar"; ".bat.txt"; ".vbs.txt"].

(** The inner loop over the items of the same directory: the other files
    whose lower-case name holds the lower-case base name; a file whose
    [stat] fails is left out. *)
Definition similarTo (fs : FileSystem) (directory : string) (items : list Dirent)
    (item : Dirent) (baseName : string) : list SimilarFile :=
  flat_map (fun otherItem =>
    if negb (bool_decide (d_name otherItem = d_name item)) &&
       includes (toLowerCase (d_name otherItem)) (toLowerCase baseName) then
      let otherPath := pathJoin fs directory (d_name otherItem) in
      match stat fs otherPath with
      | Some otherStats =>
          [mkSimilarFile (d_name otherItem) otherPath (st_mtime otherStats)]
      | None => []
      end
    else []) items.

(** [findRecentlyModifiedFiles(directory, result, depth)]; [levels] counts
    the levels left before [depth > 10].  [Date.now()] is read once for each
    directory that is listed: the state holds the [result] array and the
    number of readings so far, and [now k] is the answer of reading [k]. *)
Fixpoint findRecentlyModifiedFiles (levels : nat) (fs : FileSystem) (now : nat -> Z)
    (directory : string) (state : list ExtensionChange * nat)
  : list ExtensionChange * nat :=
  match levels with
  | O => state
  | S deeper =>
      if shouldSkipDirectory directory then state else
      match readdirTypes fs directory with
      | None => state
      | Some items =>
          let oneWeekAgo := now state.2 - 7 * 24 * 60 * 60 * 1000 in
          foldl (fun state item =>
            let fullPath := pathJoin fs directory (d_name item) in
            if d_isDirectory item then
              findRecentlyModifiedFiles deeper fs now fullPath state
            else
              match stat fs fullPath with
              | None => state
              | Some stats =>
                  if bool_decide (oneWeekAgo < st_mtime stats) then
                    let fileName := toLowerCase (d_name item) in
                    if existsb (fun ext => includes fileName ext) suspiciousExtensions then
                      let similarFiles :=
                        match getOriginalNameGuess (d_name item) with
                        | Some baseName =>
                            if truthy baseName
                            then similarTo fs directory items item baseName
                            else []
                        | None => []
                        end in
                      (state.1 ++
                         [mkExtensionChange (d_name item) fullPath (st_mtime stats)
                            "Posible cambio de extensión para ocultar tipo real"
                            similarFiles], state.2)
                    else state
                  else state
              end) (state.1, S state.2) items
      end
  end.

Definition gameDirs (fs : FileSystem) : list string :=
  [pathJoinAll fs (homedir fs) ["AppData"; "Roaming"; ".minecraft"];
   pathJoinAll fs (homedir fs) ["AppData"; "Local"; "Packages"];
   "C:\Games"; "D:\Games"; "E:\Games";
   pathJoin fs (homedir fs) "Games"].

Definition byModifiedTimeDesc (a b : ExtensionChange) : jsnum :=
  sub (Num (modifiedTime b)) (Num (modifiedTime a)).

Definition checkFileExtensionChanges (fs : FileSystem) (now : nat -> Z)
  : list ExtensionChange :=
  let homeDir := homedir fs in
  let state := findRecentlyModifiedFiles 11 fs now (pathJoin fs homeDir "Downloads") ([], 0%nat) in
  let state := findRecentlyModifiedFiles 11 fs now (pathJoin fs homeDir "Desktop") state in
  let state := findRecentlyModifiedFiles 11 fs now (pathJoin fs homeDir "Documents") state in
  let state :=
    foldl (fun state gameDir =>
             if existsSync fs gameDir
             then findRecentlyModifiedFiles 11 fs now gameDir state
             else state) state (gameDirs fs) in
  sort byModifiedTimeDesc state.1.

(** *** USB disconnection check *)

Record UsbDetail : Type := mkUsbDetail {
  device : string;
  time : string
}.

Record UsbResult : Type := mkUsbResult {
  disconnected : bool;
  details : list UsbDetail
}.

(** An event of the answer of PowerShell: the time value of
    [new Date(event.Time)] and its [toLocaleString] text, and [event.Device],
    [None] when the property is missing. *)
Record UsbEvent : Type := mkUsbEvent {
  eventTime : jsnum;
  eventTimeText : string;
  eventDevice : option string
}.

(** The body of [events.forEach]; reading [length] of a missing [Device]
    throws, which ends the loop with [disconnected] already set. *)
Definition usbEventStep (thirtyMinutesAgo : Z) (result : UsbResult) (event : UsbEvent)
  : flow UsbResult :=
  if geb (eventTime event) (Num thirtyMinutesAgo) then
    let result := mkUsbResult true (details result) in
    match eventDevice event with
    | Some deviceInfo =>
        let deviceInfo :=
          if bool_decide (100 < String.length deviceInfo)%nat
          then substringTo 100 deviceInfo +:+ "..."
          else deviceInfo in
        Continue (mkUsbResult (disconnected result)
                    (details result ++ [mkUsbDetail deviceInfo (eventTimeText event)]))
    | None => Abort result
    end
  else Continue result.

Definition isDigit (c : ascii) : bool :=
  let n := nat_of_ascii c in ((48 <=? n)%nat && (n <=? 57)%nat)%bool.

(** The shape [\d{4}-\d{2}-\d{2} \d{2}:\d{2}:\d{2}]: [None] stands for a
    digit. *)
Definition timestampShape : list (option ascii) :=
  let d := None in
  [d; d; d; d; Some "-"%char; d; d; Some "-"%char; d; d; Some " "%char;
   d; d; Some ":"%char; d; d; Some ":"%char; d; d].

Fixpoint hasShape (shape : list (option ascii)) (s : string) : bool :=
  match shape, s with
  | [], _ => true
  | _ :: _, EmptyString => false
  | Some a :: shape, String c r => bool_decide (a = c) && hasShape shape r
  | None :: shape, String c r => isDigit c && hasShape shape r
  end.

(** [line.match(pattern)] for the pattern of a timestamp: the leftmost
    match. *)
Fixpoint findTimestamp (line : string) : option string :=
  if hasShape timestampShape line then Some (substringTo (length timestampShape) line)
  else
    match line with
    | EmptyString => None
    | String _ r => findTimestamp r
    end.

(** White space and line ends, as [trim] removes them. *)
Definition isWhiteSpace (c : ascii) : bool :=
  bool_decide (nat_of_ascii c ∈ [9; 10; 11; 12; 13; 32; 160]%nat).

Fixpoint trimStart (s : string) : string :=
  match s with
  | EmptyString => EmptyString
  | String c r => if isWhiteSpace c then trimStart r else s
  end.

Fixpoint trimEnd (s : string) : string :=
  match s with
  | EmptyString => EmptyString
  | String c r =>
      match trimEnd r with
      | EmptyString => if isWhiteSpace c then EmptyString else String c EmptyString
      | kept => String c kept
      end
  end.

(** [String.prototype.trim]. *)
Definition trim (s : string) : string := trimEnd (trimStart s).

Fixpoint dropDigits (s : string) : string :=
  match s with
  | EmptyString => EmptyString
  | String c r => if isDigit c then dropDigits r else s
  end.

(** What follows a match of [\[\d+\.\d+\]] at the start of [s]. *)
Definition afterBracketTime (s : string) : option string :=
  match s with
  | String "[" (String c1 r1) =>
      if isDigit c1 then
        match dropDigits r1 with
        | String "." (String c2 r2) =>
            if isDigit c2 then
              match dropDigits r2 with
              | String "]" rest => Some rest
              | _ => None
              end
            else None
        | _ => None
        end
      else None
  | _ => None
  end.

(** [line.replace(pattern, '')] for that pattern: the leftmost match is
    removed. *)
Fixpoint removeBracketTime (line : string) : string :=
  match afterBracketTime line with
  | Some rest => rest
  | None =>
      match line with
      | EmptyString => EmptyString
      | String c r => String c (removeBracketTime r)
      end
  end.

Definition lineFeed : ascii := "010"%char.

(** The answers of the commands; [None] is a command that fails or, for
    PowerShell, an answer that is blank or cannot be parsed. *)
Record UsbProbe : Type := mkUsbProbe {
  usbEvents : option (list UsbEvent);
  systemProfiler : option string;
  usbLog : option string;
  dmesg : option string
}.

(** [checkUSBDisconnection]; [now] is [Date.now()]. *)
Definition checkUSBDisconnection (fs : FileSystem) (probe : UsbProbe) (now : Z) : UsbResult :=
  let result := mkUsbResult false [] in
  match platform fs with
  | win32 =>
      match usbEvents probe with
      | Some events =>
          let thirtyMinutesAgo := now - 30 * 60 * 1000 in
          caught (forEach (usbEventStep thirtyMinutesAgo) events result)
      | None => result
      end
  | darwin =>
      match systemProfiler probe, usbLog probe with
      | Some stdout, Some logOutput =>
          let disconnectionLines :=
            filter (fun line => includes line "disconnect" || includes line "detach" = true)
                   (split lineFeed logOutput) in
          if bool_decide (0 < length disconnectionLines)%nat then
            mkUsbResult true
              (details result ++
               map (fun line =>
                      mkUsbDetail "Dispositivo USB"
                        (default "Tiempo desconocido" (findTimestamp line)))
                   disconnectionLines)
          else result
      | _, _ => result
      end
  | _ =>
      match dmesg probe with
      | Some stdout =>
          let lines := filter (fun line => trim line <> "") (split lineFeed stdout) in
          if bool_decide (0 < length lines)%nat then
            mkUsbResult true
              (details result ++
               map (fun line => mkUsbDetail (trim (removeBracketTime line)) "Recientemente")
                   lines)
          else result
      | None => result
      end
  end.

(** *** Screen-recording checker *)

Record ScreenResult : Type := mkScreenResult {
  recording : bool;
  applications : list string
}.

Definition recordingApps : list string :=
  ["OBS Studio"; "OBS"; "Streamlabs OBS"; "XSplit"; "Bandicam"; "Camtasia";
   "ScreenRecorder"; "Fraps"; "Action!"; "ShareX"; "Screencast-O-Matic";
   "Debut"; "CamStudio"; "ScreenFlow"; "QuickTime Player"; "ScreencastX";
   "ScreenRec"; "Movavi Screen Recorder"; "Icecream Screen Recorder";
   "Apowersoft"; "ScreenToGif"; "DU Recorder"; "AZ Screen Recorder"; "FBX";
   "FFmpeg"; "Screen Recorder"].

Definition falsePositives : list string :=
  ["Capture One"; "Capture NX"; "Capture Manager"; "Capture Service";
   "Windows Media Player"; "Windows Photo Viewer"; "Photos"; "Camera";
   "ScreenSaver"; "ScreenConnect"; "Screen Time"; "Microsoft Teams";
   "Adobe Capture"; "TeamViewer"].

(** [table.some(app => text.toLowerCase().includes(app.toLowerCase()))]. *)
Definition mentions (table : list string) (text : string) : bool :=
  existsb (fun app => includes (toLowerCase text) (toLowerCase app)) table.

Definition setRecording (result : ScreenResult) : ScreenResult :=
  mkScreenResult true (applications result).
Definition pushApplication (result : ScreenResult) (entry : string) : ScreenResult :=
  mkScreenResult (recording result) (applications result ++ [entry])%list.

(** One row of [tasklist /v /fo csv]: [None] when the row has no match of
    the field pattern, else the first and the last field without quotes. *)
Definition checkTask (result : ScreenResult) (row : option (string * string))
  : ScreenResult :=
  match row with
  | None => result
  | Some (processName, windowTitle) =>
      let isFalsePositive :=
        mentions falsePositives processName || mentions falsePositives windowTitle in
      if negb isFalsePositive then
        let isRecording :=
          mentions recordingApps processName || mentions recordingApps windowTitle in
        if isRecording then
          pushApplication (setRecording result)
            (processName +:+ (if truthy windowTitle then " (" +:+ windowTitle +:+ ")" else ""))
        else result
      else result
  end.

(** One line of the running services: [None] when it does not match
    ["name","display name"]. *)
Definition checkService (result : ScreenResult) (line : option (string * string))
  : ScreenResult :=
  match line with
  | None => result
  | Some (serviceName, displayName) =>
      let isFalsePositive :=
        mentions falsePositives serviceName || mentions falsePositives displayName in
      if negb isFalsePositive then
        let isRecording :=
          mentions recordingApps serviceName || mentions recordingApps displayName in
        if isRecording then
          pushApplication (setRecording result) ("Servicio: " +:+ displayName)
        else result
      else result
  end.

(** [deviceName.match(/webcam|camera|cam$/i)]. *)
Definition looksLikeWebcam (deviceName : string) : bool :=
  let lower := toLowerCase deviceName in
  includes lower "webcam" || includes lower "camera" || endsWith lower "cam".

(** One line of the capture devices: [None] when it holds no quoted name. *)
Definition checkDevice (result : ScreenResult) (line : option string) : ScreenResult :=
  match line with
  | None => result
  | Some deviceName =>
      let isFalsePositive := mentions falsePositives deviceName in
      if negb isFalsePositive && includes (toLowerCase deviceName) "capture" then
        let result := pushApplication result ("Dispositivo de captura: " +:+ deviceName) in
        if negb (looksLikeWebcam deviceName) then setRecording result else result
      else result
  end.

(** One line of [ps ... -o comm=]. *)
Definition checkProcess (result : ScreenResult) (process : string) : ScreenResult :=
  let isFalsePositive := mentions falsePositives process in
  if negb isFalsePositive then
    let isRecording := mentions recordingApps process in
    if isRecording then pushApplication (setRecording result) process else result
  else result.

(** One line of [tccutil list] that names the screen-capture service:
    [None] when it holds no [*.app] name. *)
Definition checkPermission (result : ScreenResult) (line : option string) : ScreenResult :=
  match line with
  | None => result
  | Some appName =>
      let isFalsePositive := mentions falsePositives appName in
      if negb isFalsePositive then
        pushApplication result (appName +:+ " (tiene permisos de captura)")
      else result
  end.

(** One line of the compositor search. *)
Definition checkCompositor (result : ScreenResult) (process : string) : ScreenResult :=
  if includes process "grep" then result
  else pushApplication (setRecording result)
         ("Compositor de grabación: " +:+ substringTo 50 process +:+ "...").

(** The parsed answers of the commands; [None] is a command that fails (on
    Windows also a task list without header line), which ends the enclosing
    [try] block. *)
Record ScreenProbe : Type := mkScreenProbe {
  tasks : option (list (option (string * string)));
  services : option (list (option (string * string)));
  devices : option (list (option string));
  processes : option (list string);
  permissions : option (list (option string));
  compositors : option (list string)
}.

(** [try { for (x of xs) step } catch {}] around a command answer. *)
Definition scanWith {A : Type} (step : ScreenResult -> A -> ScreenResult)
    (answer : option (list A)) (result : ScreenResult) : ScreenResult :=
  match answer with
  | Some rows => foldl step result rows
  | None => result
  end.

Definition checkScreenRecording (fs : FileSystem) (probe : ScreenProbe) : ScreenResult :=
  let result := mkScreenResult false [] in
  match platform fs with
  | win32 =>
      let result := scanWith checkTask (tasks probe) result in
      let result := scanWith checkService (services probe) result in
      scanWith checkDevice (devices probe) result
  | darwin =>
      match processes probe with
      | Some ps =>
          let result := foldl checkProcess result ps in
          scanWith checkPermission (permissions probe) result
      | None => result
      end
  | _ =>
      match processes probe with
      | Some ps =>
          let result := foldl checkProcess result ps in
          scanWith checkCompositor (compositors probe) result
      | None => result
      end
  end.

(** *** Minecraft mod inspection *)

(** The keyword table of [checkMinecraftModFolders]. *)
Definition modFolderKeywords : list string :=
  ["hack"; "cheat"; "xray"; "autoclicker"; "killaura"; "bhop"; "flight";
   "wallhack"; "noclip"; "speed"; "aimbot"; "esp"; "tracers"; "reach";
   "bypass"; "ghostclient"; "baritone"; "nuker"; "autotool"; "blink";
   "fastplace"; "nofall"; "antiknockback"; "criticals"; "scaffold";
   "timer"; "freecam"; "fullbright"; "jesus"; "phase"; "spoofer"].

(** The keyword table of [scanMinecraftMods]. *)
Definition suspiciousKeywords : list string :=
  (modFolderKeywords ++
   ["macro"; "bot"; "inject"; "pvp"; "autofish"; "aura"; "client"])%list.

Definition whitelistedMods : list string :=
  ["optifine"; "sodium"; "phosphor"; "lithium"; "fabric-api";
   "forge"; "jei"; "rei"; "worldedit"; "performance"; "mod-menu";
   "shulkertooltip"; "shaders"; "dynamiclights"; "appleskin";
   "journeymap"; "voxelmap"; "xaero"; "minimap"; "inventory";
   "craftguide"; "craftpresence"; "ding"; "sound"; "loot"; "voicechat";
   "terralith"; "biomes"; "better"; "durability"; "mouse"; "tweaks";
   "curios"; "baubles"; "gadget"; "utility"; "ftb"; "mekanism";
   "thermal"; "tinkers"; "blood"; "botania"; "computercraft";
   "chisel"; "create"; "refined"; "storage"; "applied"].

(** [table.filter(keyword => nameLower.includes(keyword))]. *)
Definition keywordsFound (table : list string) (nameLower : string) : list string :=
  filter (fun keyword => includes nameLower keyword = true) table.

(** An entry of [result.modFiles]; dates are kept as time values (the
    source renders them with [toLocaleString]). *)
Record ModFile : Type := mkModFile {
  mf_name : string;
  mf_path : string;
  mf_size : Z;
  mf_modifiedTime : Z;
  suspicious : bool;
  mf_reason : string
}.

Definition minecraftFolders (fs : FileSystem) : list string :=
  [pathJoinAll fs (homedir fs) ["AppData"; "Roaming"; ".minecraft"];
   pathJoin fs (homedir fs) ".minecraft";
   pathJoinAll fs (homedir fs) ["Library"; "Application Support"; "minecraft"]].

(** The body of the loop over the [mods] folder; a failing [stat] is caught
    per mod. *)
Definition checkModFile (fs : FileSystem) (modsFolder : string)
    (modFiles : list ModFile) (modFile : Dirent) : list ModFile :=
  if d_isFile modFile && endsWith (d_name modFile) ".jar" then
    let modPath := pathJoin fs modsFolder (d_name modFile) in
    match stat fs modPath with
    | None => modFiles
    | Some modStats =>
        let modNameLower := toLowerCase (d_name modFile) in
        let suspiciousKeywordsFound := keywordsFound modFolderKeywords modNameLower in
        let suspicious := bool_decide (0 < length suspiciousKeywordsFound)%nat in
        let reason :=
          if suspicious then
            "Contiene palabras clave sospechosas: " +:+ join ", " suspiciousKeywordsFound
          else "" in
        (modFiles ++ [mkModFile (d_name modFile) modPath (st_size modStats)
                        (st_mtime modStats) suspicious reason])%list
    end
  else modFiles.




Record ModEntry : Type := mkModEntry {
  me_name : string;
  me_path : string;
  me_size : Z;
  me_lastModified : Z
}.

(** An entry of [result.suspiciousMods]. *)
Record SuspiciousMod : Type := mkSuspiciousMod {
  sm_name : string;
  sm_path : string;
  sm_size : Z;
  sm_lastModified : Z;
  sm_suspiciousKeywords : list string;
  sm_reason : string
}.

Record ModScan : Type := mkModScan {
  suspiciousMods : list SuspiciousMod;
  recentlyModifiedMods : list ModEntry;
  modFolders : list (string * Z)
}.

(** The test [suspiciousNameKeywords.length > 0 && !isWhitelisted] of
    [scanMinecraftMods] on a file name. *)
Definition flagsMod (name : string) : bool :=
  let nameLower := toLowerCase name in
  let suspiciousNameKeywords := keywordsFound suspiciousKeywords nameLower in
  let isWhitelisted := existsb (fun whiteMod => includes nameLower whiteMod) whitelistedMods in
  bool_decide (0 < length suspiciousNameKeywords)%nat && negb isWhitelisted.

Definition oneWeek : Z := 7 * 24 * 60 * 60 * 1000.

(** The body of the loop over the files of a mod folder; [now] is
    [Date.now()].  A failing [stat] leaves the [try] block of the folder. *)
Definition scanModFile (fs : FileSystem) (now : Z) (modFolder : string)
    (result : ModScan) (file : Dirent) : flow ModScan :=
  if d_isFile file && (endsWith (d_name file) ".jar" || endsWith (d_name file) ".zip") then
    let modPath := pathJoin fs modFolder (d_name file) in
    match stat fs modPath with
    | None => Abort result
    | Some stats =>
        let oneWeekAgo := now - oneWeek in
        let isRecent := bool_decide (oneWeekAgo <= st_mtime stats) in
        let nameLower := toLowerCase (d_name file) in
        let suspiciousNameKeywords := keywordsFound suspiciousKeywords nameLower in
        let result :=
          if flagsMod (d_name file) then
            mkModScan
              (suspiciousMods result ++
                 [mkSuspiciousMod (d_name file) modPath (st_size stats) (st_mtime stats)
                    suspiciousNameKeywords
                    ("Contiene palabras clave sospechosas: " +:+
                     join ", " suspiciousNameKeywords)])%list
              (recentlyModifiedMods result) (modFolders result)
          else result in
        Continue
          (if isRecent then
             mkModScan (suspiciousMods result)
               (recentlyModifiedMods result ++
                  [mkModEntry (d_name file) modPath (st_size stats) (st_mtime stats)])%list
               (modFolders result)
           else result)
    end
  else Continue result.

Definition scanModFolder (fs : FileSystem) (now : Z) (result : ModScan)
    (modFolder : string) : ModScan :=
  if existsSync fs modFolder then
    caught
      match stat fs modFolder with
      | None => Abort result
      | Some folderStats =>
          let result :=
            mkModScan (suspiciousMods result) (recentlyModifiedMods result)
                      (modFolders result ++ [(modFolder, st_mtime folderStats)])%list in
          match readdirTypes fs modFolder with
          | None => Abort result
          | Some files => forEach (scanModFile fs now modFolder) files result
          end
      end
  else result.

Definition instanceFolders (fs : FileSystem) : list string :=
  [pathJoinAll fs (homedir fs) ["AppData"; "Roaming"; "MultiMC"; "instances"];
   pathJoinAll fs (homedir fs) ["curseforge"; "minecraft"; "Instances"];
   pathJoinAll fs (homedir fs) ["twitch"; "minecraft"; "Instances"];
   pathJoinAll fs (homedir fs) [".techniclauncher"; "modpacks"];
   pathJoinAll fs (homedir fs) ["Documents"; "Curse"; "Minecraft"; "Instances"];
   pathJoinAll fs (homedir fs) ["GDLauncher"; "instances"]].

(** The mod folders of the instances below one launcher folder. *)
Definition instanceModFolders (fs : FileSystem) (instanceFolder : string) : list string :=
  if existsSync fs instanceFolder then
    match readdirTypes fs instanceFolder with
    | None => []
    | Some instances =>
        flat_map (fun instance =>
          if d_isDirectory instance then
            let instanceModsPath := pathJoinAll fs instanceFolder [d_name instance; "mods"] in
            if existsSync fs instanceModsPath then [instanceModsPath] else []
          else []) instances
    end
  else [].

(** The array [potentialModFolders] when the loop over the instance
    folders is done. *)
Definition potentialModFolders (fs : FileSystem) (minecraftFolder : string) : list string :=
  ([pathJoin fs minecraftFolder "mods"; pathJoin fs minecraftFolder "config"] ++
   flat_map (instanceModFolders fs) (instanceFolders fs))%list.

Definition scanMinecraftMods (fs : FileSystem) (now : Z) : ModScan :=
  let result := mkModScan [] [] [] in
  match filter (fun mcPath => existsSync fs mcPath = true) (minecraftFolders fs) with
  | [] => result
  | minecraftFolder :: _ =>
      foldl (scanModFolder fs now) result (potentialModFolders fs minecraftFolder)
  end.

(** *** Browser-history inspection *)

Record HistoryFile : Type := mkHistoryFile {
  hf_browser : string;
  hf_profile : string;
  hf_path : string
}.

(** History files of a browser that keeps one folder per profile. *)
Definition profileHistories (fs : FileSystem) (browser : string) (profilesDir : string)
    (isProfile : string -> bool) (historyName : string) : list HistoryFile :=
  if existsSync fs profilesDir then
    match readdirTypes fs profilesDir with
    | None => []
    | Some profiles =>
        flat_map (fun profile =>
          if d_isDirectory profile && isProfile (d_name profile) then
            let historyPath := pathJoinAll fs profilesDir [d_name profile; historyName] in
            if existsSync fs historyPath then
              [mkHistoryFile browser (d_name profile) historyPath]
            else []
          else []) profiles
    end
  else [].

Definition chromiumProfile (name : string) : bool :=
  startsWith name "Profile" || bool_decide (name = "Default").

Definition operaHistories (fs : FileSystem) : list HistoryFile :=
  flat_map (fun operaPath : string * string =>
    if existsSync fs operaPath.1 then
      let historyPath := pathJoin fs operaPath.1 "History" in
      if existsSync fs historyPath then [mkHistoryFile operaPath.2 "Default" historyPath]
      else []
    else [])
    [(pathJoinAll fs (homedir fs) ["AppData"; "Roaming"; "Opera Software"; "Opera Stable"], "Opera");
     (pathJoinAll fs (homedir fs) ["AppData"; "Roaming"; "Opera Software"; "Opera GX Stable"], "Opera GX")].

Definition historyPaths (fs : FileSystem) : list HistoryFile :=
  (profileHistories fs "Chrome"
     (pathJoinAll fs (homedir fs) ["AppData"; "Local"; "Google"; "Chrome"; "User Data"])
     chromiumProfile "History" ++
   profileHistories fs "Firefox"
     (pathJoinAll fs (homedir fs) ["AppData"; "Roaming"; "Mozilla"; "Firefox"; "Profiles"])
     (fun name => includes name ".default") "places.sqlite" ++
   profileHistories fs "Edge"
     (pathJoinAll fs (homedir fs) ["AppData"; "Local"; "Microsoft"; "Edge"; "User Data"])
     chromiumProfile "History" ++
   operaHistories fs ++
   profileHistories fs "Brave"
     (pathJoinAll fs (homedir fs) ["AppData"; "Local"; "BraveSoftware"; "Brave-Browser"; "User Data"])
     chromiumProfile "History" ++
   profileHistories fs "Vivaldi"
     (pathJoinAll fs (homedir fs) ["AppData"; "Local"; "Vivaldi"; "User Data"])
     chromiumProfile "History")%list.

(** The answers met while one history file is inspected:
    [tempHistoryPath] is [path.join(tempDir, `history_${Date.now()}.db`)];
    [queryOutput] is the output of the PowerShell query, [None] when the
    command fails; [copySucceeds] and [unlinkSucceeds] tell whether
    [copyFileSync] and [unlinkSync] return or throw. *)
Record Attempt : Type := mkAttempt {
  tempHistoryPath : string;
  copySucceeds : bool;
  queryOutput : option string;
  unlinkSucceeds : bool
}.

(** The body of the loop over the history files, as far as files are
    concerned; what follows the deletion only parses [stdout] into
    [result.sitesDetected]. *)
Definition inspectHistoryFile (attempt : HistoryFile -> Attempt) (tmp : TempDir)
    (historyFile : HistoryFile) : TempDir :=
  let a := attempt historyFile in
  caught
    (if copySucceeds a then
       let tmp :=
         mkTempDir ({[tempHistoryPath a]} ∪ tempFiles tmp)
                   (trace tmp ++ [CopyFile (hf_path historyFile) (tempHistoryPath a)])%list in
       let tmp :=
         mkTempDir (tempFiles tmp) (trace tmp ++ [SqlQuery (tempHistoryPath a)])%list in
       match queryOutput a with
       | None => Abort tmp
       | Some stdout =>
           Continue
             (if unlinkSucceeds a then
                mkTempDir (tempFiles tmp ∖ {[tempHistoryPath a]})
                          (trace tmp ++ [Unlink (tempHistoryPath a)])%list
              else tmp)
       end
     else Abort tmp).

(** [checkBrowserHistoryFiles]: the temporary folder afterwards. *)
Definition checkBrowserHistoryFiles (fs : FileSystem) (attempt : HistoryFile -> Attempt)
    (tmp : TempDir) : TempDir :=
  let found := historyPaths fs in
  if bool_decide (0 < length found)%nat then
    if bool_decide (platform fs = win32) then
      foldl (inspectHistoryFile attempt) tmp found
    else tmp
  else tmp.

(** *** Self-removal of the program *)

(** [registerSelfDestruct]: [tempBatPath] is
    [path.join(os.tmpdir(), `delete_${Date.now()}.bat`)]; the script waits
    for the program to end, then deletes the executable and itself. *)
Definition registerSelfDestruct (tempBatPath : string) (writeError : option JsError)
    (tmp : TempDir) : outcome TempDir :=
  match writeError with
  | None =>
      Returned (mkTempDir ({[tempBatPath]} ∪ tempFiles tmp)
                          (trace tmp ++ [WriteFile tempBatPath; SpawnScript tempBatPath])%list)
  | Some error => Threw error
  end.

(** *** Suspicious processes *)

(** The keyword table of [detectSuspiciousProcesses]. *)
Definition processKeywords : list string :=
  ["hack"; "cheat"; "autoclicker"; "xray"; "killaura"; "injector";
   "memory"; "modify"; "dll"; "bhop"; "esp"; "aimbot"; "minecraft"].

(** An entry of the answer: a process whose name or window title holds a
    keyword, or a module loaded into [minecraft.exe]. *)
Inductive ProcessFinding : Type :=
  | KeywordProcess (name pid : string) (windowTitle : option string)
                   (suspiciousKeywords : list string)
  | InjectedModule (name pid injectedModule type : string).

(** [text.replace] of every double quote by the empty text. *)
Fixpoint removeQuotes (text : string) : string :=
  match text with
  | EmptyString => EmptyString
  | String c r =>
      if bool_decide (c = "034"%char) then removeQuotes r else String c (removeQuotes r)
  end.

(** The values of a [Set] that is filled with the elements of an array, in
    the order in which they were added. *)
Definition setValues (elements : list string) : list string :=
  foldl (fun values element =>
           if bool_decide (element ∈ values) then values else values ++ [element])
        [] elements.

(** The text before the next double quote, and what follows it. *)
Fixpoint untilQuote (s : string) : string * string :=
  match s with
  | EmptyString => (EmptyString, EmptyString)
  | String c r =>
      if bool_decide (c = "034"%char) then (EmptyString, s)
      else let (text, rest) := untilQuote r in (String c text, rest)
  end.

(** [line.match(pattern)] for the pattern of a quoted, non-empty text
    without quotes in it: the group of the leftmost match. *)
Fixpoint matchQuoted (line : string) : option string :=
  match line with
  | EmptyString => None
  | String c r =>
      if bool_decide (c = "034"%char) then
        let (text, rest) := untilQuote r in
        if truthy text && startsWith rest (String "034" "") then Some text
        else matchQuoted r
      else matchQuoted r
  end.

(** The test of a module of [minecraft.exe]. *)
Definition isSuspiciousModule (moduleName : string) : bool :=
  existsb (fun keyword => includes moduleName keyword) processKeywords ||
  (negb (includes moduleName "minecraft") && negb (includes moduleName "java") &&
   negb (startsWith moduleName "jvm") && negb (startsWith moduleName "nt") &&
   negb (startsWith moduleName "api-ms-win") && negb (includes moduleName "vcruntime") &&
   negb (includes moduleName "msvcp") && negb (includes moduleName "system")).

(** The answers of the commands, [None] for a command that fails, and the
    matches of the two patterns that split a line: [csvValues] gives the
    values of a row of [tasklist /fo csv /v], [processLine] the number and
    the name of a row of [ps]. *)
Record ProcessProbe : Type := mkProcessProbe {
  tasklist : option string;
  modulesOf : string -> option string;
  processList : option string;
  csvValues : string -> option (list string);
  processLine : string -> option (string * string)
}.

Definition nonBlankLines (stdout : string) : list string :=
  filter (fun line => trim line <> "") (split lineFeed stdout).

(** The body of the loop over the rows of [tasklist]; a row with fewer
    than two values throws, which is caught per row. *)
Definition keywordRow (probe : ProcessProbe) (line : string) : list ProcessFinding :=
  match csvValues probe line with
  | Some (first :: second :: others) =>
      let processName := removeQuotes first in
      let pid := removeQuotes second in
      let windowTitle := removeQuotes (List.last others second) in
      let processNameLower := toLowerCase processName in
      let windowTitleLower := toLowerCase windowTitle in
      let suspiciousNameKeywords := keywordsFound processKeywords processNameLower in
      let suspiciousTitleKeywords := keywordsFound processKeywords windowTitleLower in
      if bool_decide (0 < length suspiciousNameKeywords)%nat ||
         bool_decide (0 < length suspiciousTitleKeywords)%nat
      then [KeywordProcess processName pid (Some windowTitle)
              (setValues (suspiciousNameKeywords ++ suspiciousTitleKeywords))]
      else []
  | _ => []
  end.

(** The lines of the module list that are examined. *)
Definition moduleLines (modulesOutput : string) : list string :=
  filter (fun line => trim line <> "" /\ includes line "ModuleName" = false)
         (split lineFeed modulesOutput).

(** The body of the loop over the lines of a module list. *)
Definition moduleFinding (pid line : string) : list ProcessFinding :=
  match matchQuoted line with
  | Some quoted =>
      let moduleName := toLowerCase quoted in
      if isSuspiciousModule moduleName
      then [InjectedModule "minecraft.exe" pid moduleName "DLL inyectado"]
      else []
  | None => []
  end.

(** The body of the loop over the rows of [minecraft.exe]. *)
Definition injectedModules (probe : ProcessProbe) (process : string) : list ProcessFinding :=
  match csvValues probe process with
  | Some (_ :: second :: _) =>
      let pid := removeQuotes second in
      match modulesOf probe pid with
      | Some modulesOutput => flat_map (moduleFinding pid) (moduleLines modulesOutput)
      | None => []
      end
  | _ => []
  end.

(** The body of the loop over the rows of [ps]. *)
Definition keywordProcess (probe : ProcessProbe) (line : string) : list ProcessFinding :=
  match processLine probe line with
  | Some (pid, processName) =>
      let processNameLower := toLowerCase processName in
      let suspiciousNameKeywords := keywordsFound processKeywords processNameLower in
      if bool_decide (0 < length suspiciousNameKeywords)%nat
      then [KeywordProcess processName pid None suspiciousNameKeywords]
      else []
  | None => []
  end.

(** [detectSuspiciousProcesses]. *)
Definition detectSuspiciousProcesses (fs : FileSystem) (probe : ProcessProbe)
  : list ProcessFinding :=
  match platform fs with
  | win32 =>
      match tasklist probe with
      | Some stdout =>
          match nonBlankLines stdout with
          | header :: rows =>
              let minecraftProcesses :=
                filter (fun line => includes (toLowerCase line) "minecraft.exe" = true)
                       (split lineFeed stdout) in
              flat_map (keywordRow probe) rows ++
              flat_map (injectedModules probe) minecraftProcesses
          | [] => []
          end
      | None => []
      end
  | _ =>
      match processList probe with
      | Some stdout => flat_map (keywordProcess probe) (tail (nonBlankLines stdout))
      | None => []
      end
  end.

(** *** Command history of the shells *)

(** An entry of the [result] array of [getCommandHistory] before the
    timestamps are rendered. *)
Record CommandEntry : Type := mkCommandEntry {
  ce_source : string;
  command : string;
  timestamp : jsnum
}.

(** [lines.slice(-n)]: the last [n] elements. *)
Definition sliceLast {A : Type} (n : nat) (lines : list A) : list A :=
  drop (length lines - n) lines.

Fixpoint dropWhiteSpace (s : string) : string :=
  match s with
  | EmptyString => EmptyString
  | String c r => if isWhiteSpace c then dropWhiteSpace r else s
  end.

Fixpoint takeDigits (s : string) : string :=
  match s with
  | EmptyString => EmptyString
  | String c r => if isDigit c then String c (takeDigits r) else EmptyString
  end.

(** The match of a line of the Zsh history that starts with a colon, a
    number of seconds, a colon, a number and a semicolon: the seconds and
    what follows the semicolon. *)
Definition zshPrefix (line : string) : option (string * string) :=
  match line with
  | String ":" r =>
      let r := dropWhiteSpace r in
      let seconds := takeDigits r in
      if truthy seconds then
        match dropDigits r with
        | String ":" r =>
            if truthy (takeDigits r) then
              match dropDigits r with
              | String ";" rest => Some (seconds, rest)
              | _ => None
              end
            else None
        | _ => None
        end
      else None
  | _ => None
  end.

(** What the probe reads: the text of a file ([None] when reading fails),
    and [millisOf seconds], the number [parseInt(seconds) * 1000]. *)
Record HistoryFiles : Type := mkHistoryFiles {
  readHistory : string -> option string;
  millisOf : string -> Z
}.

(** The body of the loop over the last lines of a history file. *)
Definition commandOfLine (files : HistoryFiles) (source : string) (mtime : Z)
    (line : string) : CommandEntry :=
  match (if bool_decide (source = "Zsh") then zshPrefix line else None) with
  | Some (seconds, rest) =>
      if truthy rest && noLineTerminator rest
      then mkCommandEntry source rest (Num (millisOf files seconds))
      else mkCommandEntry source line (Num mtime)
  | None => mkCommandEntry source line (Num mtime)
  end.

(** The history files of the shells, with the name of the shell. *)
Definition shellHistoryFiles (fs : FileSystem) : list (string * string) :=
  let homeDir := homedir fs in
  [(pathJoin fs homeDir ".bash_history", "Bash");
   (pathJoin fs homeDir ".zsh_history", "Zsh");
   (pathJoin fs homeDir ".sh_history", "Shell");
   (pathJoin fs homeDir ".history", "Shell");
   (pathJoinAll fs homeDir [".local"; "share"; "fish"; "fish_history"], "Fish")].

(** The body of the loop over the history files: a file that cannot be
    read, or whose [stat] fails, adds nothing. *)
Definition readShellHistory (fs : FileSystem) (files : HistoryFiles)
    (result : list CommandEntry) (historyFile : string * string) : list CommandEntry :=
  if existsSync fs historyFile.1 then
    match readHistory files historyFile.1 with
    | Some content =>
        match stat fs historyFile.1 with
        | Some stats =>
            let lines := nonBlankLines content in
            let recentCommands := sliceLast 50 lines in
            result ++ map (commandOfLine files historyFile.2 (st_mtime stats)) recentCommands
        | None => result
        end
    | None => result
    end
  else result.

Definition byTimestampDesc (a b : CommandEntry) : jsnum :=
  sub (timestamp b) (timestamp a).

(** [getCommandHistory] on a platform other than Windows, before the
    timestamps are rendered with [toLocaleString]. *)
Definition shellCommandHistory (fs : FileSystem) (files : HistoryFiles)
  : list CommandEntry :=
  let result := foldl (readShellHistory fs files) [] (shellHistoryFiles fs) in
  sort byTimestampDesc result.

(** *** Execution history: order and duplicates *)

(** An entry of the [result] array of [getCompleteExecutionHistory], as
    its last part reads it: [startText] is [String(startTime)] and
    [startDate] the time value of the date that the comparator builds,
    [new Date(startTime)], or [new Date(0)] when [startTime] is missing. *)
Record HistoryEntry : Type := mkHistoryEntry {
  he_name : string;
  he_source : string;
  startText : string;
  startDate : jsnum
}.

(** The comparator of the final sort; [localeCompare] is
    [String.prototype.localeCompare]. *)
Definition byStartDateDesc (localeCompare : string -> string -> Z) (a b : HistoryEntry)
  : jsnum :=
  match startDate a, startDate b with
  | Num timeA, Num timeB => Num (timeB - timeA)
  | _, _ => Num (localeCompare (startText b) (startText a))
  end.

(** The end of [getCompleteExecutionHistory]: the collected entries are
    sorted, then of the entries with the same lower-case name the first is
    kept. *)
Definition finishExecutionHistory (localeCompare : string -> string -> Z)
    (result : list HistoryEntry) : list HistoryEntry :=
  let result := sort (byStartDateDesc localeCompare) result in
  (foldl (keepUnseen (fun item => toLowerCase (he_name item))) (∅, []) result).2.

(** *** Opening the location of a file *)

(** What [openFileLocation] starts: [explorer.exe /select] on the file, or
    [shell.openPath] on a folder. *)
Inductive Opened : Type :=
  | ExplorerSelect (filePath : string)
  | OpenPath (folder : string).

(** [path.dirname], the error of a failing [stat], and the outcome of what
    is started ([None]: it succeeds). *)
Record Shell : Type := mkShell {
  dirname : string -> string;
  statError : string -> JsError;
  start : Opened -> option JsError
}.

(** [openFileLocation(filePath)]: the answer [{ success: true }] is given
    together with what was started; the [catch] clause throws the error
    again. *)
Definition openFileLocation (fs : FileSystem) (shell : Shell) (filePath : string)
  : outcome Opened :=
  if negb (existsSync fs filePath) then
    Threw (mkError ("La ruta no existe: " +:+ filePath))
  else
    match stat fs filePath with
    | Some stats =>
        let opened :=
          if st_isFile stats then
            if bool_decide (platform fs = win32) then ExplorerSelect filePath
            else OpenPath (dirname shell filePath)
          else OpenPath filePath in
        match start shell opened with
        | None => Returned opened
        | Some error => Threw error
        end
    | None => Threw (statError shell filePath)
    end.

End V1.

(** ** Second variant of systemUtils *)
Module V2.

Definition isDigit (c : ascii) : bool :=
  let n := nat_of_ascii c in ((48 <=? n)%nat && (n <=? 57)%nat)%bool.

(** Length of the text matched at the start of [s] by
    [(old|new|bak|backup|copy|renamed|changed|\d{4}-\d{2}-\d{2})], the
    alternatives being tried in this order. *)
Definition renameWords : list string :=
  ["old"; "new"; "bak"; "backup"; "copy"; "renamed"; "changed"].

Definition matchDate (s : string) : option nat :=
  match s with
  | String a (String b (String c (String d (String "-"
      (String e (String f (String "-" (String g (String h _))))))))) =>
      if isDigit a && isDigit b && isDigit c && isDigit d &&
         isDigit e && isDigit f && isDigit g && isDigit h
      then Some 10%nat else None
  | _ => None
  end.

Definition matchRenameWord (s : string) : option nat :=
  match filter (fun w => startsWith s w = true) renameWords with
  | w :: _ => Some (String.length w)
  | [] => matchDate s
  end.

(** [filename.replace(/(\.|_)(old|...|\d{4}-\d{2}-\d{2})/, '')]: the leftmost
    match is removed, the rest is kept. *)
Fixpoint removeRenamePattern (s : string) : string :=
  match s with
  | EmptyString => EmptyString
  | String c r =>
      if bool_decide (c = "."%char) || bool_decide (c = "_"%char) then
        match matchRenameWord r with
        | Some n => substringFrom n r
        | None => String c (removeRenamePattern r)
        end
      else String c (removeRenamePattern r)
  end.

Definition getOriginalNameGuess (filename : string) : string :=
  let parts := split "." filename in
  if bool_decide (2 < length parts)%nat then
    default "" (parts !! 0%nat) +:+ "." +:+ default "" (last parts)
  else
    let cleanName := removeRenamePattern filename in
    cleanName.

(** *** JAR finder *)

Record JarInfo : Type := mkJarInfo {
  jar_name : string;
  jar_path : string;
  jar_size : Z;
  lastModified : Z
}.

Definition skipDirs : list string :=
  ["Windows"; "Program Files"; "Program Files (x86)"; "ProgramData";
   "System Volume Information"; "$Recycle.Bin"; "node_modules"].

Definition shouldSkipDirectory (directory : string) : bool :=
  existsb (fun dir => includes directory dir) skipDirs.

(** [searchJarFilesRecursively(directory, result, depth)]; [levels] counts
    the levels left before [depth > 10], so the call at depth 0 has 11. *)
Fixpoint searchJarFilesRecursively (levels : nat) (fs : FileSystem)
    (directory : string) (result : list JarInfo) : list JarInfo :=
  match levels with
  | O => result
  | S deeper =>
      match readdirNames fs directory with
      | None => result
      | Some files =>
          foldl (fun result file =>
            if startsWith file "." then result else
            let fullPath := pathJoin fs directory file in
            match stat fs fullPath with
            | None => result
            | Some stats =>
                if st_isDirectory stats then
                  if negb (shouldSkipDirectory fullPath) then
                    searchJarFilesRecursively deeper fs fullPath result
                  else result
                else if endsWith file ".jar" then
                  (result ++ [mkJarInfo file fullPath (st_size stats) (st_mtime stats)])%list
                else result
            end) result files
      end
  end.

(** ["A:\"] to ["Z:\"]. *)
Definition driveCandidates : list string :=
  map (fun i => String (ascii_of_nat i) ":\") (seq 65 26).

Definition driveLetters (fs : FileSystem) : list string :=
  if bool_decide (platform fs = win32) then
    filter (fun driveLetter => existsSync fs driveLetter = true) driveCandidates
  else ["/"].

Definition commonLocations (fs : FileSystem) : list string :=
  let userHome := homedir fs in
  [pathJoin fs userHome "Downloads";
   pathJoin fs userHome "Desktop";
   pathJoin fs userHome "Documents";
   pathJoinAll fs userHome ["AppData"; "Roaming"; ".minecraft"];
   pathJoinAll fs userHome ["AppData"; "Roaming"; ".minecraft"; "mods"];
   pathJoinAll fs userHome ["AppData"; "Roaming"; ".minecraft"; "versions"];
   pathJoinAll fs userHome ["AppData"; "Roaming"; ".minecraft"; "libraries"]].

Definition findAllJarFiles (fs : FileSystem) : list JarInfo :=
  let jarFiles :=
    foldl (fun jarFiles location =>
             if existsSync fs location then
               searchJarFilesRecursively 11 fs location jarFiles
             else jarFiles) [] (commonLocations fs) in
  if bool_decide (length jarFiles < 10)%nat then
    foldl (fun jarFiles drive => searchJarFilesRecursively 11 fs drive jarFiles)
          jarFiles (driveLetters fs)
  else jarFiles.

(** *** Deleted-file finder *)

(** [deletedTime] is the time value of the [Date] kept in the field. *)
Record DeletedFile : Type := mkDeletedFile {
  df_name : string;
  df_path : string;
  deletedTime : jsnum
}.

Definition byDeletedTimeDesc (a b : DeletedFile) : jsnum :=
  sub (deletedTime b) (deletedTime a).

(** [getRecentlyDeletedFiles]: [deletedFiles] is the array when the [try]
    block that queries the event log and the trash of the platform is left,
    normally or through its [catch] clause. *)
Definition getRecentlyDeletedFiles (deletedFiles : list DeletedFile) : list DeletedFile :=
  slice0 20 (sort byDeletedTimeDesc deletedFiles).

(** *** Executed-JAR finder *)

(** [startTime] is the time value of [new Date(startTime)], which the final
    comparator computes from the field. *)
Record ExecutedJar : Type := mkExecutedJar {
  ej_name : string;
  ej_path : string;
  ej_startTime : jsnum;
  ej_source : string
}.

Definition uniqueByLowerPath (executedJars : list ExecutedJar) : list ExecutedJar :=
  (foldl (keepUnseen (fun jar => toLowerCase (ej_path jar))) (∅, []) executedJars).2.

Definition byStartTimeDesc (a b : ExecutedJar) : jsnum :=
  sub (ej_startTime b) (ej_startTime a).

(** [getRecentlyExecutedJars]: [executedJars] is the array when the [try]
    block that queries the processes, logs and folders of the platform is
    left, normally or through its [catch] clause. *)
Definition getRecentlyExecutedJars (executedJars : list ExecutedJar) : list ExecutedJar :=
  let uniqueJars := uniqueByLowerPath executedJars in
  sort byStartTimeDesc uniqueJars.

(** *** Screen-recording checker *)

Definition screenRecordingApps : list string :=
  ["OBS Studio"; "obs64.exe"; "obs.exe"; "obs-studio";
   "Bandicam"; "bdcam.exe"; "bandicam.exe";
   "Camtasia"; "camtasia.exe"; "camtasiastudio.exe";
   "Action!"; "action.exe"; "mirillis.exe";
   "Fraps"; "fraps.exe";
   "Streamlabs OBS"; "streamlabs-obs.exe";
   "XSplit"; "xsplit.exe"; "xsplitbroadcaster.exe";
   "DXtory"; "dxtory.exe";
   "Nvidia ShadowPlay"; "nvstreamsvc.exe"; "nvspcaps64.exe";
   "AMD ReLive"; "amdow.exe"; "radeonoverlay";
   "Movavi Screen Recorder"; "movavi_screencapturer.exe";
   "ScreenRec"; "screenrec.exe";
   "ScreenCastify"; "screencastify";
   "ScreenFlow";
   "FFmpeg"; "ffmpeg.exe";
   "D3DGear"; "d3dgear.exe";
   "Icecream Screen Recorder"; "icecreamscreenrecorder.exe";
   "CamStudio"; "camstudio.exe";
   "TinyTake"; "tinytake.exe";
   "Screencast-O-Matic"; "screencastomatic.exe";
   "Debut Video Capture"; "debut.exe";
   "FlashBack Express"; "flashback.exe";
   "Snagit"; "snagit.exe";
   "ActivePresenter"; "activepresenter.exe";
   "Apowersoft Screen Recorder"; "apowersoftscreenrecorder.exe";
   "AceThinker Screen Grabber Pro"; "acethinkerscreengrabber.exe";
   "iSpring Cam"; "ispringcam.exe";
   "Screen Recorder Gold"; "screenrecordergold.exe";
   "Any Video Recorder"; "anyvideorecorder.exe";
   "Xbox Game Bar"; "gamebar.exe"; "xboxgamebar.exe"; "gamebarft.exe";
   "Windows Game Recording"; "xboxapp.exe"; "gamerecording";
   "QuickTime Player";
   "Loom"; "loom.exe";
   "Nimbus"; "nimbus.exe";
   "Awesome Screenshot";
   "Screencastify";
   "ShareX"; "sharex.exe";
   "Screen Capture";
   "Grabilla"; "grabilla.exe";
   "screen recorder"; "screenrecorder";
   "capture"; "screen capture"; "screencapture";
   "record"; "recording"; "grabber";
   "screengrab"; "screen grab"].

Record ScreenResult : Type := mkScreenResult {
  recording : bool;
  applications : list string
}.

(** The fallback search of the whole output for the names of the table. *)
Definition searchOutput (processOutput : string) (detectedApps : list string)
  : list string :=
  foldl (fun detectedApps app =>
           if includes (toLowerCase processOutput) (toLowerCase app) then
             if bool_decide (app ∈ detectedApps) then detectedApps
             else (detectedApps ++ [app])%list
           else detectedApps) detectedApps screenRecordingApps.

(** [checkScreenRecording]: [scan] holds [processOutput] and [detectedApps]
    as the platform-specific block leaves them, or [None] when an exception
    reaches the outer [catch] clause. *)
Definition checkScreenRecording (scan : option (string * list string)) : ScreenResult :=
  match scan with
  | Some (processOutput, detectedApps) =>
      let detectedApps :=
        if bool_decide (length detectedApps = 0%nat) then
          searchOutput processOutput detectedApps
        else detectedApps in
      mkScreenResult (bool_decide (0 < length detectedApps)%nat) detectedApps
  | None => mkScreenResult false []
  end.

(** *** Browser-history inspection *)

(** The block of [detectMinecraftCheats] for the history file of Chrome, of
    Edge and of Opera, as far as files are concerned: [tempHistoryPath] is
    [path.join(os.tmpdir(), 'temp_chrome_history')] and the like.  The query
    is started with [.catch(() => ({ stdout: '[]' }))], so a failing command
    does not leave the block; the answer is parsed inside a [try] of its own. *)
Definition inspectHistoryCopy (historyPath tempHistoryPath : string)
    (copySucceeds unlinkSucceeds : bool) (tmp : TempDir) : TempDir :=
  caught
    (if copySucceeds then
       let tmp :=
         mkTempDir ({[tempHistoryPath]} ∪ tempFiles tmp)
                   (trace tmp ++ [CopyFile historyPath tempHistoryPath;
                                  SqlQuery tempHistoryPath]) in
       if unlinkSucceeds then
         Continue (mkTempDir (tempFiles tmp ∖ {[tempHistoryPath]})
                             (trace tmp ++ [Unlink tempHistoryPath]))
       else Abort tmp
     else Abort tmp).

(** *** Extension-change checker *)

(** An entry of [recentlyModified]. *)
Record RecentFile : Type := mkRecentFile {
  rf_name : string;
  rf_path : string;
  rf_modifiedTime : Z;
  rf_size : Z
}.

(** [findRecentlyModifiedFiles(directory, result, depth)]; [levels] counts
    the levels left before [depth > 5].  For every entry whose [stat]
    succeeds the date of 24 hours ago is computed anew: the state holds the
    [result] array and the number of these computations, and [dayAgo k] is
    the time value that computation [k] yields. *)
Fixpoint findRecentlyModifiedFiles (levels : nat) (fs : FileSystem) (dayAgo : nat -> Z)
    (directory : string) (state : list RecentFile * nat) : list RecentFile * nat :=
  match levels with
  | O => state
  | S deeper =>
      match readdirNames fs directory with
      | None => state
      | Some files =>
          foldl (fun state file =>
            let fullPath := pathJoin fs directory file in
            match stat fs fullPath with
            | None => state
            | Some stats =>
                let fileModTime := st_mtime stats in
                let oneHourAgo := dayAgo state.2 in
                let state := (state.1, S state.2) in
                if st_isDirectory stats && negb (startsWith file ".") then
                  findRecentlyModifiedFiles deeper fs dayAgo fullPath state
                else if st_isFile stats && bool_decide (oneHourAgo < fileModTime) then
                  (state.1 ++ [mkRecentFile file fullPath fileModTime (st_size stats)],
                   state.2)
                else state
            end) state files
      end
  end.

Definition dirsToCheck (fs : FileSystem) : list string :=
  let userHome := homedir fs in
  [pathJoin fs userHome "Desktop";
   pathJoin fs userHome "Documents";
   pathJoin fs userHome "Downloads";
   pathJoinAll fs userHome ["AppData"; "Roaming"; ".minecraft"];
   pathJoinAll fs userHome ["AppData"; "Roaming"; ".minecraft"; "mods"];
   pathJoinAll fs userHome ["AppData"; "Roaming"; ".minecraft"; "resourcepacks"];
   pathJoinAll fs userHome ["AppData"; "Roaming"; ".minecraft"; "screenshots"]].

(** The [recentlyModified] array when the folders have been walked. *)
Definition recentlyModifiedFiles (fs : FileSystem) (dayAgo : nat -> Z) : list RecentFile :=
  (foldl (fun state dir => findRecentlyModifiedFiles 6 fs dayAgo dir state)
         ([], 0%nat) (dirsToCheck fs)).1.

(** The pattern of a name that was given a suffix: a dot or an underscore
    followed by one of the words. *)
Fixpoint hasUncommonNaming (filename : string) : bool :=
  match filename with
  | EmptyString => false
  | String c r =>
      ((bool_decide (c = "."%char) || bool_decide (c = "_"%char)) &&
       existsb (fun word => startsWith r word)
               ["old"; "new"; "bak"; "backup"; "copy"; "renamed"; "changed"]) ||
      hasUncommonNaming r
  end.

Definition digitsThenDash (n : nat) : list (option ascii) :=
  replicate n None ++ [Some "-"%char].

(** A date, year first or year last, or a number in parentheses, at the
    start of [s]. *)
Definition datePatternAt (s : string) : bool :=
  V1.hasShape (digitsThenDash 4 ++ digitsThenDash 2 ++ replicate 2 None) s ||
  V1.hasShape (digitsThenDash 2 ++ digitsThenDash 2 ++ replicate 4 None) s ||
  match s with
  | String "(" r => V1.truthy (V1.takeDigits r) && startsWith (V1.dropDigits r) ")"
  | _ => false
  end.

Fixpoint hasDatePattern (filename : string) : bool :=
  datePatternAt filename ||
  match filename with
  | EmptyString => false
  | String _ r => hasDatePattern r
  end.

(** [s.lastIndexOf('.')], [None] for -1. *)
Fixpoint lastIndexOfDot (s : string) : option nat :=
  match s with
  | EmptyString => None
  | String c r =>
      match lastIndexOfDot r with
      | Some i => Some (S i)
      | None => if bool_decide (c = "."%char) then Some 0%nat else None
      end
  end.

(** [name.substring(0, name.lastIndexOf('.'))]; a negative end counts as
    0. *)
Definition baseNameOf (name : string) : string :=
  substringTo (default 0%nat (lastIndexOfDot name)) name.

(** An entry of the answer. *)
Record RenamedFile : Type := mkRenamedFile {
  rn_name : string;
  rn_path : string;
  rn_modifiedTime : Z;
  originalName : option string;
  similarFiles : list (string * string * Z);
  reason : string
}.

(** The body of the loop over [recentlyModified]; [basename] is
    [path.basename]. *)
Definition renamedEntries (basename : string -> string) (recentlyModified : list RecentFile)
    (file : RecentFile) : list RenamedFile :=
  let filename := basename (rf_path file) in
  let hasMultipleExtensions := bool_decide (2 < length (split "." filename))%nat in
  let hasUncommonNaming := hasUncommonNaming filename in
  let hasDatePattern := hasDatePattern filename in
  let renamed :=
    if hasMultipleExtensions || hasUncommonNaming || hasDatePattern then
      [mkRenamedFile filename (rf_path file) (rf_modifiedTime file)
         (Some (getOriginalNameGuess filename)) []
         (if hasMultipleExtensions then "Múltiples extensiones"
          else if hasUncommonNaming then "Patrón de renombrado"
          else "Contiene marca de fecha")]
    else [] in
  let baseName := baseNameOf filename in
  let similarFiles :=
    filter (fun f =>
              baseNameOf (basename (rf_path f)) = baseName /\ rf_path f <> rf_path file)
           recentlyModified in
  let similar :=
    if bool_decide (0 < length similarFiles)%nat then
      [mkRenamedFile filename (rf_path file) (rf_modifiedTime file) None
         (map (fun f => (basename (rf_path f), rf_path f, rf_modifiedTime f)) similarFiles)
         "Archivos similares encontrados"]
    else [] in
  renamed ++ similar.

(** [checkFileExtensionChanges]. *)
Definition checkFileExtensionChanges (fs : FileSystem) (basename : string -> string)
    (dayAgo : nat -> Z) : list RenamedFile :=
  let recentlyModified := recentlyModifiedFiles fs dayAgo in
  flat_map (renamedEntries basename recentlyModified) recentlyModified.

(** *** Command history of the shells *)

Record CommandEntry : Type := mkCommandEntry {
  ce_source : string;
  command : string;
  timestamp : option Z
}.

(** The match of a line that starts with a colon, a blank, a number and a
    colon: the number. *)
Definition zshSeconds (line : string) : option string :=
  match line with
  | String ":" (String " " r) =>
      if V1.truthy (V1.takeDigits r) && startsWith (V1.dropDigits r) ":"
      then Some (V1.takeDigits r) else None
  | _ => None
  end.

(** [s.substring(s.indexOf(':') + 1)]: what follows the first colon, all of
    [s] when it has none. *)
Fixpoint afterFirstColon (s : string) : option string :=
  match s with
  | EmptyString => None
  | String c r => if bool_decide (c = ":"%char) then Some r else afterFirstColon r
  end.

(** The body of the loop over the last lines of a history file;
    [millisOf seconds] is [parseInt(seconds) * 1000]. *)
Definition commandOfLine (millisOf : string -> Z) (source line : string) : CommandEntry :=
  match zshSeconds line with
  | Some seconds =>
      let command := default line (afterFirstColon line) in
      let command :=
        if startsWith command ":" then default command (afterFirstColon command)
        else command in
      mkCommandEntry source command (Some (millisOf seconds))
  | None => mkCommandEntry source line None
  end.

Definition shellHistoryFiles (fs : FileSystem) : list (string * string) :=
  [(pathJoin fs (homedir fs) ".bash_history", "Bash");
   (pathJoin fs (homedir fs) ".zsh_history", "Zsh");
   (pathJoin fs (homedir fs) ".history", "Shell")].

(** The body of the loop over the history files; [readFileSync] answers
    with [None] when it throws. *)
Definition readShellHistory (fs : FileSystem) (readFileSync : string -> option string)
    (millisOf : string -> Z) (commands : list CommandEntry) (histFile : string * string)
  : list CommandEntry :=
  if existsSync fs histFile.1 then
    match readFileSync histFile.1 with
    | Some historyContent =>
        let historyLines := V1.nonBlankLines historyContent in
        commands ++ map (commandOfLine millisOf histFile.2) (V1.sliceLast 100 historyLines)
    | None => commands
    end
  else commands.

(** [getCommandHistory] on macOS and Linux. *)
Definition shellCommandHistory (fs : FileSystem) (readFileSync : string -> option string)
    (millisOf : string -> Z) : list CommandEntry :=
  foldl (readShellHistory fs readFileSync millisOf) [] (shellHistoryFiles fs).

(** *** Opening the location of a file *)

(** The answer of [openFileLocation]: [{ success: true, path }] or
    [{ error }]. *)
Inductive OpenReply : Type :=
  | OpenSuccess (path : string)
  | OpenError (error : string).

Definition quote : string := String "034" "".

(** [openFileLocation(filePath)]: the answer and the commands that were
    run.  [execPromise] answers with [None] when the command succeeds. *)
Definition openFileLocation (fs : FileSystem) (dirname : string -> string)
    (execPromise : string -> option JsError) (filePath : string)
  : OpenReply * list string :=
  if negb (existsSync fs filePath) then (OpenError "El archivo no existe", [])
  else
    let directoryPath := dirname filePath in
    let command :=
      match platform fs with
      | win32 => "explorer /select," +:+ quote +:+ filePath +:+ quote
      | darwin => "open -R " +:+ quote +:+ filePath +:+ quote
      | _ => "xdg-open " +:+ quote +:+ directoryPath +:+ quote
      end in
    match execPromise command with
    | None => (OpenSuccess filePath, [command])
    | Some error => (OpenError (message error), [command])
    end.

End V2.

(** ** IPC registration of the main process *)
Module Main.

(** The channels registered with [ipcMain.handle]. *)
Inductive Channel : Type :=
  | find_jar_files
  | check_extension_changes
  | get_deleted_files
  | get_executed_jars
  | check_usb_disconnection
  | check_screen_recording
  | open_browser_history
  | detect_browsers
  | detect_minecraft_cheats
  | detect_stopped_services
  | get_folder_history
  | get_execution_history
  | open_minecraft_files
  | open_file_location
  | get_command_history
  | export_results.

#[global] Instance Channel_eq_dec : EqDecision Channel.
Proof. solve_decision. Defined.

Definition registered : list Channel :=
  [find_jar_files; check_extension_changes; get_deleted_files; get_executed_jars;
   check_usb_disconnection; check_screen_recording; open_browser_history;
   detect_browsers; detect_minecraft_cheats; detect_stopped_services;
   get_folder_history; get_execution_history; open_minecraft_files;
   open_file_location; get_command_history; export_results].

Section Handlers.
(** [Arg] is what the renderer passes along, [V] what a probe returns. *)
Context {Arg V : Type}.

(** The object a handler resolves with. *)
Inductive Reply : Type :=
  | ProbeResult (v : V)
  | ErrorObject (error : string)
  | ExportSuccess (path : string)
  | ExportCanceled.

(** The module [./utils/systemUtils] as the handlers use it: each call
    returns a value or throws an [Error]. *)
Record SystemUtils : Type := mkSystemUtils {
  findAllJarFiles : outcome V;
  checkFileExtensionChanges : outcome V;
  getRecentlyDeletedFiles : Arg -> outcome V;
  getRecentlyExecutedJars : Arg -> outcome V;
  checkUSBDisconnection : outcome V;
  checkScreenRecording : outcome V;
  openBrowserHistory : outcome V;
  detectBrowsers : outcome V;
  detectMinecraftCheats : outcome V;
  detectStoppedServices : outcome V;
  getFolderHistory : outcome V;
  getCompleteExecutionHistory : Arg -> outcome V;
  openMinecraftFiles : outcome V;
  openFileLocation : Arg -> outcome V;
  getCommandHistory : outcome V
}.

(** What the export handler calls: [app.getPath('documents')] joined with
    the default file name, the save dialog (an empty path when it is
    dismissed), [JSON.stringify] and [fs.promises.writeFile]. *)
Record Desktop : Type := mkDesktop {
  defaultPath : outcome string;
  showSaveDialog : string -> outcome string;
  stringify : Arg -> outcome string;
  writeFile : string -> string -> outcome unit
}.

Context (systemUtils : SystemUtils) (desktop : Desktop).

(** [catch (error) { console.error(...); return { error: error.message }; }] *)
Definition onError (error : JsError) : outcome Reply :=
  Returned (ErrorObject (message error)).

(** [try { return await probe; } catch (error) { ... }] *)
Definition guarded (probe : outcome V) : outcome Reply :=
  try_catch (v ← probe; Returned (ProbeResult v)) onError.

Definition exportResults (data : Arg) : outcome Reply :=
  try_catch
    (suggested ← defaultPath desktop;
     filePath ← showSaveDialog desktop suggested;
     if negb (bool_decide (filePath = "")) then
       text ← stringify desktop data;
       _ ← writeFile desktop filePath text;
       Returned (ExportSuccess filePath)
     else Returned ExportCanceled)
    onError.

(** The handler registered for a channel, applied to the argument that
    follows [event]. *)
Definition handle (channel : Channel) (arg : Arg) : outcome Reply :=
  match channel with
  | find_jar_files => guarded (findAllJarFiles systemUtils)
  | check_extension_changes => guarded (checkFileExtensionChanges systemUtils)
  | get_deleted_files => guarded (getRecentlyDeletedFiles systemUtils arg)
  | get_executed_jars => guarded (getRecentlyExecutedJars systemUtils arg)
  | check_usb_disconnection => guarded (checkUSBDisconnection systemUtils)
  | check_screen_recording => guarded (checkScreenRecording systemUtils)
  | open_browser_history => guarded (openBrowserHistory systemUtils)
  | detect_browsers => guarded (detectBrowsers systemUtils)
  | detect_minecraft_cheats => guarded (detectMinecraftCheats systemUtils)
  | detect_stopped_services => guarded (detectStoppedServices systemUtils)
  | get_folder_history => guarded (getFolderHistory systemUtils)
  | get_execution_history => guarded (getCompleteExecutionHistory systemUtils arg)
  | open_minecraft_files => guarded (openMinecraftFiles systemUtils)
  | open_file_location => guarded (openFileLocation systemUtils arg)
  | get_command_history => guarded (getCommandHistory systemUtils)
  | export_results => exportResults arg
  end.

(** The probe behind a channel; the export channel has none. *)
Definition probe (channel : Channel) (arg : Arg) : option (outcome V) :=
  match channel with
  | find_jar_files => Some (findAllJarFiles systemUtils)
  | check_extension_changes => Some (checkFileExtensionChanges systemUtils)
  | get_deleted_files => Some (getRecentlyDeletedFiles systemUtils arg)
  | get_executed_jars => Some (getRecentlyExecutedJars systemUtils arg)
  | check_usb_disconnection => Some (checkUSBDisconnection systemUtils)
  | check_screen_recording => Some (checkScreenRecording systemUtils)
  | open_browser_history => Some (openBrowserHistory systemUtils)
  | detect_browsers => Some (detectBrowsers systemUtils)
  | detect_minecraft_cheats => Some (detectMinecraftCheats systemUtils)
  | detect_stopped_services => Some (detectStoppedServices systemUtils)
  | get_folder_history => Some (getFolderHistory systemUtils)
  | get_execution_history => Some (getCompleteExecutionHistory systemUtils arg)
  | open_minecraft_files => Some (openMinecraftFiles systemUtils)
  | open_file_location => Some (openFileLocation systemUtils arg)
  | get_command_history => Some (getCommandHistory systemUtils)
  | export_results => None
  end.
End Handlers.

Arguments Reply : clear implicits.
Arguments SystemUtils : clear implicits.
Arguments Desktop : clear implicits.

End Main.

(** ** The API of the preload script *)
Module Preload.

(** The functions of [keniboxAPI]. *)
Inductive Api : Type :=
  | findJarFiles
  | checkExtensionChanges
  | getDeletedFiles
  | getExecutedJars
  | checkUSBDisconnection
  | checkScreenRecording
  | openBrowserHistory
  | detectBrowsers
  | detectMinecraftCheats
  | detectStoppedServices
  | getFolderHistory
  | getExecutionHistory
  | openMinecraftFiles
  | exportResults
  | openFileLocation
  | getCommandHistory
  | getCurrentTime.

#[global] Instance Api_eq_dec : EqDecision Api.
Proof. solve_decision. Defined.

Definition functions : list Api :=
  [findJarFiles; checkExtensionChanges; getDeletedFiles; getExecutedJars;
   checkUSBDisconnection; checkScreenRecording; openBrowserHistory; detectBrowsers;
   detectMinecraftCheats; detectStoppedServices; getFolderHistory; getExecutionHistory;
   openMinecraftFiles; exportResults; openFileLocation; getCommandHistory;
   getCurrentTime].

(** The channel that the function hands to [ipcRenderer.invoke];
    [getCurrentTime] invokes nothing. *)
Definition channel (api : Api) : option Main.Channel :=
  match api with
  | findJarFiles => Some Main.find_jar_files
  | checkExtensionChanges => Some Main.check_extension_changes
  | getDeletedFiles => Some Main.get_deleted_files
  | getExecutedJars => Some Main.get_executed_jars
  | checkUSBDisconnection => Some Main.check_usb_disconnection
  | checkScreenRecording => Some Main.check_screen_recording
  | openBrowserHistory => Some Main.open_browser_history
  | detectBrowsers => Some Main.detect_browsers
  | detectMinecraftCheats => Some Main.detect_minecraft_cheats
  | detectStoppedServices => Some Main.detect_stopped_services
  | getFolderHistory => Some Main.get_folder_history
  | getExecutionHistory => Some Main.get_execution_history
  | openMinecraftFiles => Some Main.open_minecraft_files
  | exportResults => Some Main.export_results
  | openFileLocation => Some Main.open_file_location
  | getCommandHistory => Some Main.get_command_history
  | getCurrentTime => None
  end.

(** The argument that follows the channel: [None] when the function hands
    none on, else the parameter of the function ([undefined] when the
    caller gave none) with its default, 60 minutes or 4 hours, filled in. *)
Definition argument {Arg : Type} (undefined sixty four : Arg) (api : Api)
    (given : option Arg) : option Arg :=
  match api with
  | getDeletedFiles => Some (default sixty given)
  | getExecutedJars | getExecutionHistory => Some (default four given)
  | exportResults | openFileLocation => Some (default undefined given)
  | _ => None
  end.

End Preload.

(** ** The links of the renderer *)
Module Renderer.

(** The click handler that [setupFileLocationLinks] gives to a link: the
    text of the link when [openFileLocation] of the API has settled, or
    [None] when the link has no [data-path] and nothing happens. *)
Definition locationLinkText {R : Type} (openFileLocation : string -> outcome R)
    (filePath : string) : option string :=
  if V1.truthy filePath then
    match openFileLocation filePath with
    | Returned _ => Some "✓ Abierto"
    | Threw _ => Some "✗ Error"
    end
  else None.

End Renderer.

(** ** File-system primitives used by the functions

    For each function of the two variants: the primitives of [fs],
    [child_process] and [shell] that occur in its body, and the functions of
    the same module it calls. *)
Module Effects.

Inductive Primitive : Type :=
  | ExistsSync      (** [fs.existsSync] *)
  | Readdir         (** [fs.promises.readdir], [fs.readdirSync], [fs.readdir] *)
  | Stat            (** [fs.promises.stat], [fs.stat] *)
  | ReadFile        (** [fs.promises.readFile], [fs.readFileSync] *)
  | Exec            (** [exec] of a command that queries the system or opens a viewer *)
  | ShellOpen       (** [shell.openPath], [shell.openExternal] *)
  | CopyFileSync    (** [fs.copyFileSync] *)
  | UnlinkSync      (** [fs.unlinkSync] *)
  | Unlink          (** [fs.unlink] *)
  | WriteFileSync   (** [fs.writeFileSync] *)
  | ExecRedirect    (** [exec] of a command whose output is redirected into a file *)
  | Spawn           (** [spawn] of a script that deletes files *).

#[global] Instance Primitive_eq_dec : EqDecision Primitive.
Proof. solve_decision. Defined.

(** The primitives that create, write or delete a file. *)
Definition mutating (p : Primitive) : bool :=
  match p with
  | CopyFileSync | UnlinkSync | Unlink | WriteFileSync | ExecRedirect | Spawn => true
  | _ => false
  end.

Inductive V1Function : Type :=
  | v1_findAllJarFiles
  | v1_searchJarFilesRecursively
  | v1_shouldSkipDirectory
  | v1_getSystemDrives
  | v1_checkFileExtensionChanges
  | v1_findRecentlyModifiedFiles
  | v1_getOriginalNameGuess
  | v1_getRecentlyDeletedFiles
  | v1_searchRecycleBin
  | v1_searchDeletedFiles
  | v1_searchLinuxTrash
  | v1_tryUsingDataRecoveryTools
  | v1_getFileOperationsFromEventLog
  | v1_getRecentlyExecutedJars
  | v1_getJarsFromRegistry
  | v1_getJavaLogs
  | v1_checkUSBDisconnection
  | v1_checkScreenRecording
  | v1_detectBrowsers
  | v1_getDefaultBrowser
  | v1_openBrowserHistory
  | v1_openSpecificBrowserHistory
  | v1_detectMinecraftCheats
  | v1_checkBrowserHistoryFiles
  | v1_checkMinecraftModFolders
  | v1_detectSuspiciousProcesses
  | v1_detectStoppedServices
  | v1_getFolderHistory
  | v1_getCompleteExecutionHistory
  | v1_openMinecraftFiles
  | v1_openFileLocation
  | v1_getCommandHistory
  | v1_registerSelfDestruct
  | v1_analyzeProcesses
  | v1_scanMinecraftMods
  | v1_detectInjections.

#[global] Instance V1Function_eq_dec : EqDecision V1Function.
Proof. solve_decision. Defined.

(** The primitives that occur in the body of a function. *)
Definition v1_uses (f : V1Function) : list Primitive :=
  match f with
  | v1_searchJarFilesRecursively => [Readdir; Stat]
  | v1_getSystemDrives => [Readdir; Exec]
  | v1_checkFileExtensionChanges => [ExistsSync]
  | v1_findRecentlyModifiedFiles => [Readdir; Stat]
  | v1_searchRecycleBin => [ExistsSync; ReadFile; Readdir; Stat]
  | v1_searchDeletedFiles => [ExistsSync; Readdir; Stat]
  | v1_searchLinuxTrash => [ExistsSync; ReadFile; Readdir]
  | v1_getFileOperationsFromEventLog => [Exec]
  | v1_getRecentlyExecutedJars => [ExistsSync; Stat]
  | v1_getJarsFromRegistry => [Exec]
  | v1_getJavaLogs => [ExistsSync; ReadFile; Readdir; Stat]
  | v1_checkUSBDisconnection => [Exec]
  | v1_checkScreenRecording => [Exec]
  | v1_detectBrowsers => [ExistsSync; Readdir; Exec]
  | v1_getDefaultBrowser => [ExistsSync; Exec]
  | v1_openSpecificBrowserHistory => [ShellOpen; Exec]
  | v1_checkBrowserHistoryFiles => [ExistsSync; Readdir; CopyFileSync; Exec; UnlinkSync]
  | v1_checkMinecraftModFolders => [ExistsSync; Readdir; Stat]
  | v1_detectSuspiciousProcesses => [Exec]
  | v1_detectStoppedServices => [Exec]
  | v1_getFolderHistory => [ExistsSync; ReadFile; Readdir; Stat; Exec]
  | v1_getCompleteExecutionHistory => [ExistsSync; ReadFile; Readdir; Stat; Exec]
  | v1_openMinecraftFiles => [ExistsSync; ReadFile; Readdir; Stat; ShellOpen]
  | v1_openFileLocation => [ExistsSync; Stat; ShellOpen; Exec]
  | v1_getCommandHistory => [ExistsSync; ReadFile; Stat; Exec; ExecRedirect; Unlink]
  | v1_registerSelfDestruct => [WriteFileSync; Spawn]
  | v1_analyzeProcesses => [Exec]
  | v1_scanMinecraftMods => [ExistsSync; Readdir; Stat]
  | v1_detectInjections => [ExistsSync; ReadFile; Readdir; Exec]
  | _ => []
  end.

(** The functions of the module that a function calls. *)
Definition v1_calls (f : V1Function) : list V1Function :=
  match f with
  | v1_findAllJarFiles =>
      [v1_getSystemDrives; v1_searchJarFilesRecursively]
  | v1_searchJarFilesRecursively =>
      [v1_shouldSkipDirectory; v1_searchJarFilesRecursively]
  | v1_checkFileExtensionChanges =>
      [v1_findRecentlyModifiedFiles]
  | v1_findRecentlyModifiedFiles =>
      [v1_shouldSkipDirectory; v1_getOriginalNameGuess; v1_findRecentlyModifiedFiles]
  | v1_getRecentlyDeletedFiles =>
      [v1_searchRecycleBin; v1_getFileOperationsFromEventLog; v1_searchDeletedFiles; v1_searchLinuxTrash; v1_tryUsingDataRecoveryTools]
  | v1_searchDeletedFiles =>
      [v1_searchDeletedFiles]
  | v1_getRecentlyExecutedJars =>
      [v1_getJarsFromRegistry; v1_getCompleteExecutionHistory; v1_getJavaLogs]
  | v1_detectBrowsers =>
      [v1_getDefaultBrowser]
  | v1_openBrowserHistory =>
      [v1_detectBrowsers; v1_openSpecificBrowserHistory]
  | v1_detectMinecraftCheats =>
      [v1_checkBrowserHistoryFiles; v1_checkMinecraftModFolders; v1_detectSuspiciousProcesses]
  | _ => []
  end.

(** The functions listed in [module.exports]. *)
Definition v1_exports : list V1Function :=
  [v1_findAllJarFiles; v1_checkFileExtensionChanges;
   v1_getRecentlyDeletedFiles; v1_getRecentlyExecutedJars;
   v1_checkUSBDisconnection; v1_checkScreenRecording; v1_openBrowserHistory;
   v1_detectBrowsers; v1_detectMinecraftCheats; v1_detectStoppedServices;
   v1_getFolderHistory; v1_getCompleteExecutionHistory;
   v1_openMinecraftFiles; v1_openFileLocation; v1_getCommandHistory;
   v1_registerSelfDestruct; v1_analyzeProcesses; v1_scanMinecraftMods;
   v1_detectInjections].

Inductive V2Function : Type :=
  | v2_findAllJarFiles
  | v2_searchJarFilesRecursively
  | v2_shouldSkipDirectory
  | v2_checkFileExtensionChanges
  | v2_findRecentlyModifiedFiles
  | v2_getOriginalNameGuess
  | v2_getRecentlyDeletedFiles
  | v2_searchRecycleBin
  | v2_searchDeletedFiles
  | v2_searchLinuxTrash
  | v2_tryUsingDataRecoveryTools
  | v2_getRecentlyExecutedJars
  | v2_checkUSBDisconnection
  | v2_checkScreenRecording
  | v2_detectBrowsers
  | v2_openBrowserHistory
  | v2_openSpecificBrowserHistory
  | v2_detectMinecraftCheats
  | v2_detectStoppedServices
  | v2_getFolderHistory
  | v2_getCompleteExecutionHistory
  | v2_openMinecraftFiles
  | v2_openFileLocation
  | v2_getCommandHistory.

#[global] Instance V2Function_eq_dec : EqDecision V2Function.
Proof. solve_decision. Defined.

(** The primitives that occur in the body of a function. *)
Definition v2_uses (f : V2Function) : list Primitive :=
  match f with
  | v2_findAllJarFiles => [ExistsSync]
  | v2_searchJarFilesRecursively => [Readdir; Stat]
  | v2_findRecentlyModifiedFiles => [Readdir; Stat]
  | v2_getRecentlyDeletedFiles => [Exec]
  | v2_searchRecycleBin => [Readdir; Stat; Exec]
  | v2_searchDeletedFiles => [Readdir; Stat]
  | v2_searchLinuxTrash => [ExistsSync; ReadFile; Readdir; Stat]
  | v2_tryUsingDataRecoveryTools => [Exec]
  | v2_getRecentlyExecutedJars => [ExistsSync; Readdir; Stat; Exec]
  | v2_checkUSBDisconnection => [Exec]
  | v2_checkScreenRecording => [Exec]
  | v2_detectBrowsers => [ExistsSync; Exec]
  | v2_openBrowserHistory => [Exec]
  | v2_openSpecificBrowserHistory => [ExistsSync; Exec]
  | v2_detectMinecraftCheats => [ExistsSync; Readdir; CopyFileSync; Exec; UnlinkSync]
  | v2_detectStoppedServices => [Exec]
  | v2_getFolderHistory => [ExistsSync; Readdir; Stat; Exec]
  | v2_getCompleteExecutionHistory => [Exec]
  | v2_openMinecraftFiles => [ExistsSync; ReadFile; Readdir; Stat; Exec]
  | v2_openFileLocation => [ExistsSync; Exec]
  | v2_getCommandHistory => [ExistsSync; ReadFile; Readdir; Exec]
  | _ => []
  end.

(** The functions of the module that a function calls. *)
Definition v2_calls (f : V2Function) : list V2Function :=
  match f with
  | v2_findAllJarFiles =>
      [v2_searchJarFilesRecursively]
  | v2_searchJarFilesRecursively =>
      [v2_shouldSkipDirectory; v2_searchJarFilesRecursively]
  | v2_checkFileExtensionChanges =>
      [v2_findRecentlyModifiedFiles; v2_getOriginalNameGuess]
  | v2_findRecentlyModifiedFiles =>
      [v2_findRecentlyModifiedFiles]
  | v2_getRecentlyDeletedFiles =>
      [v2_searchRecycleBin; v2_searchDeletedFiles; v2_searchLinuxTrash; v2_tryUsingDataRecoveryTools]
  | v2_searchRecycleBin =>
      [v2_searchRecycleBin]
  | v2_searchDeletedFiles =>
      [v2_searchDeletedFiles]
  | v2_openBrowserHistory =>
      [v2_detectBrowsers; v2_openSpecificBrowserHistory]
  | _ => []
  end.

(** The functions listed in [module.exports]. *)
Definition v2_exports : list V2Function :=
  [v2_findAllJarFiles; v2_checkFileExtensionChanges;
   v2_getRecentlyDeletedFiles; v2_getRecentlyExecutedJars;
   v2_checkUSBDisconnection; v2_checkScreenRecording; v2_openBrowserHistory;
   v2_detectBrowsers; v2_detectMinecraftCheats; v2_detectStoppedServices;
   v2_getFolderHistory; v2_getCompleteExecutionHistory;
   v2_openMinecraftFiles; v2_openFileLocation; v2_getCommandHistory].

Section Reach.
Context {F : Type} (calls : F -> list F).

(** The functions reached from [f] through at most [depth] calls. *)
Fixpoint reach (depth : nat) (f : F) : list F :=
  match depth with
  | O => [f]
  | S d => f :: flat_map (reach d) (calls f)
  end.
End Reach.

(** The functions that run when an exported function is called; no chain of
    calls between distinct functions is longer than the number of functions. *)
Definition v1_reached (f : V1Function) : list V1Function := reach v1_calls 4 f.
Definition v2_reached (f : V2Function) : list V2Function := reach v2_calls 4 f.

(** The functions reached from [f] whose body holds a mutating primitive. *)
Definition v1_writers (f : V1Function) : list V1Function :=
  filter (fun g => existsb mutating (v1_uses g) = true) (v1_reached f).
Definition v2_writers (f : V2Function) : list V2Function :=
  filter (fun g => existsb mutating (v2_uses g) = true) (v2_reached f).

End Effects.

(** * Vocabulary of the properties *)

(** A comparator [(a, b) => key(b) - key(a)]. *)
Definition byKeyDesc {A : Type} (key : A -> jsnum) (a b : A) : jsnum :=
  sub (key b) (key a).

(** [a] may stand before [b] in a list sorted most recent first: the test
    [key(a) >= key(b)] holds. *)
Definition notBefore {A : Type} (key : A -> jsnum) (a b : A) : Prop :=
  geb (key a) (key b) = true.

(** The invariant of the [result] object of the first variant's
    [checkScreenRecording]. *)
Definition named (result : V1.ScreenResult) : Prop :=
  V1.recording result = true -> (0 < length (V1.applications result))%nat.

(** A file that the loop of [scanMinecraftMods] looks at. *)
Definition isModArchive (file : Dirent) : bool :=
  d_isFile file && (endsWith (d_name file) ".jar" || endsWith (d_name file) ".zip").

(** The names in [result.suspiciousMods]. *)
Definition listed (result : V1.ModScan) : list string :=
  map V1.sm_name (V1.suspiciousMods result).


(** The suffixes [.inner.outer] that the double-extension pattern of the
    first variant accepts, in lower case. *)
Definition extTails : list (string * string) :=
  flat_map (fun inner => map (fun outer => (inner, outer)) V1.outerExts) V1.innerExts.

Definition tailOf (io : string * string) : string := "." +:+ io.1 +:+ "." +:+ io.2.


(** What the walk of the second variant reports. *)
Definition reported2 (fs : FileSystem) (jar : V2.JarInfo) : Prop :=
  endsWith (V2.jar_name jar) ".jar" = true /\
  startsWith (V2.jar_name jar) "." = false /\
  exists directory, V2.jar_path jar = pathJoin fs directory (V2.jar_name jar).

(** What [findRecentlyModifiedFiles] reports: a name that holds one of the
    suspicious double extensions, a modification less than a week before
    some reading of the clock, and similar files that are other files of the
    directory whose names hold the guessed original name. *)
Definition flagged (now : nat -> Z) (change : V1.ExtensionChange) : Prop :=
  (exists ext, ext ∈ V1.suspiciousExtensions /\
               includes (toLowerCase (V1.ec_name change)) ext = true) /\
  (exists k, now k - 7 * 24 * 60 * 60 * 1000 < V1.modifiedTime change) /\
  Forall (fun similar =>
            V1.sf_name similar <> V1.ec_name change /\
            exists baseName,
              V1.getOriginalNameGuess (V1.ec_name change) = Some baseName /\
              includes (toLowerCase (V1.sf_name similar)) (toLowerCase baseName) = true)
         (V1.similarFiles change).

(** A finding of the trash: its time is a number and not before the
    threshold. *)
Definition recent (timeThreshold : jsnum) (finding : V1.DeletedFile) : Prop :=
  geb (V1.deletedTime finding) timeThreshold = true.

(** An entry of [infoMap] stems from a [.trashinfo] file of the [info]
    folder. *)
Definition fromInfoFile (fs : FileSystem) (files : V1.TrashFiles) (infoPath : string)
    (infoItems : list Dirent) (timeThreshold : jsnum)
    (basename : string) (info : V1.TrashInfo) : Prop :=
  geb (V1.deletionDate info) timeThreshold = true /\
  exists infoItem content,
    infoItem ∈ infoItems /\
    d_isFile infoItem = true /\
    endsWith (d_name infoItem) ".trashinfo" = true /\
    V1.replaceFirst ".trashinfo" "" (d_name infoItem) = basename /\
    V1.readText files (pathJoin fs infoPath (d_name infoItem)) = Some content /\
    V1.matchAfter "Path=" content = Some (V1.originalPath info).

(** The invariant of the [result] object of [checkUSBDisconnection]. *)
Definition usbReport (result : V1.UsbResult) : Prop :=
  (V1.details result <> [] -> V1.disconnected result = true) /\
  Forall (fun detail => (String.length (V1.device detail) <= 103)%nat) (V1.details result).



(** The file operations that the inspection of one history file adds. *)
Definition historyEvents (attempt : V1.HistoryFile -> V1.Attempt)
    (historyFile : V1.HistoryFile) : list FsEvent :=
  let a := attempt historyFile in
  if V1.copySucceeds a then
    [CopyFile (V1.hf_path historyFile) (V1.tempHistoryPath a);
     SqlQuery (V1.tempHistoryPath a)] ++
    match V1.queryOutput a with
    | Some _ => if V1.unlinkSucceeds a then [Unlink (V1.tempHistoryPath a)] else []
    | None => []
    end
  else [].

(** * Sample inputs *)

(** [path.join] on POSIX and on Windows, for plain segments. *)
Definition joinPosix (a b : string) : string :=
  if endsWith a "/" then a +:+ b else a +:+ "/" +:+ b.

Definition joinWindows (a b : string) : string := a +:+ "\" +:+ b.

Definition sampleDir : Stats := mkStats 4096 0 0 true false.
Definition sampleFile (size mtime : Z) : Stats := mkStats size mtime mtime false true.

(** A Windows machine without any of the folders the probes look for. *)
Definition sampleWindows : FileSystem :=
  mkFileSystem win32 "C:\Users\u" joinWindows
    (fun _ => false) (fun _ => None) (fun _ => None) (fun _ => None).

(** The registry names the same archive twice, with different letter case. *)
Definition upperCaseJar : V1.ExecutedJar :=
  V1.mkExecutedJar "Client.jar" "C:\Mods\Client.jar" (Num 2000) "RecentDocs" None.
Definition lowerCaseJar : V1.ExecutedJar :=
  V1.mkExecutedJar "client.jar" "c:\mods\client.jar" (Num 1000) "UserAssist" None.
Definition sampleJarSources : V1.JarSources :=
  V1.mkJarSources [upperCaseJar; lowerCaseJar] (Some []) []
    (fun _ => None) (fun _ => None) (fun p => p).
Definition upperCaseJar2 : V2.ExecutedJar :=
  V2.mkExecutedJar "Client.jar" "C:\Mods\Client.jar" (Num 2000) "Event Log".
Definition lowerCaseJar2 : V2.ExecutedJar :=
  V2.mkExecutedJar "client.jar" "c:\mods\client.jar" (Num 1000) "File Access".

(** The capital and the small letter E with acute accent (the code units
    201 and 233), and two findings whose paths differ in that letter
    only. *)
Definition capitalEAcute : ascii := "201"%char.
Definition smallEAcute : ascii := "233"%char.
Definition accentedUpperJar2 : V2.ExecutedJar :=
  V2.mkExecutedJar (String capitalEAcute ".jar") ("C:\Mods\" +:+ String capitalEAcute ".jar")
                   (Num 1000) "Event Log".
Definition accentedLowerJar2 : V2.ExecutedJar :=
  V2.mkExecutedJar (String smallEAcute ".jar") ("C:\Mods\" +:+ String smallEAcute ".jar")
                   (Num 2000) "File Access".

(** A Linux home with two archives in [Downloads], the older one listed
    first. *)
Definition sampleLinux : FileSystem :=
  mkFileSystem linux "/home/u" joinPosix
    (fun p => bool_decide (p ∈ ["/"; "/home"; "/home/u"; "/home/u/Downloads";
                                "/home/u/Downloads/old.jar"; "/home/u/Downloads/new.jar"]))
    (fun p => if bool_decide (p = "/") then Some [mkDirent "home" true false]
              else if bool_decide (p = "/home") then Some [mkDirent "u" true false]
              else if bool_decide (p = "/home/u") then Some [mkDirent "Downloads" true false]
              else if bool_decide (p = "/home/u/Downloads")
                   then Some [mkDirent "old.jar" false true; mkDirent "new.jar" false true]
              else None)
    (fun p => if bool_decide (p = "/") then Some ["home"]
              else if bool_decide (p = "/home") then Some ["u"]
              else if bool_decide (p = "/home/u") then Some ["Downloads"]
              else if bool_decide (p = "/home/u/Downloads") then Some ["old.jar"; "new.jar"]
              else None)
    (fun p => if bool_decide (p ∈ ["/home"; "/home/u"; "/home/u/Downloads"]) then Some sampleDir
              else if bool_decide (p = "/home/u/Downloads/old.jar") then Some (sampleFile 10 1000)
              else if bool_decide (p = "/home/u/Downloads/new.jar") then Some (sampleFile 20 2000)
              else None).
Definition newJar : V2.JarInfo := V2.mkJarInfo "new.jar" "/home/u/Downloads/new.jar" 20 2000.

(** The tree of the specification's end-to-end test: [foo.jar],
    [bar.exe.txt] and [skip/Windows/x.jar] below [/data]. *)
Definition sampleTree : FileSystem :=
  mkFileSystem linux "/home/u" joinPosix
    (fun _ => true)
    (fun p => if bool_decide (p = "/data")
              then Some [mkDirent "foo.jar" false true; mkDirent "bar.exe.txt" false true;
                         mkDirent "skip" true false]
              else if bool_decide (p = "/data/skip") then Some [mkDirent "Windows" true false]
              else if bool_decide (p = "/data/skip/Windows")
                   then Some [mkDirent "x.jar" false true]
              else None)
    (fun p => if bool_decide (p = "/data") then Some ["foo.jar"; "bar.exe.txt"; "skip"]
              else if bool_decide (p = "/data/skip") then Some ["Windows"]
              else if bool_decide (p = "/data/skip/Windows") then Some ["x.jar"]
              else None)
    (fun p => if bool_decide (p ∈ ["/data"; "/data/skip"; "/data/skip/Windows"])
              then Some sampleDir
              else if bool_decide (p ∈ ["/data/foo.jar"; "/data/bar.exe.txt";
                                        "/data/skip/Windows/x.jar"])
                   then Some (sampleFile 10 1000)
              else None).

(** A file in the recycle bin, an event whose date does not parse, a later
    event. *)
Definition binned : V1.DeletedFile :=
  V1.mkDeletedFile "notes.txt" "C:\$Recycle.Bin\S-1\$R1.txt" (Num 5000) "".
Definition undatedEvent : V1.DeletedFile :=
  V1.mkDeletedFile "a.jar" "C:\Users\u\a.jar" NaN "delete".
Definition laterEvent : V1.DeletedFile :=
  V1.mkDeletedFile "b.jar" "C:\Users\u\b.jar" (Num 7000) "delete".

(** Three deleted files with valid dates, two of them deleted at the same
    time. *)
Definition earlier2 : V2.DeletedFile := V2.mkDeletedFile "a.txt" "/home/u/a.txt" (Num 5000).
Definition later2 : V2.DeletedFile := V2.mkDeletedFile "b.txt" "/home/u/b.txt" (Num 7000).
Definition sameTime2 : V2.DeletedFile := V2.mkDeletedFile "c.txt" "/home/u/c.txt" (Num 7000).

(** An event whose date does not parse, as the second variant records
    it. *)
Definition undated2 : V2.DeletedFile := V2.mkDeletedFile "d.jar" "C:\Users\u\d.jar" NaN.

(** Seven findings, one of them undated: [e.txt] and [g.txt] were deleted
    at the same time, [e.txt] was collected first. *)
Definition unstableDeletions : list V2.DeletedFile :=
  [V2.mkDeletedFile "a.txt" "/home/u/a.txt" (Num 9000);
   V2.mkDeletedFile "b.txt" "/home/u/b.txt" (Num 7000);
   V2.mkDeletedFile "c.txt" "/home/u/c.txt" (Num 3000);
   V2.mkDeletedFile "d.txt" "/home/u/d.txt" NaN;
   V2.mkDeletedFile "e.txt" "/home/u/e.txt" (Num 5000);
   V2.mkDeletedFile "f.txt" "/home/u/f.txt" (Num 8000);
   V2.mkDeletedFile "g.txt" "/home/u/g.txt" (Num 5000)].

(** A Linux machine that runs OBS. *)
Definition obsRunning : V1.ScreenProbe :=
  V1.mkScreenProbe None None None (Some ["systemd"; "obs"; "bash"]) None None.


(** Chrome's default profile on Windows; the history file is copied, and
    the PowerShell query fails ([queryFails]) or answers ([queryWorks]). *)
Definition chromeHistory : string :=
  "C:\Users\u\AppData\Local\Google\Chrome\User Data\Default\History".
Definition chromeCopy : string := "C:\Users\u\AppData\Local\Temp\history_1700000000000.db".

Definition sampleChrome : FileSystem :=
  mkFileSystem win32 "C:\Users\u" joinWindows
    (fun p => bool_decide
                (p ∈ ["C:\Users\u\AppData\Local\Google\Chrome\User Data"; chromeHistory]))
    (fun p => if bool_decide (p = "C:\Users\u\AppData\Local\Google\Chrome\User Data")
              then Some [mkDirent "Default" true false]
              else None)
    (fun _ => None) (fun _ => None).

Definition queryFails (historyFile : V1.HistoryFile) : V1.Attempt :=
  V1.mkAttempt chromeCopy true None true.
Definition queryWorks (historyFile : V1.HistoryFile) : V1.Attempt :=
  V1.mkAttempt chromeCopy true (Some "[]") true.


(** A root directory with an archive in upper case and a hidden archive. *)
Definition sampleHidden : FileSystem :=
  mkFileSystem linux "/home/u" joinPosix
    (fun p => bool_decide (p = "/"))
    (fun p => if bool_decide (p = "/")
              then Some [mkDirent "MOD.JAR" false true; mkDirent ".x.jar" false true]
              else None)
    (fun p => if bool_decide (p = "/") then Some ["MOD.JAR"; ".x.jar"] else None)
    (fun p => if bool_decide (p ∈ ["/MOD.JAR"; "/.x.jar"]) then Some (sampleFile 10 1000)
              else None).

(** A downloads folder with a disguised archive next to the archive it was
    made from, an old disguised archive and an ordinary file. *)
Definition sampleDownloads : FileSystem :=
  mkFileSystem linux "/home/u" joinPosix
    (fun p => bool_decide (p = "/home/u/Downloads"))
    (fun p => if bool_decide (p = "/home/u/Downloads")
              then Some [mkDirent "client.jar.txt" false true;
                         mkDirent "client.jar" false true;
                         mkDirent "old.exe.png" false true;
                         mkDirent "notes.txt" false true]
              else None)
    (fun _ => None)
    (fun p => if bool_decide (p = "/home/u/Downloads/client.jar.txt")
              then Some (sampleFile 10 1700000000000)
              else if bool_decide (p = "/home/u/Downloads/client.jar")
              then Some (sampleFile 10 1600000000000)
              else if bool_decide (p = "/home/u/Downloads/old.exe.png")
              then Some (sampleFile 10 1600000000000)
              else if bool_decide (p = "/home/u/Downloads/notes.txt")
              then Some (sampleFile 10 1700000000000)
              else None).

Definition sampleClock (k : nat) : Z := 1700000001000 + Z.of_nat k.

Definition disguisedArchive : V1.ExtensionChange :=
  V1.mkExtensionChange "client.jar.txt" "/home/u/Downloads/client.jar.txt" 1700000000000
    "Posible cambio de extensión para ocultar tipo real"
    [V1.mkSimilarFile "client.jar" "/home/u/Downloads/client.jar" 1600000000000].

(** The last segment of a POSIX path. *)
Definition lastSegment (p : string) : string := default "" (last (split "/" p)).

Definition newline : string := String "010" "".

(** A Linux trash with one archive that has its [.trashinfo] file and one
    file that has none. *)
Definition sampleTrashInfo : string :=
  "[Trash Info]" +:+ newline +:+ "Path=/home/u/mods/cheat.jar" +:+ newline +:+
  "DeletionDate=2024-01-02T03:04:05" +:+ newline.

Definition sampleTrash : FileSystem :=
  mkFileSystem linux "/home/u" joinPosix
    (fun p => bool_decide (p ∈ ["/home/u/.local/share/Trash/files";
                                "/home/u/.local/share/Trash/info"]))
    (fun p => if bool_decide (p = "/home/u/.local/share/Trash/files")
              then Some [mkDirent "cheat.jar" false true; mkDirent "kept.txt" false true]
              else if bool_decide (p = "/home/u/.local/share/Trash/info")
              then Some [mkDirent "cheat.jar.trashinfo" false true]
              else None)
    (fun _ => None) (fun _ => None).

Definition sampleTrashFiles : V1.TrashFiles :=
  V1.mkTrashFiles
    (fun p => if bool_decide (p = "/home/u/.local/share/Trash/info/cheat.jar.trashinfo")
              then Some sampleTrashInfo else None)
    (fun _ => None) (fun _ => false)
    (fun text => if bool_decide (text = "2024-01-02T03:04:05")
                 then Num 1704164645000 else NaN)
    lastSegment (fun _ => "").

Definition trashedArchive : V1.DeletedFile :=
  V1.mkDeletedFile "cheat.jar" "/home/u/mods/cheat.jar" (Num 1704164645000) "".

(** A recycle bin with three folders: the first holds a deleted archive
    and its [$I] file, the second cannot be listed (and the error is no
    permission error), the third holds another deleted file.  The [$I] file
    stores the name [c:\x.jar] in 16-bit units after 24 bytes. *)
Definition sampleInfoBuffer : list Z :=
  replicate 24 1 ++ [99; 0; 58; 0; 92; 0; 120; 0; 46; 0; 106; 0; 97; 0; 114; 0; 0; 0].

Definition sampleBin : FileSystem :=
  mkFileSystem win32 "C:\Users\u" joinWindows
    (fun p => bool_decide (p ∈ ["C:\Users\u\$Recycle.Bin";
                                "C:\Users\u\$Recycle.Bin\S-1-5-21\$IAB12.jar"]))
    (fun p => if bool_decide (p = "C:\Users\u\$Recycle.Bin")
              then Some [mkDirent "S-1-5-21" true false; mkDirent "S-1-5-18" true false;
                         mkDirent "S-1-5-99" true false]
              else if bool_decide (p = "C:\Users\u\$Recycle.Bin\S-1-5-21")
              then Some [mkDirent "$RAB12.jar" false true; mkDirent "$IAB12.jar" false true]
              else if bool_decide (p = "C:\Users\u\$Recycle.Bin\S-1-5-99")
              then Some [mkDirent "$RZZ.exe" false true]
              else None)
    (fun _ => None)
    (fun p => if bool_decide (p = "C:\Users\u\$Recycle.Bin\S-1-5-21\$RAB12.jar")
              then Some (sampleFile 10 5000)
              else if bool_decide (p = "C:\Users\u\$Recycle.Bin\S-1-5-21\$IAB12.jar")
              then Some (sampleFile 1 5000)
              else if bool_decide (p = "C:\Users\u\$Recycle.Bin\S-1-5-99\$RZZ.exe")
              then Some (sampleFile 10 6000)
              else None).

Definition sampleBinFiles : V1.TrashFiles :=
  V1.mkTrashFiles
    (fun _ => None)
    (fun p => if bool_decide (p = "C:\Users\u\$Recycle.Bin\S-1-5-21\$IAB12.jar")
              then Some sampleInfoBuffer else None)
    (fun _ => false) (fun _ => NaN) (fun p => p) (fun _ => "decoded").

(** A backend in which every probe fails, and a desktop without a
    documents folder. *)
Definition sampleUtils : Main.SystemUtils string (list string) :=
  let failed := Threw (mkError "EACCES") in
  Main.mkSystemUtils failed failed (fun _ => failed) (fun _ => failed) failed failed
    failed failed failed failed failed (fun _ => failed) failed (fun _ => failed) failed.

Definition sampleDesktop : Main.Desktop string :=
  Main.mkDesktop (Threw (mkError "no documents folder"))
    (fun _ => Returned "") (fun data => Returned data) (fun _ _ => Returned tt).

(** A mod folder in which the second of three archives cannot be
    examined. *)
Definition sampleBrokenMods : FileSystem :=
  mkFileSystem linux "/home/u" joinPosix
    (fun p => bool_decide (p ∈ ["/home/u/.minecraft"; "/home/u/.minecraft/mods"]))
    (fun p => if bool_decide (p = "/home/u/.minecraft/mods")
              then Some [mkDirent "OptiFine-1.19.jar" false true;
                         mkDirent "broken.jar" false true;
                         mkDirent "killaura-client.jar" false true]
              else None)
    (fun _ => None)
    (fun p => if bool_decide (p = "/home/u/.minecraft/mods") then Some sampleDir
              else if bool_decide (p = "/home/u/.minecraft/mods/OptiFine-1.19.jar")
                   then Some (sampleFile 100 1000)
              else if bool_decide (p = "/home/u/.minecraft/mods/killaura-client.jar")
                   then Some (sampleFile 200 2000)
              else None).

(** The same program started twice. *)
Definition firstRun : V1.HistoryEntry :=
  V1.mkHistoryEntry "Java.exe" "Prefetch" "1/1/2024, 10:00:00" (Num 1704103200000).
Definition secondRun : V1.HistoryEntry :=
  V1.mkHistoryEntry "java.exe" "Event Log" "1/1/2024, 11:00:00" (Num 1704106800000).

(** A backend whose [openFileLocation] is that of the first variant on
    the Windows machine without folders. *)
Definition sampleShell : V1.Shell :=
  V1.mkShell (fun p => p) (fun _ => mkError "ENOENT") (fun _ => None).

Definition sampleOpener : Main.SystemUtils string V1.Opened :=
  let failed := Threw (mkError "EACCES") in
  Main.mkSystemUtils failed failed (fun _ => failed) (fun _ => failed) failed failed
    failed failed failed failed failed (fun _ => failed) failed
    (V1.openFileLocation sampleWindows sampleShell) failed.

(** The system log with one recent event whose device text has 120
    characters, and one event from the day before. *)
Definition longDeviceText : string :=
  "USB Mass Storage Device was removed from the system while it was still in use by " +:+
  "the application; check the cabling...".

Definition sampleUsbProbe : V1.UsbProbe :=
  V1.mkUsbProbe
    (Some [V1.mkUsbEvent (Num 1700000000000) "14/11/2023, 22:13:20" (Some longDeviceText);
           V1.mkUsbEvent (Num 1699900000000) "13/11/2023, 18:26:40" (Some "USB hub")])
    None None None.

(** A text in double quotes. *)
Definition inQuotes (text : string) : string := String "034" text +:+ String "034" "".

(** The task list of a machine that runs the game, and the modules of the
    game's process: the module list names three libraries of the system and
    of Java. *)
Definition gameRow : string :=
  inQuotes "minecraft.exe" +:+ "," +:+ inQuotes "4242" +:+ "," +:+ inQuotes "Minecraft".

Definition sampleTasklist : string :=
  inQuotes "Image Name" +:+ "," +:+ inQuotes "PID" +:+ "," +:+ inQuotes "Window Title" +:+
  newline +:+ gameRow.

Definition sampleModules : string :=
  inQuotes "ModuleName" +:+ newline +:+ inQuotes "ntdll.dll" +:+ newline +:+
  inQuotes "jvm.dll" +:+ newline +:+ inQuotes "java.dll".

Definition sampleProcessProbe : V1.ProcessProbe :=
  V1.mkProcessProbe (Some sampleTasklist)
    (fun pid => if bool_decide (pid = "4242") then Some sampleModules else None)
    None
    (fun line => if bool_decide (line = gameRow)
                 then Some [inQuotes "minecraft.exe"; inQuotes "4242"; inQuotes "Minecraft"]
                 else Some [inQuotes "Image Name"; inQuotes "PID"; inQuotes "Window Title"])
    (fun _ => None).

(** A home with a Bash history of three commands and a blank line. *)
Definition sampleHistory : string :=
  "ls" +:+ newline +:+ "java -jar client.jar" +:+ newline +:+ " " +:+ newline +:+
  "rm client.jar" +:+ newline.

Definition sampleShellHome : FileSystem :=
  mkFileSystem linux "/home/u" joinPosix
    (fun p => bool_decide (p = "/home/u/.bash_history"))
    (fun _ => None) (fun _ => None)
    (fun p => if bool_decide (p = "/home/u/.bash_history") then Some (sampleFile 40 9000)
              else None).

Definition sampleHistoryFiles : V1.HistoryFiles :=
  V1.mkHistoryFiles
    (fun p => if bool_decide (p = "/home/u/.bash_history") then Some sampleHistory else None)
    (fun _ => 0).

(** Two files without extension and an archive with two extensions, all
    modified within the last day, in the download folder of a Linux
    home. *)
Definition sampleRecent : FileSystem :=
  mkFileSystem linux "/home/u" joinPosix
    (fun p => bool_decide (p = "/home/u/Downloads"))
    (fun _ => None)
    (fun p => if bool_decide (p = "/home/u/Downloads")
              then Some ["LICENSE"; "Makefile"; "client.jar.txt"] else None)
    (fun p => if bool_decide (p ∈ ["/home/u/Downloads/LICENSE"; "/home/u/Downloads/Makefile";
                                   "/home/u/Downloads/client.jar.txt"])
              then Some (sampleFile 10 5000) else None).

Definition licenseFile : V2.RecentFile :=
  V2.mkRecentFile "LICENSE" "/home/u/Downloads/LICENSE" 5000 10.
Definition makeFile : V2.RecentFile :=
  V2.mkRecentFile "Makefile" "/home/u/Downloads/Makefile" 5000 10.
Definition disguisedFile : V2.RecentFile :=
  V2.mkRecentFile "client.jar.txt" "/home/u/Downloads/client.jar.txt" 5000 10.



(** * Proof automation *)

(** Closes a decidable statement about finite tables by evaluation. *)
Ltac by_evaluation := apply (bool_decide_unpack _); vm_compute; exact I.

Create HintDb screen.

(** Case analysis on the branches of a step of [checkScreenRecording]. *)
Ltac step_cases :=
  repeat match goal with
         | |- named (match ?x with _ => _ end) => destruct x
         | |- named (if ?c then _ else _) => destruct c
         | |- named (let _ := _ in _) => cbv zeta
         end; eauto with screen.

(** * Properties *)

(** ** Facts about [sort] *)
Section SortFacts.
Context {A : Type} (comparefn : A -> A -> jsnum).

Lemma continueRun_app (descending : bool) (rest : list A) :
  forall previous,
    (continueRun comparefn descending previous rest).1 ++
    (continueRun comparefn descending previous rest).2 = rest.
Proof.
  induction rest as [|current rest IH]; intros previous; simpl; [done|].
  destruct (bool_decide _); [|done].
  specialize (IH current).
  destruct (continueRun comparefn descending current rest) as [run others].
  simpl in *. by rewrite IH.
Qed.

Lemma countAndMakeRun_perm (l : list A) :
  (countAndMakeRun comparefn l).1 ++ (countAndMakeRun comparefn l).2 ≡ₚ l.
Proof.
  destruct l as [|first [|second rest]]; simpl; [done..|].
  pose proof (continueRun_app (comes_before comparefn second first) rest second) as Happ.
  destruct (continueRun comparefn _ second rest) as [run others]. simpl in *.
  rewrite <- Happ.
  destruct (comes_before comparefn second first); [|done].
  by rewrite reverse_Permutation.
Qed.

Lemma binaryInsert_perm (sorted : list A) (pivot : A) :
  binaryInsert comparefn sorted pivot ≡ₚ pivot :: sorted.
Proof.
  unfold binaryInsert. cbv zeta.
  rewrite <- Permutation_middle. by rewrite take_drop.
Qed.

Lemma foldl_binaryInsert_perm (others : list A) :
  forall run, foldl (binaryInsert comparefn) run others ≡ₚ run ++ others.
Proof.
  induction others as [|pivot others IH]; intros run; simpl.
  - by rewrite app_nil_r.
  - rewrite IH, binaryInsert_perm. by rewrite <- Permutation_middle.
Qed.

(** The binary search ends within [right - left] rounds, whatever the
    comparator answers: more fuel does not change its result. *)
Lemma insertionPoint_enough (pivot : A) (work : list A) (more : nat) :
  forall fuel left right,
    (right - left <= fuel)%nat ->
    insertionPoint comparefn (fuel + more) pivot work left right =
    insertionPoint comparefn fuel pivot work left right.
Proof.
  induction fuel as [|fuel IH]; intros left right Hfuel.
  - destruct more as [|more]; [done|]. cbn [Nat.add insertionPoint].
    by rewrite bool_decide_eq_false_2 by lia.
  - cbn [Nat.add insertionPoint]. case_bool_decide as Hlt; [|done]. cbv zeta.
    set (mid := (left + (right - left) / 2)%nat).
    assert (left <= mid < right)%nat as Hmid.
    { unfold mid. pose proof (Nat.div_lt (right - left) 2).
      pose proof (Nat.Div0.div_le_upper_bound (right - left) 2 (right - left)). lia. }
    destruct (work !! mid) as [element|]; [|done].
    destruct (comes_before comparefn pivot element); apply IH; lia.
Qed.

Lemma sort_perm (l : list A) : sort comparefn l ≡ₚ l.
Proof.
  unfold sort. pose proof (countAndMakeRun_perm l) as Hrun.
  destruct (countAndMakeRun comparefn l) as [run others].
  by rewrite foldl_binaryInsert_perm.
Qed.

Lemma sort_length (l : list A) : length (sort comparefn l) = length l.
Proof. by rewrite sort_perm. Qed.

(** A comparator that is consistent on the elements that satisfy [P]: it
    orders them like the numbers [rank]. *)
Section Consistent.
Context (P : A -> Prop) (rank : A -> Z).
Hypothesis before_rank :
  forall a b, P a -> P b -> (comes_before comparefn a b = true <-> rank a < rank b).

Let ascending (a b : A) : Prop := rank a <= rank b.

Lemma continueRun_chain (descending : bool) (rest : list A) :
  forall previous,
    Sorted (fun a b => comes_before comparefn b a = descending)
           (previous :: (continueRun comparefn descending previous rest).1).
Proof.
  induction rest as [|current rest IH]; intros previous; simpl.
  - repeat constructor.
  - destruct (bool_decide _) eqn:Hstep; [|repeat constructor].
    apply bool_decide_eq_true in Hstep. specialize (IH current).
    destruct (continueRun comparefn descending current rest) as [run others].
    simpl in *. constructor; [done|by constructor].
Qed.

Lemma Sorted_ranked (R R' : A -> A -> Prop) (l : list A) :
  (forall a b, P a -> P b -> R a b -> R' a b) ->
  Forall P l -> Sorted R l -> Sorted R' l.
Proof.
  intros HR HP Hs. induction Hs as [|a l Hs IH Hd]; [constructor|].
  apply Forall_cons in HP as [Ha Hl]. constructor; [by apply IH|].
  destruct Hd as [|b l Hab]; constructor.
  apply Forall_cons in Hl as [Hb _]. by apply HR.
Qed.

Lemma StronglySorted_reverse (R : A -> A -> Prop) (l : list A) :
  StronglySorted R l -> StronglySorted (flip R) (reverse l).
Proof.
  induction 1 as [|a l Hs IH Ha]; [constructor|].
  rewrite reverse_cons. apply StronglySorted_app_2; [|done|repeat constructor].
  intros x y Hx Hy. apply list_elem_of_singleton in Hy as ->.
  rewrite elem_of_reverse in Hx. unfold flip.
  by apply (proj1 (Forall_forall _ _) Ha).
Qed.

Lemma StronglySorted_implies (R R' : A -> A -> Prop) (l : list A) :
  (forall a b, R a b -> R' a b) -> StronglySorted R l -> StronglySorted R' l.
Proof.
  intros HR. induction 1 as [|a l Hs IH Ha]; constructor; [done|].
  eapply Forall_impl; [exact Ha|]. intros b. apply HR.
Qed.

Lemma filter_none (Q : A -> Prop) `{!forall x, Decision (Q x)} (l : list A) :
  Forall (fun x => ~ Q x) l -> filter Q l = [].
Proof.
  induction 1 as [|x l Hx Hl IH]; [done|].
  by rewrite filter_cons, decide_False.
Qed.

Lemma reverse_filter_distinct (t : Z) (l : list A) :
  StronglySorted (fun a b => rank b < rank a) l ->
  filter (fun a => rank a = t) (reverse l) = filter (fun a => rank a = t) l.
Proof.
  intros Hs. rewrite filter_reverse.
  induction Hs as [|a l Hs IH Ha]; [done|].
  rewrite filter_cons. destruct (decide (rank a = t)) as [Heq|Hne]; [|done].
  assert (filter (fun b => rank b = t) l = []) as ->; [|done].
  apply filter_none. eapply Forall_impl; [exact Ha|].
  intros b Hb Hbt. simpl in *. lia.
Qed.

Lemma StronglySorted_ranked (R R' : A -> A -> Prop) (l : list A) :
  (forall a b, P a -> P b -> R a b -> R' a b) ->
  Forall P l -> StronglySorted R l -> StronglySorted R' l.
Proof.
  intros HR HP Hs. induction Hs as [|a l Hs IH Ha]; [constructor|].
  apply Forall_cons in HP as [HPa HPl]. constructor; [by apply IH|].
  apply Forall_forall. intros b Hb. apply HR; [done| |].
  - by apply (proj1 (Forall_forall _ _) HPl).
  - by apply (proj1 (Forall_forall _ _) Ha).
Qed.

Lemma countAndMakeRun_ranked (l : list A) :
  Forall P l ->
  StronglySorted ascending (countAndMakeRun comparefn l).1 /\
  forall t, filter (fun a => rank a = t) (countAndMakeRun comparefn l).1 ++
            filter (fun a => rank a = t) (countAndMakeRun comparefn l).2 =
            filter (fun a => rank a = t) l.
Proof.
  intros HP. destruct l as [|first [|second rest]]; simpl.
  - split; [constructor|done].
  - split; [repeat constructor|]. intros t. by rewrite app_nil_r.
  - pose proof (continueRun_app (comes_before comparefn second first) rest second) as Happ.
    pose proof (continueRun_chain (comes_before comparefn second first) rest second) as Hchain.
    destruct (continueRun comparefn _ second rest) as [run others]. simpl in *.
    assert (Forall P (first :: second :: run)) as HPrun.
    { rewrite <- Happ in HP. apply Forall_cons in HP as [? HP].
      apply Forall_cons in HP as [? HP]. apply Forall_app in HP as [? _].
      by repeat constructor. }
    destruct (comes_before comparefn second first) eqn:Hdesc.
    + assert (StronglySorted (fun a b => rank b < rank a) (first :: second :: run)) as Hs.
      { apply Sorted_StronglySorted; [intros a b c; lia|].
        apply (Sorted_ranked (fun a b => comes_before comparefn b a = true)); [|done|].
        - intros a b Ha Hb. by apply before_rank.
        - constructor; [done|]. by constructor. }
      split.
      * apply StronglySorted_reverse in Hs.
        eapply StronglySorted_implies; [|exact Hs].
        intros a b. unfold flip, ascending. lia.
      * intros t. rewrite (reverse_filter_distinct t _ Hs).
        rewrite <- filter_app. by rewrite <- Happ.
    + split.
      * apply Sorted_StronglySorted; [intros a b c; unfold ascending; lia|].
        apply (Sorted_ranked (fun a b => comes_before comparefn b a = false)); [|done|].
        -- intros a b Ha Hb Hnot. unfold ascending.
           destruct (decide (rank b < rank a)) as [Hlt|]; [|lia].
           apply before_rank in Hlt; [congruence|done..].
        -- constructor; [done|]. by constructor.
      * intros t. rewrite <- filter_app. by rewrite <- Happ.
Qed.

Lemma StronglySorted_lookup_le (l : list A) (i j : nat) (x y : A) :
  StronglySorted ascending l -> (i <= j)%nat ->
  l !! i = Some x -> l !! j = Some y -> rank x <= rank y.
Proof.
  intros Hs. revert i j. induction Hs as [|a l Hs IH Ha]; intros i j Hij Hi Hj; [done|].
  destruct i as [|i], j as [|j]; simpl in *; try lia.
  - injection Hi as <-. injection Hj as <-. lia.
  - injection Hi as <-. apply list_elem_of_lookup_2 in Hj.
    by apply (proj1 (Forall_forall _ _) Ha).
  - apply (IH i j); [lia|done..].
Qed.

Lemma insertionPoint_spec (pivot : A) (work : list A) :
  StronglySorted ascending work -> Forall P work -> P pivot ->
  forall fuel left right,
    (right - left <= fuel)%nat -> (left <= right <= length work)%nat ->
    (forall i x, (i < left)%nat -> work !! i = Some x -> rank x <= rank pivot) ->
    (forall i x, (right <= i)%nat -> work !! i = Some x -> rank pivot < rank x) ->
    (insertionPoint comparefn fuel pivot work left right <= length work)%nat /\
    (forall i x, (i < insertionPoint comparefn fuel pivot work left right)%nat ->
                 work !! i = Some x -> rank x <= rank pivot) /\
    (forall i x, (insertionPoint comparefn fuel pivot work left right <= i)%nat ->
                 work !! i = Some x -> rank pivot < rank x).
Proof.
  intros Hs HP Hpivot. induction fuel as [|fuel IH]; intros left right Hfuel Hbounds Hlow Hhigh.
  - simpl. assert (left = right) as -> by lia. repeat split; [lia|done..].
  - cbn [insertionPoint]. case_bool_decide as Hlt.
    + cbv zeta. set (mid := (left + (right - left) / 2)%nat).
      assert (left <= mid < right)%nat as Hmid.
      { unfold mid. pose proof (Nat.div_lt (right - left) 2). 
        pose proof (Nat.Div0.div_le_upper_bound (right - left) 2 (right - left)). lia. }
      destruct (lookup_lt_is_Some_2 work mid) as [element Helement]; [lia|].
      rewrite Helement.
      assert (P element) as HPelement.
      { apply (proj1 (Forall_lookup _ _) HP mid). done. }
      destruct (comes_before comparefn pivot element) eqn:Hbefore.
      * apply IH; [lia|lia|done|].
        intros i x Hi Hx. apply before_rank in Hbefore; [|done..].
        pose proof (StronglySorted_lookup_le work mid i element x Hs Hi Helement Hx). lia.
      * apply IH; [lia|lia| |done].
        intros i x Hi Hx.
        assert (rank element <= rank pivot) as Hle.
        { destruct (decide (rank pivot < rank element)) as [Hlt'|]; [|lia].
          apply before_rank in Hlt'; [congruence|done..]. }
        pose proof (StronglySorted_lookup_le work i mid x element Hs ltac:(lia) Hx Helement).
        lia.
    + assert (left = right) as -> by lia. repeat split; [lia|done..].
Qed.

Lemma binaryInsert_ranked (sorted : list A) (pivot : A) :
  StronglySorted ascending sorted -> Forall P sorted -> P pivot ->
  StronglySorted ascending (binaryInsert comparefn sorted pivot) /\
  forall t, filter (fun a => rank a = t) (binaryInsert comparefn sorted pivot) =
            filter (fun a => rank a = t) (sorted ++ [pivot]).
Proof.
  intros Hs HP Hpivot. unfold binaryInsert. cbv zeta.
  destruct (insertionPoint_spec pivot sorted Hs HP Hpivot (length sorted) 0 (length sorted))
    as (Hlen & Hlow & Hhigh); [lia|lia|intros; lia| |].
  { intros i x Hi Hx. apply lookup_lt_Some in Hx. lia. }
  set (left := insertionPoint comparefn (length sorted) pivot sorted 0 (length sorted)) in *.
  assert (Forall (fun x => rank x <= rank pivot) (take left sorted)) as Htake.
  { apply Forall_lookup. intros i x Hx. apply lookup_take_Some in Hx as [Hx Hi].
    by apply (Hlow i). }
  assert (Forall (fun x => rank pivot < rank x) (drop left sorted)) as Hdrop.
  { apply Forall_lookup. intros i x Hx. rewrite lookup_drop in Hx.
    apply (Hhigh (left + i)%nat); [lia|done]. }
  rewrite <- (take_drop left sorted) in Hs.
  apply StronglySorted_app in Hs as (Hcross & Hs1 & Hs2).
  split.
  - apply StronglySorted_app_2; [|done|].
    + intros x y Hx Hy. apply elem_of_cons in Hy as [->|Hy].
      * by apply (proj1 (Forall_forall _ _) Htake).
      * by apply Hcross.
    + constructor; [done|]. eapply Forall_impl; [exact Hdrop|].
      intros x. unfold ascending. lia.
  - intros t. rewrite <- (take_drop left sorted) at 3.
    rewrite !filter_app, !filter_cons, filter_nil.
    destruct (decide (rank pivot = t)) as [Heq|Hne].
    + assert (filter (fun a => rank a = t) (drop left sorted) = []) as ->.
      { apply filter_none. eapply Forall_impl; [exact Hdrop|].
        intros x Hx Hxt. simpl in *. lia. }
      by rewrite app_nil_r.
    + by rewrite app_nil_r.
Qed.

Lemma foldl_binaryInsert_ranked (others : list A) :
  forall run,
    StronglySorted ascending run -> Forall P run -> Forall P others ->
    StronglySorted ascending (foldl (binaryInsert comparefn) run others) /\
    forall t, filter (fun a => rank a = t) (foldl (binaryInsert comparefn) run others) =
              filter (fun a => rank a = t) (run ++ others).
Proof.
  induction others as [|pivot others IH]; intros run Hs HP Hothers; simpl.
  - split; [done|]. intros t. by rewrite app_nil_r.
  - apply Forall_cons in Hothers as [Hpivot Hothers].
    destruct (binaryInsert_ranked run pivot Hs HP Hpivot) as [Hs' Hfilter].
    destruct (IH (binaryInsert comparefn run pivot)) as [Hsorted Hstable]; [done| |done|].
    { rewrite binaryInsert_perm. by constructor. }
    split; [done|]. intros t.
    rewrite Hstable, filter_app, Hfilter, <- filter_app.
    by rewrite <- app_assoc.
Qed.

(** On a consistent comparator the result is in ascending order of the
    rank, and elements of one rank keep their order. *)
Lemma sort_ranked (l : list A) :
  Forall P l ->
  StronglySorted ascending (sort comparefn l) /\
  forall t, filter (fun a => rank a = t) (sort comparefn l) = filter (fun a => rank a = t) l.
Proof.
  intros HP. unfold sort.
  destruct (countAndMakeRun_ranked l HP) as [Hs Hfilter].
  pose proof (countAndMakeRun_perm l) as Hperm.
  destruct (countAndMakeRun comparefn l) as [run others]. simpl in *.
  rewrite <- Hperm in HP. apply Forall_app in HP as [HPrun HPothers].
  destruct (foldl_binaryInsert_ranked others run Hs HPrun HPothers) as [Hsorted Hstable].
  split; [done|]. intros t. by rewrite Hstable, filter_app.
Qed.
End Consistent.
End SortFacts.

Lemma filter_all {A : Type} (Q : A -> Prop) `{!forall x, Decision (Q x)} (l : list A) :
  Forall Q l -> filter Q l = l.
Proof.
  induction 1 as [|x l Hx Hl IH]; [done|].
  by rewrite filter_cons, decide_True, IH.
Qed.

Lemma filter_agree {A : Type} (Q1 Q2 : A -> Prop)
    `{!forall x, Decision (Q1 x)} `{!forall x, Decision (Q2 x)} (l : list A) :
  Forall (fun x => Q1 x <-> Q2 x) l -> filter Q1 l = filter Q2 l.
Proof.
  induction 1 as [|x l Hx Hl IH]; [done|].
  rewrite !filter_cons, IH.
  destruct (decide (Q1 x)), (decide (Q2 x)); tauto.
Qed.

(** A comparator that never says that one element of the array comes
    before another leaves the array as it is. *)
Lemma sort_fixed {A : Type} (comparefn : A -> A -> jsnum) (l : list A) :
  (forall a b, a ∈ l -> b ∈ l -> comes_before comparefn a b = false) ->
  sort comparefn l = l.
Proof.
  intros Hnever.
  destruct (sort_ranked comparefn (fun a => a ∈ l) (fun _ => 0)) with (l := l)
    as [_ Hstable].
  - intros a b Ha Hb. rewrite Hnever by done. split; [done|lia].
  - by apply Forall_forall.
  - specialize (Hstable 0).
    rewrite !filter_all in Hstable; [done|by apply Forall_forall..].
Qed.

(** Sorting by a key, most recent first. *)
Section SortByKey.
Context {A : Type} (key : A -> jsnum).

(** The place of an element in the order of the comparator: the later the
    time, the lower the rank. *)
Definition rankOf (a : A) : Z :=
  match key a with
  | Num z => - z
  | NaN => 0
  end.

Lemma comes_before_spec (a b : A) :
  valid (key a) -> valid (key b) ->
  comes_before (byKeyDesc key) a b = true <-> rankOf a < rankOf b.
Proof.
  unfold comes_before, byKeyDesc, sub, rankOf, valid.
  destruct (key a) as [x|], (key b) as [y|]; try done.
  intros _ _. rewrite bool_decide_eq_true. lia.
Qed.

(** With valid keys the result is in descending order of the key, for
    every comparator that answers like the difference of the keys where
    both keys are valid. *)
Lemma sort_sorted_like (comparefn : A -> A -> jsnum) (l : list A) :
  (forall a b, valid (key a) -> valid (key b) ->
               comes_before comparefn a b = comes_before (byKeyDesc key) a b) ->
  Forall (fun b => valid (key b)) l ->
  StronglySorted (notBefore key) (sort comparefn l).
Proof.
  intros Hlike Hvalid.
  destruct (sort_ranked comparefn (fun a => valid (key a)) rankOf) with (l := l)
    as [Hsorted _]; [|done|].
  { intros a b Ha Hb. rewrite Hlike by done. by apply comes_before_spec. }
  eapply (StronglySorted_ranked (fun a => valid (key a))); [| |exact Hsorted].
  - intros a b Ha Hb. unfold notBefore, geb, rankOf, valid in *.
    destruct (key a) as [x|], (key b) as [y|]; try done.
    intros Hle. apply bool_decide_eq_true. lia.
  - by rewrite sort_perm.
Qed.

Lemma sort_sorted (l : list A) :
  Forall (fun b => valid (key b)) l ->
  StronglySorted (notBefore key) (sort (byKeyDesc key) l).
Proof. by apply sort_sorted_like. Qed.

(** With valid keys, items with the same key keep their order: the sort
    is stable. *)
Lemma sort_same_key (t : jsnum) (l : list A) :
  Forall (fun b => valid (key b)) l ->
  filter (fun a => key a = t) (sort (byKeyDesc key) l) = filter (fun a => key a = t) l.
Proof.
  intros Hvalid.
  destruct (sort_ranked (byKeyDesc key) (fun a => valid (key a)) rankOf
              comes_before_spec l Hvalid) as [_ Hstable].
  assert (Forall (fun b => valid (key b)) (sort (byKeyDesc key) l)) as Hvalid'
    by by rewrite sort_perm.
  destruct t as [z|].
  - rewrite (filter_agree (fun a => key a = Num z) (fun a => rankOf a = - z)
               (sort (byKeyDesc key) l)).
    + rewrite Hstable. symmetry. apply filter_agree.
      eapply Forall_impl; [exact Hvalid|]. intros a Ha. unfold rankOf, valid in *.
      destruct (key a) as [x|]; [|done]. split; [intros [= ->]; lia|intros ?; f_equal; lia].
    + eapply Forall_impl; [exact Hvalid'|]. intros a Ha. unfold rankOf, valid in *.
      destruct (key a) as [x|]; [|done]. split; [intros [= ->]; lia|intros ?; f_equal; lia].
  - rewrite !filter_none; [done|done|].
    by rewrite sort_perm.
Qed.
End SortByKey.

Lemma StronglySorted_weaken {A : Type} (key : A -> jsnum) (R : A -> A -> Prop) (l : list A) :
  (forall a b, notBefore key a b -> R a b) ->
  StronglySorted (notBefore key) l -> StronglySorted R l.
Proof.
  intros HR Hs. induction Hs as [|a l Hs IH Ha]; constructor; [done|].
  eapply Forall_impl; [exact Ha|]. intros b. apply HR.
Qed.

(** ** Facts about loops inside a [try] block *)

Lemma forEach_app {S A : Type} (body : S -> A -> flow S) (xs ys : list A) (s : S) :
  forEach body (xs ++ ys) s = andThen (forEach body xs s) (forEach body ys).
Proof.
  revert s. induction xs as [|x xs IH]; intros s; simpl; [done|].
  destruct (body s x) as [s'|s']; simpl; [apply IH|done].
Qed.

Lemma forEach_preserves {S A : Type} (P : S -> Prop) (body : S -> A -> flow S)
    (xs : list A) :
  (forall s x, x ∈ xs -> P s -> P (caught (body s x))) ->
  forall s, P s -> P (caught (forEach body xs s)).
Proof.
  induction xs as [|x xs IH]; intros Hbody s Hs; simpl; [done|].
  pose proof (Hbody s x ltac:(left) Hs) as Hstep.
  destruct (body s x) as [s'|s']; simpl in *; [|done].
  apply IH; [|done]. intros s'' x' Hx'. apply Hbody. by right.
Qed.

(** ** Facts about the de-duplication loop *)
Section Dedup.
Context {A : Type} (key : A -> string).

(** Each key keeps the first item that carries it. *)
Lemma keepUnseen_first (k : string) (items : list A) :
  forall (seen : gset string) (kept : list A),
    (forall k', k' ∈ seen <-> k' ∈ map key kept) ->
    filter (fun y => key y = k) (foldl (keepUnseen key) (seen, kept) items).2 =
    filter (fun y => key y = k) kept ++
    (if decide (k ∈ seen) then [] else take 1 (filter (fun y => key y = k) items)).
Proof.
  induction items as [|x items IH]; intros seen kept Hseen; simpl.
  - destruct (decide (k ∈ seen)); by rewrite app_nil_r.
  - unfold keepUnseen at 2. simpl.
    destruct (bool_decide (key x ∈ seen)) eqn:Hx.
    + apply bool_decide_eq_true in Hx. rewrite (IH seen kept Hseen).
      destruct (decide (k ∈ seen)) as [|Hk]; [done|].
      rewrite filter_cons. destruct (decide (key x = k)) as [<-|]; done.
    + apply bool_decide_eq_false in Hx. rewrite IH.
      * rewrite filter_app, filter_cons, filter_nil.
        destruct (decide (key x = k)) as [<-|Hne].
        -- rewrite decide_True by set_solver.
           rewrite decide_False by done.
           rewrite filter_cons, decide_True by done. simpl.
           by rewrite app_nil_r.
        -- rewrite app_nil_r.
           destruct (decide (k ∈ seen)) as [Hk|Hk].
           ++ by rewrite decide_True by set_solver.
           ++ rewrite decide_False by set_solver.
              by rewrite filter_cons, decide_False by done.
      * intros k'. rewrite map_app, elem_of_app. simpl.
        rewrite elem_of_union, elem_of_singleton, list_elem_of_singleton.
        specialize (Hseen k'). tauto.
Qed.

Lemma unique_first (k : string) (items : list A) :
  filter (fun y => key y = k) (foldl (keepUnseen key) (∅, []) items).2 =
  take 1 (filter (fun y => key y = k) items).
Proof.
  rewrite keepUnseen_first.
  - rewrite filter_nil. simpl. by rewrite decide_False by set_solver.
  - intros k'. simpl. set_solver.
Qed.

(** Nothing is invented: what is kept was collected. *)
Lemma keepUnseen_subseteq (items : list A) :
  forall (state : gset string * list A),
    (foldl (keepUnseen key) state items).2 ⊆ state.2 ++ items.
Proof.
  induction items as [|x items IH]; intros [seen kept]; simpl.
  - by rewrite app_nil_r.
  - etrans; [apply IH|]. unfold keepUnseen. simpl.
    destruct (bool_decide (key x ∈ seen)); simpl; set_solver.
Qed.

(** After any sort, exactly one item with the key of a collected item is
    left, and it is the first one collected with that key. *)
Lemma sorted_unique_first (comparefn : A -> A -> jsnum) (k : string) (items : list A) :
  filter (fun y => key y = k)
         (sort comparefn (foldl (keepUnseen key) (∅, []) items).2) =
  take 1 (filter (fun y => key y = k) items).
Proof.
  pose proof (unique_first k items) as Hu.
  assert (filter (fun y => key y = k)
            (sort comparefn (foldl (keepUnseen key) (∅, []) items).2) ≡ₚ
          take 1 (filter (fun y => key y = k) items)) as Hp.
  { by rewrite sort_perm, Hu. }
  destruct (filter (fun y => key y = k) items) as [|y ys]; simpl in *.
  - by apply Permutation_nil_r in Hp.
  - by apply Permutation_singleton_r in Hp.
Qed.

Lemma sorted_unique_one (comparefn : A -> A -> jsnum) (x : A) (items : list A) :
  x ∈ items ->
  length (filter (fun y => key y = key x)
            (sort comparefn (foldl (keepUnseen key) (∅, []) items).2)) = 1%nat.
Proof.
  intros Hx. rewrite sorted_unique_first.
  assert (x ∈ filter (fun y => key y = key x) items) as Hin.
  { by apply list_elem_of_filter. }
  destruct (filter (fun y => key y = key x) items); [|done].
  by apply elem_of_nil in Hin.
Qed.
End Dedup.

(** ** Executed-JAR finder: duplicates *)

(** C1, as stated, fails for the first variant: it compares the paths as they
    are, so two findings whose paths differ only by letter case are both
    returned. *)
Lemma C1_first_variant_keeps_both :
  toLowerCase (V1.ej_path upperCaseJar) = toLowerCase (V1.ej_path lowerCaseJar) /\
  V1.collectExecutedJars sampleWindows sampleJarSources = [upperCaseJar; lowerCaseJar] /\
  V1.getRecentlyExecutedJars sampleWindows sampleJarSources = [upperCaseJar; lowerCaseJar] /\
  length (filter (fun j => toLowerCase (V1.ej_path j) = toLowerCase (V1.ej_path upperCaseJar))
                 (V1.getRecentlyExecutedJars sampleWindows sampleJarSources)) = 2%nat.
Proof. vm_compute. done. Qed.

(** C1 (amended): duplicates are removed by path.  In the second variant
    the paths are compared in lower case: of the collected findings whose
    paths agree up to letter case exactly one is returned.  In the first
    variant the paths are compared as they are: of the collected findings
    with one and the same path exactly one is returned. *)
Theorem C1_dedup_by_path :
  (forall (executedJars : list V2.ExecutedJar) (jar : V2.ExecutedJar),
      jar ∈ executedJars ->
      exists kept,
        kept ∈ executedJars /\
        filter (fun j => toLowerCase (V2.ej_path j) = toLowerCase (V2.ej_path jar))
               (V2.getRecentlyExecutedJars executedJars) = [kept]) /\
  (forall (fs : FileSystem) (src : V1.JarSources) (jar : V1.ExecutedJar),
      jar ∈ V1.collectExecutedJars fs src ->
      exists kept,
        kept ∈ V1.collectExecutedJars fs src /\
        filter (fun j => V1.ej_path j = V1.ej_path jar)
               (V1.getRecentlyExecutedJars fs src) = [kept]).
Proof.
  split.
  - intros executedJars jar Hjar.
    unfold V2.getRecentlyExecutedJars, V2.uniqueByLowerPath.
    rewrite (sorted_unique_first (fun j => toLowerCase (V2.ej_path j))).
    assert (jar ∈ filter (fun j => toLowerCase (V2.ej_path j) = toLowerCase (V2.ej_path jar))
                         executedJars) as Hin by by apply list_elem_of_filter.
    destruct (filter _ executedJars) as [|kept rest] eqn:E.
    + by apply elem_of_nil in Hin.
    + exists kept. split; [|done].
      assert (kept ∈ filter (fun j => toLowerCase (V2.ej_path j) = toLowerCase (V2.ej_path jar))
                            executedJars) as Hk by (rewrite E; left).
      by apply list_elem_of_filter in Hk as [_ ?].
  - intros fs src jar Hjar.
    unfold V1.getRecentlyExecutedJars, V1.uniqueByPath.
    rewrite (sorted_unique_first V1.ej_path).
    assert (jar ∈ filter (fun j => V1.ej_path j = V1.ej_path jar)
                         (V1.collectExecutedJars fs src)) as Hin
      by by apply list_elem_of_filter.
    destruct (filter _ (V1.collectExecutedJars fs src)) as [|kept rest] eqn:E.
    + by apply elem_of_nil in Hin.
    + exists kept. split; [|done].
      assert (kept ∈ filter (fun j => V1.ej_path j = V1.ej_path jar)
                            (V1.collectExecutedJars fs src)) as Hk by (rewrite E; left).
      by apply list_elem_of_filter in Hk as [_ ?].
Qed.

Lemma C1_dedup_by_path_witness :
  exists kept,
    kept ∈ [upperCaseJar2; lowerCaseJar2] /\
    filter (fun j => toLowerCase (V2.ej_path j) = toLowerCase (V2.ej_path lowerCaseJar2))
           (V2.getRecentlyExecutedJars [upperCaseJar2; lowerCaseJar2]) = [kept].
Proof.
  apply (proj1 C1_dedup_by_path [upperCaseJar2; lowerCaseJar2] lowerCaseJar2).
  right. left.
Defined.

(** Letter case is that of [toLowerCase], accented letters included: the
    two findings whose paths differ only by a capital and a small E with
    acute accent count as one, and the one collected first is returned. *)
Example accented_paths_are_one_finding :
  toLowerCase (V2.ej_path accentedUpperJar2) = toLowerCase (V2.ej_path accentedLowerJar2) /\
  V2.getRecentlyExecutedJars [accentedUpperJar2; accentedLowerJar2] = [accentedUpperJar2].
Proof. by vm_compute. Qed.

(** ** Original-name guess *)

Example v1_guess_other_inner : V1.getOriginalNameGuess "a.b.EXE.Png" = Some "a.b.EXE".
Proof. vm_compute. reflexivity. Qed.
Example v1_guess_single : V1.getOriginalNameGuess "mod.jar" = None.
Proof. vm_compute. reflexivity. Qed.
Example v2_guess_backup : V2.getOriginalNameGuess "mod_backup.jar" = "mod.jar".
Proof. vm_compute. reflexivity. Qed.
Example v2_guess_date : V2.getOriginalNameGuess "mod.2024-01-02x" = "modx".
Proof. vm_compute. reflexivity. Qed.

Lemma substring_skip (base tail : string) (k m : nat) :
  String.substring (String.length base + k) m (base +:+ tail) = String.substring k m tail.
Proof. induction base as [|c base IH]; simpl; [done|]. apply IH. Qed.

Lemma length_app_string (base tail : string) :
  String.length (base +:+ tail) = (String.length base + String.length tail)%nat.
Proof. induction base as [|c base IH]; simpl; [done|]. by rewrite IH. Qed.

Lemma substringFrom_skip (base tail : string) (k : nat) :
  substringFrom (String.length base + k) (base +:+ tail) = substringFrom k tail.
Proof.
  unfold substringFrom. rewrite substring_skip, length_app_string.
  f_equal. lia.
Qed.

Lemma substringTo_base (base tail : string) :
  substringTo (String.length base) (base +:+ tail) = base.
Proof.
  unfold substringTo. induction base as [|c base IH]; simpl.
  - by destruct tail.
  - by rewrite IH.
Qed.

Lemma substringFrom_0 (s : string) : substringFrom 0 s = s.
Proof.
  unfold substringFrom. rewrite Nat.sub_0_r.
  induction s as [|c s IH]; simpl; [done|]. by rewrite IH.
Qed.

(** The greedy first group gives back characters until the rest of the
    name is an accepted suffix: when [tail] is accepted and none of its
    proper suffixes is, the first group is all of [base]. *)
Lemma matchDoubleExt_tail (base tail g2 : string) :
  base <> "" ->
  V1.noLineTerminator base = true ->
  V1.matchExtTail tail = Some g2 ->
  (forall k, (0 < k <= String.length tail)%nat ->
             V1.matchExtTail (substringFrom k tail) = None) ->
  V1.matchDoubleExt (base +:+ tail) = Some (base, g2).
Proof.
  intros Hne Hline Htail Hshort. unfold V1.matchDoubleExt.
  rewrite length_app_string.
  assert (forall k, (k <= String.length tail)%nat ->
            V1.matchDoubleExt_from (String.length base + k) (base +:+ tail) =
            Some (base, g2)) as H; [|by apply H].
  induction k as [|k IH]; intros Hk.
  - rewrite Nat.add_0_r. destruct base as [|c base]; [done|].
    cbn [String.length V1.matchDoubleExt_from].
    change (S (String.length base)) with (String.length (String c base)).
    rewrite substringTo_base, Hline.
    rewrite <- (Nat.add_0_r (String.length (String c base))).
    by rewrite substringFrom_skip, substringFrom_0, Htail.
  - rewrite Nat.add_succ_r. cbn [V1.matchDoubleExt_from].
    rewrite <- Nat.add_succ_r, substringFrom_skip, Hshort by lia.
    rewrite Nat.add_succ_r.
    destruct (V1.noLineTerminator (substringTo _ _)); apply IH; lia.
Qed.

Lemma tail_matches :
  Forall (fun io : string * string =>
            V1.matchExtTail (tailOf io) = Some io.1 /\
            Forall (fun k => V1.matchExtTail (substringFrom (S k) (tailOf io)) = None)
                   (seq 0 (String.length (tailOf io))))
         extTails.
Proof. by_evaluation. Qed.

(** The first variant strips the outer extension from every name that ends
    in one of the listed pairs of extensions. *)
Theorem v1_guess_double_extension (base inner outer : string) :
  base <> "" ->
  V1.noLineTerminator base = true ->
  inner ∈ V1.innerExts ->
  outer ∈ V1.outerExts ->
  V1.getOriginalNameGuess (base +:+ "." +:+ inner +:+ "." +:+ outer) =
  Some (base +:+ "." +:+ inner).
Proof.
  intros Hne Hline Hinner Houter.
  assert ((inner, outer) ∈ extTails) as Hin.
  { unfold extTails. apply list_elem_of_In, in_flat_map. exists inner.
    split; [by apply list_elem_of_In|]. apply in_map. by apply list_elem_of_In. }
  pose proof (proj1 (Forall_forall _ _) tail_matches _ Hin) as [Htail Hshort].
  unfold tailOf in Htail, Hshort. simpl fst in *. simpl snd in *.
  unfold V1.getOriginalNameGuess.
  rewrite (matchDoubleExt_tail base ("." +:+ inner +:+ "." +:+ outer) inner); try done.
  intros k Hk. destruct k as [|k]; [lia|].
  apply (proj1 (Forall_forall _ _) Hshort). apply elem_of_seq. lia.
Qed.

Lemma v1_guess_double_extension_witness :
  V1.getOriginalNameGuess ("my.mod" +:+ "." +:+ "dll" +:+ "." +:+ "jpeg") =
  Some ("my.mod" +:+ "." +:+ "dll").
Proof.
  apply (v1_guess_double_extension "my.mod" "dll" "jpeg"); [done|by vm_compute| |].
  - unfold V1.innerExts. set_solver.
  - unfold V1.outerExts. set_solver.
Defined.

(** With more than two dot-separated parts the second variant keeps the
    first part and the last one. *)
Theorem v2_guess_many_parts (filename : string) :
  (2 < length (split "." filename))%nat ->
  V2.getOriginalNameGuess filename =
  default "" (split "." filename !! 0%nat) +:+ "." +:+ default "" (last (split "." filename)).
Proof.
  intros Hlen. unfold V2.getOriginalNameGuess.
  by rewrite bool_decide_eq_true_2.
Qed.

Lemma v2_guess_many_parts_witness :
  V2.getOriginalNameGuess "backup.2024.tar.gz" =
  default "" (split "." "backup.2024.tar.gz" !! 0%nat) +:+ "." +:+
  default "" (last (split "." "backup.2024.tar.gz")).
Proof. apply (v2_guess_many_parts "backup.2024.tar.gz"). vm_compute. lia. Defined.

(** C2, as stated, fails for the second variant: on ["mod.jar.txt"] it
    answers ["mod.txt"]. *)
Lemma C2_second_variant_answer :
  V2.getOriginalNameGuess "mod.jar.txt" = "mod.txt" /\
  V2.getOriginalNameGuess "mod.jar.txt" <> "mod.jar".
Proof. vm_compute. done. Qed.

(** C2 (amended): [getOriginalNameGuess("mod.jar.txt")] is ["mod.jar"] in
    the first variant; the second variant joins the first dot-separated part
    and the last one, and answers ["mod.txt"]. *)
Theorem C2_original_name_guess :
  V1.getOriginalNameGuess "mod.jar.txt" = Some "mod.jar" /\
  split "." "mod.jar.txt" = ["mod"; "jar"; "txt"] /\
  V2.getOriginalNameGuess "mod.jar.txt" = "mod" +:+ "." +:+ "txt".
Proof. vm_compute. done. Qed.

(** ** JAR finder: order of the result *)





(** The directory skip-list on the two paths the specification names. *)
Theorem shouldSkipDirectory_examples :
  V1.shouldSkipDirectory "C:/Windows/Temp" = true /\
  V1.shouldSkipDirectory "C:/Users/x/Desktop" = false /\
  V2.shouldSkipDirectory "C:/Windows/Temp" = true /\
  V2.shouldSkipDirectory "C:/Users/x/Desktop" = false.
Proof. vm_compute. done. Qed.

(** The walk of the first variant leaves a directory on the skip-list
    alone, with everything below it. *)
Theorem v1_skipped_directory_untouched (levels : nat) (fs : FileSystem)
    (options : V1.SearchOptions) (directory : string) (result : list V1.JarInfo) :
  V1.shouldSkipDirectory directory = true ->
  V1.searchJarFilesRecursively levels fs options directory result = result.
Proof. intros Hskip. destruct levels; simpl; [done|]. by rewrite Hskip. Qed.

Lemma v1_skipped_directory_untouched_witness :
  V1.searchJarFilesRecursively 16 sampleTree V1.noOptions "/data/skip/Windows" [] = [] /\
  map V1.jar_path (V1.searchJarFilesRecursively 16 sampleTree V1.noOptions "/data" []) =
    ["/data/foo.jar"].
Proof.
  split; [|by vm_compute].
  apply (v1_skipped_directory_untouched 16 sampleTree V1.noOptions "/data/skip/Windows" []).
  by vm_compute.
Defined.


Example v1_sorts_sample :
  map V1.jar_name (V1.findAllJarFiles sampleLinux None V1.noOptions) = ["new.jar"; "old.jar"].
Proof. vm_compute. reflexivity. Qed.


(** ** Deleted-file finder: order and size of the result *)

Lemma StronglySorted_take {A : Type} (R : A -> A -> Prop) (n : nat) (l : list A) :
  StronglySorted R l -> StronglySorted R (take n l).
Proof.
  intros Hs. rewrite <- (take_drop n l) in Hs.
  by apply StronglySorted_app_1_l in Hs.
Qed.

Lemma filter_take_prefix {A : Type} (P : A -> Prop) `{!forall x, Decision (P x)}
    (n : nat) (l : list A) :
  filter P (take n l) `prefix_of` filter P l.
Proof.
  exists (filter P (drop n l)). by rewrite <- filter_app, take_drop.
Qed.

(** The first variant loses no finding: its answer is a rearrangement of
    what was collected. *)
Theorem v1_deleted_rearranged (fs : FileSystem) (trash : list V1.DeletedFile)
    (eventLogs : option (list V1.DeletedFile)) :
  V1.getRecentlyDeletedFiles fs trash eventLogs ≡ₚ V1.collectDeletedFiles fs trash eventLogs.
Proof. apply sort_perm. Qed.

(** With valid dates the list returned by [getRecentlyDeletedFiles] is in
    descending order of [deletedTime], and findings with equal
    [deletedTime] keep the order in which they were collected: in the first
    variant all of them, in the second variant those among the first twenty
    of the sorted list. *)
Lemma deleted_sorted_when_dates_valid :
  (forall (fs : FileSystem) (trash : list V1.DeletedFile)
          (eventLogs : option (list V1.DeletedFile)),
      Forall (fun f => valid (V1.deletedTime f)) (V1.collectDeletedFiles fs trash eventLogs) ->
      StronglySorted (fun a b => geb (V1.deletedTime a) (V1.deletedTime b) = true)
                     (V1.getRecentlyDeletedFiles fs trash eventLogs) /\
      (forall t : jsnum,
          filter (fun f => V1.deletedTime f = t) (V1.getRecentlyDeletedFiles fs trash eventLogs) =
          filter (fun f => V1.deletedTime f = t) (V1.collectDeletedFiles fs trash eventLogs))) /\
  (forall (deletedFiles : list V2.DeletedFile),
      Forall (fun f => valid (V2.deletedTime f)) deletedFiles ->
      StronglySorted (fun a b => geb (V2.deletedTime a) (V2.deletedTime b) = true)
                     (V2.getRecentlyDeletedFiles deletedFiles) /\
      (forall t : jsnum,
          filter (fun f => V2.deletedTime f = t) (V2.getRecentlyDeletedFiles deletedFiles)
            `prefix_of` filter (fun f => V2.deletedTime f = t) deletedFiles)).
Proof.
  split.
  - intros fs trash eventLogs Hvalid. unfold V1.getRecentlyDeletedFiles. split.
    + by apply (sort_sorted V1.deletedTime).
    + intros t. by apply (sort_same_key V1.deletedTime).
  - intros deletedFiles Hvalid. unfold V2.getRecentlyDeletedFiles, slice0. split.
    + apply StronglySorted_take. by apply (sort_sorted V2.deletedTime).
    + intros t. rewrite <- (sort_same_key V2.deletedTime t deletedFiles) by done.
      apply (filter_take_prefix _).
Qed.

Example v2_deleted_sample :
  V2.getRecentlyDeletedFiles [earlier2; later2; sameTime2] = [later2; sameTime2; earlier2].
Proof. vm_compute. reflexivity. Qed.

(** C8 fails on the code when a finding carries an invalid date.  The date
    of an event is taken from [new Date(text)] without a check, and next to
    an invalid date the comparator answers [NaN]: the sort then reads the
    array as being in order already.  In both variants a deletion at 5000
    stays in front of one at 7000 when an undated finding stands between
    them.  In the second variant the undated event that was collected first
    stays in front of every dated finding; and of two findings deleted at
    the same time the one collected later can come out first. *)
Theorem C8_invalid_date_breaks_order :
  (V1.collectDeletedFiles sampleWindows [binned] (Some [undatedEvent; laterEvent]) =
     [binned; undatedEvent; laterEvent] /\
   V1.getRecentlyDeletedFiles sampleWindows [binned] (Some [undatedEvent; laterEvent]) =
     [binned; undatedEvent; laterEvent] /\
   V1.deletedTime binned = Num 5000 /\
   V1.deletedTime laterEvent = Num 7000 /\
   ~ StronglySorted (fun a b => geb (V1.deletedTime a) (V1.deletedTime b) = true)
                    (V1.getRecentlyDeletedFiles sampleWindows [binned]
                       (Some [undatedEvent; laterEvent]))) /\
  (V2.getRecentlyDeletedFiles [earlier2; undated2; later2] = [earlier2; undated2; later2] /\
   ~ StronglySorted (fun a b => geb (V2.deletedTime a) (V2.deletedTime b) = true)
                    (V2.getRecentlyDeletedFiles [earlier2; undated2; later2])) /\
  (V2.getRecentlyDeletedFiles [undated2; earlier2; later2] = [undated2; later2; earlier2] /\
   ~ StronglySorted (fun a b => geb (V2.deletedTime a) (V2.deletedTime b) = true)
                    (V2.getRecentlyDeletedFiles [undated2; earlier2; later2])) /\
  (map V2.df_name
       (filter (fun f => V2.deletedTime f = Num 5000) unstableDeletions) = ["e.txt"; "g.txt"] /\
   map V2.df_name
       (filter (fun f => V2.deletedTime f = Num 5000)
               (V2.getRecentlyDeletedFiles unstableDeletions)) = ["g.txt"; "e.txt"]).
Proof.
  split; [|split; [|split]].
  - assert (V1.getRecentlyDeletedFiles sampleWindows [binned]
              (Some [undatedEvent; laterEvent]) = [binned; undatedEvent; laterEvent]) as E
      by by vm_compute.
    split; [by vm_compute|]. split; [done|]. split; [done|]. split; [done|].
    rewrite E. intros Hs. apply StronglySorted_inv in Hs as [_ Hall].
    apply Forall_cons in Hall as [Hge _]. by vm_compute in Hge.
  - assert (V2.getRecentlyDeletedFiles [earlier2; undated2; later2] =
            [earlier2; undated2; later2]) as E by by vm_compute.
    split; [done|]. rewrite E. intros Hs. apply StronglySorted_inv in Hs as [_ Hall].
    apply Forall_cons in Hall as [Hge _]. by vm_compute in Hge.
  - assert (V2.getRecentlyDeletedFiles [undated2; earlier2; later2] =
            [undated2; later2; earlier2]) as E by by vm_compute.
    split; [done|]. rewrite E. intros Hs. apply StronglySorted_inv in Hs as [_ Hall].
    apply Forall_cons in Hall as [Hge _]. by vm_compute in Hge.
  - split; by vm_compute.
Qed.

(** C9: [getRecentlyDeletedFiles] of the second variant returns the first
    twenty findings of the sorted list, so never more than twenty, however
    many were collected. *)
Theorem C9_deleted_at_most_twenty (deletedFiles : list V2.DeletedFile) :
  V2.getRecentlyDeletedFiles deletedFiles =
    take 20 (sort V2.byDeletedTimeDesc deletedFiles) /\
  length (V2.getRecentlyDeletedFiles deletedFiles) = (length deletedFiles `min` 20)%nat /\
  (length (V2.getRecentlyDeletedFiles deletedFiles) <= 20)%nat.
Proof.
  unfold V2.getRecentlyDeletedFiles, slice0.
  rewrite length_take, sort_length. repeat split; lia.
Qed.

Example v2_deleted_truncates :
  length (V2.getRecentlyDeletedFiles (replicate 25 later2)) = 20%nat.
Proof. vm_compute. reflexivity. Qed.

(** ** Screen-recording checker: a positive answer names an application *)
Section ScreenInvariant.
Import V1.

Lemma named_push (result : ScreenResult) (entry : string) :
  (0 < length (applications (pushApplication result entry)))%nat.
Proof. simpl. rewrite length_app. simpl. lia. Qed.

Lemma named_push_set (result : ScreenResult) (entry : string) :
  named (pushApplication (setRecording result) entry).
Proof. intros _. apply named_push. Qed.

Lemma named_set_push (result : ScreenResult) (entry : string) :
  named (setRecording (pushApplication result entry)).
Proof. intros _. apply (named_push result entry). Qed.

Lemma named_push_only (result : ScreenResult) (entry : string) :
  named result -> named (pushApplication result entry).
Proof. intros _ _. apply named_push. Qed.

#[local] Hint Resolve named_push_set named_set_push named_push_only : screen.

Lemma checkTask_named result row : named result -> named (checkTask result row).
Proof. intros H. unfold checkTask. step_cases. Qed.

Lemma checkService_named result line : named result -> named (checkService result line).
Proof. intros H. unfold checkService. step_cases. Qed.

Lemma checkDevice_named result line : named result -> named (checkDevice result line).
Proof. intros H. unfold checkDevice. step_cases. Qed.

Lemma checkProcess_named result process : named result -> named (checkProcess result process).
Proof. intros H. unfold checkProcess. step_cases. Qed.

Lemma checkPermission_named result line : named result -> named (checkPermission result line).
Proof. intros H. unfold checkPermission. step_cases. Qed.

Lemma checkCompositor_named result process :
  named result -> named (checkCompositor result process).
Proof. intros H. unfold checkCompositor. step_cases. Qed.

Lemma foldl_named {X : Type} (step : ScreenResult -> X -> ScreenResult) (rows : list X) :
  (forall result row, named result -> named (step result row)) ->
  forall result, named result -> named (foldl step result rows).
Proof.
  intros Hstep. induction rows as [|row rows IH]; intros result H; simpl; [done|].
  apply IH, Hstep, H.
Qed.

Lemma scanWith_named {X : Type} (step : ScreenResult -> X -> ScreenResult)
    (answer : option (list X)) (result : ScreenResult) :
  (forall result row, named result -> named (step result row)) ->
  named result -> named (scanWith step answer result).
Proof.
  intros Hstep H. destruct answer as [rows|]; simpl; [|done].
  by apply foldl_named.
Qed.

Lemma v1_checkScreenRecording_named (fs : FileSystem) (probe : ScreenProbe) :
  named (checkScreenRecording fs probe).
Proof.
  assert (named (mkScreenResult false [])) as H0 by (intros [=]).
  unfold checkScreenRecording.
  destruct (platform fs).
  - apply scanWith_named; [apply checkDevice_named|].
    apply scanWith_named; [apply checkService_named|].
    by apply scanWith_named; [apply checkTask_named|].
  - destruct (processes probe) as [ps|]; [|done].
    apply scanWith_named; [apply checkPermission_named|].
    by apply foldl_named; [apply checkProcess_named|].
  - destruct (processes probe) as [ps|]; [|done].
    apply scanWith_named; [apply checkCompositor_named|].
    by apply foldl_named; [apply checkProcess_named|].
  - destruct (processes probe) as [ps|]; [|done].
    apply scanWith_named; [apply checkCompositor_named|].
    by apply foldl_named; [apply checkProcess_named|].
Qed.
End ScreenInvariant.

Example v1_screen_sample :
  V1.checkScreenRecording sampleLinux obsRunning = V1.mkScreenResult true ["obs"].
Proof. vm_compute. reflexivity. Qed.

Example v2_screen_fallback :
  V2.checkScreenRecording (Some ("bash" +:+ "
" +:+ "ffmpeg -f x11grab", [])) =
  V2.mkScreenResult true ["FFmpeg"].
Proof. vm_compute. reflexivity. Qed.

(** C10: whenever [checkScreenRecording] answers [recording === true], the
    [applications] list of the same answer is not empty, in both variants. *)
Theorem C10_recording_names_application :
  (forall (fs : FileSystem) (probe : V1.ScreenProbe),
      V1.recording (V1.checkScreenRecording fs probe) = true ->
      (0 < length (V1.applications (V1.checkScreenRecording fs probe)))%nat) /\
  (forall (scan : option (string * list string)),
      V2.recording (V2.checkScreenRecording scan) = true ->
      (0 < length (V2.applications (V2.checkScreenRecording scan)))%nat).
Proof.
  split.
  - intros fs probe. apply v1_checkScreenRecording_named.
  - intros [[processOutput detectedApps]|]; simpl; [|done].
    by rewrite bool_decide_eq_true.
Qed.

Lemma C10_recording_names_application_witness :
  (0 < length (V1.applications (V1.checkScreenRecording sampleLinux obsRunning)))%nat.
Proof.
  apply (proj1 C10_recording_names_application sampleLinux obsRunning).
  vm_compute. reflexivity.
Defined.

(** ** Minecraft mod scan: keywords and whitelist *)




Section ModFolder.
Context (fs : FileSystem) (now : Z) (modFolder : string).

Lemma scanModFile_listed (result : V1.ModScan) (file : Dirent) :
  is_Some (stat fs (pathJoin fs modFolder (d_name file))) ->
  exists result',
    V1.scanModFile fs now modFolder result file = Continue result' /\
    listed result' =
    listed result ++
    (if isModArchive file && V1.flagsMod (d_name file) then [d_name file] else []).
Proof.
  intros [stats Hstat]. unfold V1.scanModFile, isModArchive.
  destruct (d_isFile file && _) eqn:Harchive; simpl.
  - rewrite Hstat.
    destruct (V1.flagsMod (d_name file)) eqn:Hflag;
      destruct (bool_decide _); eexists; (split; [reflexivity|]);
      unfold listed; simpl; by rewrite ?map_app, ?app_nil_r.
  - exists result. by rewrite app_nil_r.
Qed.

Lemma scanModFiles_listed (files : list Dirent) :
  (forall file, file ∈ files -> is_Some (stat fs (pathJoin fs modFolder (d_name file)))) ->
  forall result,
  exists result',
    forEach (V1.scanModFile fs now modFolder) files result = Continue result' /\
    listed result' =
    listed result ++
    flat_map (fun file =>
                if isModArchive file && V1.flagsMod (d_name file) then [d_name file] else [])
             files.
Proof.
  induction files as [|file files IH]; intros Hstats result; simpl.
  - exists result. by rewrite app_nil_r.
  - destruct (scanModFile_listed result file) as (r1 & -> & H1); [apply Hstats; left|].
    simpl. destruct (IH (fun f Hf => Hstats f (list_elem_of_further _ _ _ Hf)) r1)
      as (r2 & -> & H2).
    exists r2. split; [done|]. by rewrite H2, H1, app_assoc.
Qed.

(** With a readable folder whose files can all be examined, the names
    listed as suspicious are those of the archives that pass the test. *)
Lemma scanModFolder_listed (result : V1.ModScan) (files : list Dirent) :
  existsSync fs modFolder = true ->
  is_Some (stat fs modFolder) ->
  readdirTypes fs modFolder = Some files ->
  (forall file, file ∈ files -> is_Some (stat fs (pathJoin fs modFolder (d_name file)))) ->
  listed (V1.scanModFolder fs now result modFolder) =
  listed result ++
  flat_map (fun file =>
              if isModArchive file && V1.flagsMod (d_name file) then [d_name file] else [])
           files.
Proof.
  intros Hexists [folderStats Hfolder] Hfiles Hstats.
  unfold V1.scanModFolder. rewrite Hexists, Hfolder, Hfiles.
  destruct (scanModFiles_listed files Hstats
              (V1.mkModScan (V1.suspiciousMods result) (V1.recentlyModifiedMods result)
                 (V1.modFolders result ++ [(modFolder, st_mtime folderStats)])))
    as (r & -> & Hr).
  simpl. by rewrite Hr.
Qed.
End ModFolder.


Section ModScan.
Context (fs : FileSystem) (now : Z).










End ModScan.




(** ** Browser-history inspection: the temporary copy *)

(** The temporary folder after one history file. *)
Lemma inspectHistoryFile_tempFiles (attempt : V1.HistoryFile -> V1.Attempt)
    (tmp : TempDir) (historyFile : V1.HistoryFile) :
  tempFiles (V1.inspectHistoryFile attempt tmp historyFile) =
  let a := attempt historyFile in
  if V1.copySucceeds a then
    match V1.queryOutput a with
    | Some _ =>
        if V1.unlinkSucceeds a
        then ({[V1.tempHistoryPath a]} ∪ tempFiles tmp) ∖ {[V1.tempHistoryPath a]}
        else {[V1.tempHistoryPath a]} ∪ tempFiles tmp
    | None => {[V1.tempHistoryPath a]} ∪ tempFiles tmp
    end
  else tempFiles tmp.
Proof.
  unfold V1.inspectHistoryFile. cbv zeta.
  destruct (V1.copySucceeds _); [|done].
  destruct (V1.queryOutput _); [|done].
  by destruct (V1.unlinkSucceeds _).
Qed.

(** The file operations of one history file: the query never names the
    original, only the copy made just before. *)
Lemma inspectHistoryFile_trace (attempt : V1.HistoryFile -> V1.Attempt)
    (tmp : TempDir) (historyFile : V1.HistoryFile) :
  trace (V1.inspectHistoryFile attempt tmp historyFile) =
  let a := attempt historyFile in
  trace tmp ++
  (if V1.copySucceeds a then
     [CopyFile (V1.hf_path historyFile) (V1.tempHistoryPath a);
      SqlQuery (V1.tempHistoryPath a)] ++
     match V1.queryOutput a with
     | Some _ => if V1.unlinkSucceeds a then [Unlink (V1.tempHistoryPath a)] else []
     | None => []
     end
   else []).
Proof.
  unfold V1.inspectHistoryFile. cbv zeta.
  destruct (V1.copySucceeds _); simpl; [|by rewrite app_nil_r].
  destruct (V1.queryOutput _); simpl; [|by rewrite <- app_assoc].
  destruct (V1.unlinkSucceeds _); simpl; by rewrite <- !app_assoc.
Qed.

(** When the query and the deletion succeed, the copy is gone again. *)
Lemma inspectHistoryFile_cleans (attempt : V1.HistoryFile -> V1.Attempt)
    (tmp : TempDir) (historyFile : V1.HistoryFile) (stdout : string) :
  V1.tempHistoryPath (attempt historyFile) ∉ tempFiles tmp ->
  V1.queryOutput (attempt historyFile) = Some stdout ->
  V1.unlinkSucceeds (attempt historyFile) = true ->
  tempFiles (V1.inspectHistoryFile attempt tmp historyFile) = tempFiles tmp.
Proof.
  intros Hfresh Hquery Hunlink. rewrite inspectHistoryFile_tempFiles. cbv zeta.
  rewrite Hquery, Hunlink. destruct (V1.copySucceeds _); [|done].
  set_solver.
Qed.

Example history_sample_found :
  V1.historyPaths sampleChrome = [V1.mkHistoryFile "Chrome" "Default" chromeHistory].
Proof. vm_compute. reflexivity. Qed.

Example history_sample_cleaned :
  elements (tempFiles (V1.checkBrowserHistoryFiles sampleChrome queryWorks
                            (mkTempDir ∅ []))) = [] /\
  trace (V1.checkBrowserHistoryFiles sampleChrome queryWorks (mkTempDir ∅ [])) =
    [CopyFile chromeHistory chromeCopy; SqlQuery chromeCopy; Unlink chromeCopy].
Proof. vm_compute. done. Qed.

Lemma inspectHistoryFiles_trace (attempt : V1.HistoryFile -> V1.Attempt)
    (found : list V1.HistoryFile) :
  forall tmp,
    trace (foldl (V1.inspectHistoryFile attempt) tmp found) =
    trace tmp ++ flat_map (historyEvents attempt) found.
Proof.
  induction found as [|historyFile found IH]; intros tmp; simpl.
  - by rewrite app_nil_r.
  - rewrite IH, inspectHistoryFile_trace. cbv zeta. by rewrite <- app_assoc.
Qed.

Lemma query_behind_its_copy (attempt : V1.HistoryFile -> V1.Attempt)
    (found : list V1.HistoryFile) :
  forall before dataSource after,
    flat_map (historyEvents attempt) found = before ++ SqlQuery dataSource :: after ->
    exists historyFile earlier,
      historyFile ∈ found /\
      dataSource = V1.tempHistoryPath (attempt historyFile) /\
      before = earlier ++ [CopyFile (V1.hf_path historyFile) dataSource].
Proof.
  induction found as [|historyFile found IH]; intros before dataSource after Hsplit.
  - simpl in Hsplit. by destruct before.
  - cbn [flat_map] in Hsplit.
    unfold historyEvents at 1 in Hsplit. cbv zeta in Hsplit.
    set (a := attempt historyFile) in *.
    assert (forall pre,
               flat_map (historyEvents attempt) found = pre ++ SqlQuery dataSource :: after ->
               forall front, before = front ++ pre ->
               exists hf earlier, hf ∈ historyFile :: found /\
                                  dataSource = V1.tempHistoryPath (attempt hf) /\
                                  before = earlier ++ [CopyFile (V1.hf_path hf) dataSource])
      as Hlater.
    { intros pre Hpre front ->. destruct (IH pre dataSource after Hpre)
        as (hf & earlier & Hin & -> & ->).
      exists hf, (front ++ earlier). split; [by right|]. split; [done|].
      by rewrite app_assoc. }
    destruct (V1.copySucceeds a).
    + destruct before as [|e1 [|e2 before]]; simpl in Hsplit.
      * by destruct (V1.queryOutput a).
      * injection Hsplit as <- <- Hrest.
        exists historyFile, []. split; [left|]. done.
      * injection Hsplit as <- <- Hrest.
        destruct (V1.queryOutput a) as [stdout|]; [destruct (V1.unlinkSucceeds a)|];
          simpl in Hrest.
        -- destruct before as [|e3 before]; simpl in Hrest; [done|].
           injection Hrest as <- Hrest.
           apply (Hlater before Hrest
                    [CopyFile (V1.hf_path historyFile) (V1.tempHistoryPath a);
                     SqlQuery (V1.tempHistoryPath a); Unlink (V1.tempHistoryPath a)]).
           done.
        -- apply (Hlater before Hrest
                    [CopyFile (V1.hf_path historyFile) (V1.tempHistoryPath a);
                     SqlQuery (V1.tempHistoryPath a)]).
           done.
        -- apply (Hlater before Hrest
                    [CopyFile (V1.hf_path historyFile) (V1.tempHistoryPath a);
                     SqlQuery (V1.tempHistoryPath a)]).
           done.
    + simpl in Hsplit. by apply (Hlater before Hsplit []).
Qed.

(** The queries of the first variant read copies only: every query that
    [checkBrowserHistoryFiles] adds to the file operations stands directly
    behind the copy of a history file found, and it reads the path to
    which that copy was made, the temporary path of that history file. *)
Theorem v1_queries_read_copies (fs : FileSystem) (attempt : V1.HistoryFile -> V1.Attempt)
    (tmp : TempDir) (before after : list FsEvent) (dataSource : string) :
  trace (V1.checkBrowserHistoryFiles fs attempt tmp) =
    trace tmp ++ before ++ SqlQuery dataSource :: after ->
  exists historyFile earlier,
    historyFile ∈ V1.historyPaths fs /\
    dataSource = V1.tempHistoryPath (attempt historyFile) /\
    before = earlier ++ [CopyFile (V1.hf_path historyFile) dataSource].
Proof.
  unfold V1.checkBrowserHistoryFiles. intros Htrace.
  assert (flat_map (historyEvents attempt) (V1.historyPaths fs) =
          before ++ SqlQuery dataSource :: after) as Hadded.
  { destruct (bool_decide (0 < length (V1.historyPaths fs))%nat) eqn:Hfound;
      [destruct (bool_decide (platform fs = win32))|].
    - rewrite inspectHistoryFiles_trace in Htrace. by apply app_inv_head in Htrace.
    - rewrite <- (app_nil_r (trace tmp)) in Htrace at 1.
      apply app_inv_head in Htrace. by destruct before.
    - rewrite <- (app_nil_r (trace tmp)) in Htrace at 1.
      apply app_inv_head in Htrace. by destruct before. }
  by apply (query_behind_its_copy attempt (V1.historyPaths fs) before dataSource after).
Qed.

(** In the second variant a failing query does not keep the block from
    deleting the copy. *)
Theorem v2_inspectHistoryCopy_cleans (historyPath tempHistoryPath : string) (tmp : TempDir) :
  tempHistoryPath ∉ tempFiles tmp ->
  tempFiles (V2.inspectHistoryCopy historyPath tempHistoryPath true true tmp) = tempFiles tmp.
Proof. intros Hfresh. simpl. set_solver. Qed.

Lemma v1_queries_read_copies_witness :
  trace (V1.checkBrowserHistoryFiles sampleChrome queryWorks (mkTempDir ∅ [])) =
    [] ++ [CopyFile chromeHistory chromeCopy] ++ SqlQuery chromeCopy :: [Unlink chromeCopy] /\
  exists historyFile earlier,
    historyFile ∈ V1.historyPaths sampleChrome /\
    chromeCopy = V1.tempHistoryPath (queryWorks historyFile) /\
    [CopyFile chromeHistory chromeCopy] =
      earlier ++ [CopyFile (V1.hf_path historyFile) chromeCopy].
Proof.
  split; [by vm_compute|].
  apply (v1_queries_read_copies sampleChrome queryWorks (mkTempDir ∅ [])
           [CopyFile chromeHistory chromeCopy] [Unlink chromeCopy] chromeCopy).
  by vm_compute.
Defined.

Lemma v2_inspectHistoryCopy_cleans_witness :
  tempFiles (V2.inspectHistoryCopy chromeHistory chromeCopy true true (mkTempDir ∅ [])) =
  tempFiles (mkTempDir ∅ []).
Proof.
  apply (v2_inspectHistoryCopy_cleans chromeHistory chromeCopy (mkTempDir ∅ [])).
  simpl. set_solver.
Defined.

(** C7 on the failing input: the history file is copied and the query is
    run on the copy, but when the query command fails the loop body is left
    through its [catch] clause and the copy stays in the temporary folder.
    (The block of the second variant deletes its copy in the same
    situation.) *)
Theorem C7_copy_left_when_query_fails :
  elements (tempFiles (V1.checkBrowserHistoryFiles sampleChrome queryFails
                            (mkTempDir ∅ []))) = [chromeCopy] /\
  trace (V1.checkBrowserHistoryFiles sampleChrome queryFails (mkTempDir ∅ [])) =
    [CopyFile chromeHistory chromeCopy; SqlQuery chromeCopy] /\
  elements (tempFiles (V2.inspectHistoryCopy chromeHistory chromeCopy true true
                         (mkTempDir ∅ []))) = [].
Proof. vm_compute. done. Qed.

(** ** IPC handlers: no exception reaches the renderer *)
Section HandlerFacts.
Context {Arg V : Type}.
Context (systemUtils : Main.SystemUtils Arg V) (desktop : Main.Desktop Arg).

Lemma every_channel_registered (channel : Main.Channel) : channel ∈ Main.registered.
Proof. destruct channel; unfold Main.registered; set_solver. Qed.

Lemma guarded_spec (probe : outcome V) :
  Main.guarded probe =
  Returned match probe with
           | Returned v => Main.ProbeResult v
           | Threw error => Main.ErrorObject (message error)
           end.
Proof. by destruct probe. Qed.

Lemma exportResults_returns (data : Arg) :
  exists reply, Main.exportResults (V:=V) desktop data = Returned reply.
Proof.
  unfold Main.exportResults.
  destruct (Main.defaultPath desktop) as [suggested|e]; simpl; [|by eexists].
  destruct (Main.showSaveDialog desktop suggested) as [filePath|e]; simpl; [|by eexists].
  destruct (negb _); [|by eexists].
  destruct (Main.stringify desktop data) as [text|e]; simpl; [|by eexists].
  destruct (Main.writeFile desktop filePath text) as [[]|e]; simpl; by eexists.
Qed.
End HandlerFacts.

(** C4: for every registered channel the handler resolves with a value and
    never throws.  When the [systemUtils] function behind the channel throws
    an error, the value is [{ error: error.message }]; otherwise it is the
    result of the function, unchanged.  The export channel, which has no
    probe behind it, resolves as well. *)
Theorem C4_handlers_never_throw {Arg V : Type}
    (systemUtils : Main.SystemUtils Arg V) (desktop : Main.Desktop Arg)
    (channel : Main.Channel) (arg : Arg) :
  channel ∈ Main.registered /\
  (exists reply, Main.handle systemUtils desktop channel arg = Returned reply) /\
  match Main.probe systemUtils channel arg with
  | Some (Returned v) =>
      Main.handle systemUtils desktop channel arg = Returned (Main.ProbeResult v)
  | Some (Threw error) =>
      Main.handle systemUtils desktop channel arg =
      Returned (Main.ErrorObject (message error))
  | None => channel = Main.export_results
  end.
Proof.
  split; [apply every_channel_registered|].
  destruct channel; simpl;
    try (rewrite guarded_spec; split; [by eexists|];
         match goal with |- context [match ?p with _ => _ end] => by destruct p end).
  split; [apply exportResults_returns|done].
Qed.

(** ** File-system effects of the exported functions *)

(** [reach] with depth 4 is closed under calls: it holds every function that
    can run. *)
Lemma v1_reached_closed :
  Forall (fun f =>
            Forall (fun g => Forall (fun h => h ∈ Effects.v1_reached f) (Effects.v1_calls g))
                   (Effects.v1_reached f))
         Effects.v1_exports.
Proof. by_evaluation. Qed.

Lemma v2_reached_closed :
  Forall (fun f =>
            Forall (fun g => Forall (fun h => h ∈ Effects.v2_reached f) (Effects.v2_calls g))
                   (Effects.v2_reached f))
         Effects.v2_exports.
Proof. by_evaluation. Qed.

(** C5, as stated, fails: [registerSelfDestruct] is exported by the first
    variant, is no part of the browser-history inspection, and writes a
    batch file that it then starts (the script deletes the program). *)
Lemma C5_self_destruct_writes :
  Effects.v1_registerSelfDestruct ∈ Effects.v1_exports /\
  (Effects.v1_registerSelfDestruct ∉ Effects.v1_reached Effects.v1_detectMinecraftCheats) /\
  Effects.v1_uses Effects.v1_registerSelfDestruct = [Effects.WriteFileSync; Effects.Spawn] /\
  V1.registerSelfDestruct "C:\Temp\delete_1700000000000.bat" None (mkTempDir ∅ []) =
    Returned (mkTempDir ({["C:\Temp\delete_1700000000000.bat"]} ∪ ∅)
                [WriteFile "C:\Temp\delete_1700000000000.bat";
                 SpawnScript "C:\Temp\delete_1700000000000.bat"]).
Proof.
  split; [by_evaluation|]. split; [by_evaluation|]. done.
Qed.

(** C5 (amended): the exported functions create, write or delete files only
    in three places.  In the first variant these are the browser-history
    inspection ([checkBrowserHistoryFiles], reached from
    [detectMinecraftCheats]), the temporary file of [getCommandHistory] and
    the batch file of [registerSelfDestruct]; in the second variant it is the
    browser-history inspection in [detectMinecraftCheats] alone.  Every other
    exported function only reads the file system. *)
Theorem C5_file_writers :
  map (fun f => (f, Effects.v1_writers f))
      (filter (fun f => Effects.v1_writers f <> []) Effects.v1_exports) =
    [(Effects.v1_detectMinecraftCheats, [Effects.v1_checkBrowserHistoryFiles]);
     (Effects.v1_getCommandHistory, [Effects.v1_getCommandHistory]);
     (Effects.v1_registerSelfDestruct, [Effects.v1_registerSelfDestruct])] /\
  map (fun f => (f, Effects.v2_writers f))
      (filter (fun f => Effects.v2_writers f <> []) Effects.v2_exports) =
    [(Effects.v2_detectMinecraftCheats, [Effects.v2_detectMinecraftCheats])] /\
  filter Effects.mutating (Effects.v1_uses Effects.v1_checkBrowserHistoryFiles) =
    [Effects.CopyFileSync; Effects.UnlinkSync] /\
  filter Effects.mutating (Effects.v1_uses Effects.v1_getCommandHistory) =
    [Effects.ExecRedirect; Effects.Unlink] /\
  filter Effects.mutating (Effects.v1_uses Effects.v1_registerSelfDestruct) =
    [Effects.WriteFileSync; Effects.Spawn] /\
  filter Effects.mutating (Effects.v2_uses Effects.v2_detectMinecraftCheats) =
    [Effects.CopyFileSync; Effects.UnlinkSync].
Proof. vm_compute. done. Qed.

(** ** Facts about the string primitives *)

Lemma append_cons (c : ascii) (a b : string) : String c a +:+ b = String c (a +:+ b).
Proof. reflexivity. Qed.

Lemma append_assoc (a b c : string) : (a +:+ b) +:+ c = a +:+ b +:+ c.
Proof. induction a as [|x a IH]; [done|]. by rewrite !append_cons, IH. Qed.

Lemma append_nil_r (a : string) : a +:+ "" = a.
Proof. induction a as [|x a IH]; [done|]. by rewrite append_cons, IH. Qed.

Lemma toLowerCase_app (a b : string) :
  toLowerCase (a +:+ b) = toLowerCase a +:+ toLowerCase b.
Proof. induction a as [|c a IH]; [done|]. rewrite append_cons. simpl. by rewrite IH. Qed.

Lemma lower_ascii_idemp (c : ascii) : lower_ascii (lower_ascii c) = lower_ascii c.
Proof. by destruct c as [[] [] [] [] [] [] [] []]. Qed.

Lemma toLowerCase_idemp (s : string) : toLowerCase (toLowerCase s) = toLowerCase s.
Proof. induction s as [|c s IH]; simpl; [done|]. by rewrite lower_ascii_idemp, IH. Qed.

Lemma toLowerCase_length (s : string) : String.length (toLowerCase s) = String.length s.
Proof. induction s as [|c s IH]; simpl; [done|]. by rewrite IH. Qed.

Lemma startsWith_spec (s p : string) :
  startsWith s p = true <-> exists post, s = p +:+ post.
Proof.
  revert s. induction p as [|a p IH]; intros s.
  - destruct s; simpl; split; eauto.
  - destruct s as [|b s]; simpl.
    + split; [done|]. by intros [post ?].
    + destruct (decide (a = b)) as [->|Hne].
      * rewrite IH. split; intros [post Hpost]; exists post;
          rewrite append_cons in *; congruence.
      * split; [done|]. intros [post Hpost]. rewrite append_cons in Hpost. congruence.
Qed.

Lemma includes_cons (c : ascii) (s sub : string) :
  includes (String c s) sub = startsWith (String c s) sub || includes s sub.
Proof. reflexivity. Qed.

Lemma includes_spec (s sub : string) :
  includes s sub = true <-> exists pre post, s = pre +:+ sub +:+ post.
Proof.
  induction s as [|c s IH].
  - change (includes "" sub) with (startsWith "" sub || false).
    rewrite orb_false_r, startsWith_spec. split.
    + intros [post Hpost]. by exists "", post.
    + intros (pre & post & Hs). destruct pre; [by exists post|done].
  - rewrite includes_cons, orb_true_iff, startsWith_spec, IH. split.
    + intros [[post Hpost]|(pre & post & Hs)].
      * by exists "", post.
      * exists (String c pre), post. by rewrite append_cons, Hs.
    + intros (pre & post & Hs). destruct pre as [|c' pre].
      * left. by exists post.
      * right. exists pre, post. rewrite append_cons in Hs. congruence.
Qed.

(** A text that holds [sub] still holds it when it is extended at either
    end. *)
Lemma includes_extend (pre s post sub : string) :
  includes s sub = true -> includes (pre +:+ s +:+ post) sub = true.
Proof.
  rewrite !includes_spec. intros (a & b & ->).
  exists (pre +:+ a), (b +:+ post). by rewrite !append_assoc.
Qed.

Lemma includes_trans (s k j : string) :
  includes s k = true -> includes k j = true -> includes s j = true.
Proof.
  rewrite !includes_spec. intros (a & b & ->) (c & d & ->).
  exists (a +:+ c), (d +:+ b). by rewrite !append_assoc.
Qed.

(** ** Directories left out of the searches *)

Lemma backslashesToSlashes_app (a b : string) :
  V1.backslashesToSlashes (a +:+ b) =
  V1.backslashesToSlashes a +:+ V1.backslashesToSlashes b.
Proof. induction a as [|c a IH]; [done|]. rewrite append_cons. simpl. by rewrite IH. Qed.

Lemma backslashesToSlashes_idemp (s : string) :
  V1.backslashesToSlashes (V1.backslashesToSlashes s) = V1.backslashesToSlashes s.
Proof.
  induction s as [|c s IH]; simpl; [done|]. rewrite IH.
  by destruct (bool_decide (c = "\"%char)) eqn:E; [|rewrite E].
Qed.

Lemma backslashesToSlashes_lower (s : string) :
  V1.backslashesToSlashes (toLowerCase s) = toLowerCase (V1.backslashesToSlashes s).
Proof.
  induction s as [|c s IH]; simpl; [done|]. rewrite IH. f_equal.
  by destruct c as [[] [] [] [] [] [] [] []].
Qed.

(** The path as [shouldSkipDirectory] of the first variant compares it. *)
Lemma normalized_app (a b : string) :
  toLowerCase (V1.backslashesToSlashes (a +:+ b)) =
  toLowerCase (V1.backslashesToSlashes a) +:+ toLowerCase (V1.backslashesToSlashes b).
Proof. by rewrite backslashesToSlashes_app, toLowerCase_app. Qed.

Lemma normalized_no_backslash (s : string) :
  includes (toLowerCase (V1.backslashesToSlashes s)) "\" = false.
Proof.
  induction s as [|c s IH]; [done|].
  simpl toLowerCase. rewrite includes_cons, IH, orb_false_r.
  by destruct c as [[] [] [] [] [] [] [] []].
Qed.

Lemma existsb_includes_extend (pre s post : string) (table : list string) :
  existsb (fun dir => includes s dir) table = true ->
  existsb (fun dir => includes (pre +:+ s +:+ post) dir) table = true.
Proof.
  rewrite !existsb_exists. intros (dir & Hdir & Hin).
  exists dir. split; [done|]. by apply includes_extend.
Qed.

(** A directory that is left out stays left out under any longer path:
    whatever is put before or behind a path that matches the skip list, the
    result matches it too.  This holds for both variants. *)
Theorem skipped_under_longer_paths (pre directory post : string) :
  (V1.shouldSkipDirectory directory = true ->
   V1.shouldSkipDirectory (pre +:+ directory +:+ post) = true) /\
  (V2.shouldSkipDirectory directory = true ->
   V2.shouldSkipDirectory (pre +:+ directory +:+ post) = true).
Proof.
  split.
  - unfold V1.shouldSkipDirectory. cbv zeta. rewrite !normalized_app.
    rewrite !existsb_exists. intros (dir & Hdir & Hin).
    exists dir. split; [done|]. by apply includes_extend.
  - apply existsb_includes_extend.
Qed.

Lemma skipped_under_longer_paths_witness :
  V1.shouldSkipDirectory ("D:\" +:+ "Windows" +:+ "\System32\drivers") = true.
Proof. apply (proj1 (skipped_under_longer_paths "D:\" "Windows" "\System32\drivers")). by vm_compute. Defined.

(** [shouldSkipDirectory] of the first variant looks at the path in lower
    case and with forward slashes only, so letter case and the direction of
    the slashes in its argument make no difference.  Whatever the second
    variant skips, the first skips as well. *)
Theorem v1_skip_ignores_case_and_slashes (directory : string) :
  V1.shouldSkipDirectory (toLowerCase directory) = V1.shouldSkipDirectory directory /\
  V1.shouldSkipDirectory (V1.backslashesToSlashes directory) =
    V1.shouldSkipDirectory directory /\
  (V2.shouldSkipDirectory directory = true -> V1.shouldSkipDirectory directory = true).
Proof.
  unfold V1.shouldSkipDirectory. cbv zeta.
  rewrite backslashesToSlashes_lower, toLowerCase_idemp, backslashesToSlashes_idemp.
  split; [done|]. split; [done|].
  unfold V2.shouldSkipDirectory. rewrite !existsb_exists.
  intros (dir & Hdir & Hin). exists dir. split.
  - apply list_elem_of_In. apply list_elem_of_In in Hdir.
    revert Hdir. unfold V2.skipDirs, V1.skipDirs. set_solver.
  - apply includes_spec in Hin as (a & b & ->).
    rewrite !normalized_app. apply (includes_extend _ _ _ _).
    assert (toLowerCase (V1.backslashesToSlashes dir) = toLowerCase dir) as ->; [|].
    { apply list_elem_of_In in Hdir. unfold V2.skipDirs in Hdir.
      repeat (apply elem_of_cons in Hdir as [->|Hdir]; [done|]).
      by apply elem_of_nil in Hdir. }
    apply includes_spec. exists "", "". by rewrite append_nil_r.
Qed.

Lemma v1_skip_ignores_case_and_slashes_witness :
  V1.shouldSkipDirectory "C:\Program Files\Java" = true.
Proof.
  apply (proj2 (proj2 (v1_skip_ignores_case_and_slashes "C:\Program Files\Java"))).
  by vm_compute.
Defined.

(** The skip list of the first variant holds one entry with backslashes,
    [AppData\Local\Temp].  The path it is compared with has none left, so
    this entry matches no directory at all; a directory is left out exactly
    when one of the other entries matches. *)
Theorem v1_skip_entry_with_backslashes_is_dead (directory : string) :
  includes (toLowerCase (V1.backslashesToSlashes directory))
           (toLowerCase "AppData\Local\Temp") = false /\
  V1.shouldSkipDirectory directory =
  existsb (fun dir => includes (toLowerCase (V1.backslashesToSlashes directory))
                               (toLowerCase dir))
          (filter (fun dir => dir <> "AppData\Local\Temp") V1.skipDirs).
Proof.
  assert (includes (toLowerCase (V1.backslashesToSlashes directory))
                   (toLowerCase "AppData\Local\Temp") = false) as Hdead.
  { destruct (includes _ (toLowerCase "AppData\Local\Temp")) eqn:E; [|done].
    rewrite <- (normalized_no_backslash directory).
    symmetry. eapply includes_trans; [exact E|]. by vm_compute. }
  split; [done|].
  unfold V1.shouldSkipDirectory, V1.skipDirs. cbv zeta.
  cbn [existsb]. rewrite Hdead. 
  by vm_compute filter.
Qed.

(** ** JAR finder: what is reported *)

Lemma foldl_preserves {B X : Type} (P : B -> Prop) (step : B -> X -> B) (xs : list X) :
  (forall acc x, x ∈ xs -> P acc -> P (step acc x)) ->
  forall acc, P acc -> P (foldl step acc xs).
Proof.
  induction xs as [|x xs IH]; intros Hstep acc Hacc; simpl; [done|].
  apply IH.
  - intros acc' x' Hx'. apply Hstep. by right.
  - apply Hstep; [by left|done].
Qed.


Section JarWalk.
Context (fs : FileSystem) (options : V1.SearchOptions).

End JarWalk.



Lemma v2_search_reports (fs : FileSystem) (levels : nat) :
  forall (directory : string) (result : list V2.JarInfo),
    Forall (reported2 fs) result ->
    Forall (reported2 fs) (V2.searchJarFilesRecursively levels fs directory result).
Proof.
  induction levels as [|deeper IH]; intros directory result Hresult; simpl; [done|].
  destruct (readdirNames fs directory) as [files|]; [|done].
  apply (foldl_preserves (Forall (reported2 fs))); [|done].
  intros acc file _ Hacc.
  destruct (startsWith file ".") eqn:Hhidden; [done|].
  destruct (stat fs (pathJoin fs directory file)) as [stats|]; [|done].
  destruct (st_isDirectory stats).
  - destruct (negb _); [by apply IH|done].
  - destruct (endsWith file ".jar") eqn:Hjar; [|done].
    apply Forall_app. split; [done|]. apply Forall_singleton.
    repeat split; simpl; try done. by exists directory.
Qed.

(** Every file that [findAllJarFiles] of the second variant returns has a
    name that ends in [.jar] in lower case and does not start with a dot:
    hidden files and archives named [.JAR] are not reported (the first
    variant reports both). *)
Theorem v2_found_jars_reported (fs : FileSystem) (jar : V2.JarInfo) :
  jar ∈ V2.findAllJarFiles fs ->
  endsWith (V2.jar_name jar) ".jar" = true /\
  startsWith (V2.jar_name jar) "." = false /\
  exists directory, V2.jar_path jar = pathJoin fs directory (V2.jar_name jar).
Proof.
  intros Hjar.
  assert (Forall (reported2 fs) (V2.findAllJarFiles fs)) as Hall.
  { unfold V2.findAllJarFiles. cbv zeta.
    assert (Forall (reported2 fs)
              (foldl (fun jarFiles location =>
                        if existsSync fs location
                        then V2.searchJarFilesRecursively 11 fs location jarFiles
                        else jarFiles) [] (V2.commonLocations fs))) as Hcommon.
    { apply (foldl_preserves (Forall (reported2 fs))); [|constructor].
      intros acc location _ Hacc.
      destruct (existsSync fs location); [by apply v2_search_reports|done]. }
    destruct (bool_decide _); [|done].
    apply (foldl_preserves (Forall (reported2 fs))); [|done].
    intros acc drive _ Hacc. by apply v2_search_reports. }
  rewrite Forall_forall in Hall. by apply Hall in Hjar.
Qed.

Lemma v2_found_jars_reported_witness :
  endsWith (V2.jar_name newJar) ".jar" = true /\
  startsWith (V2.jar_name newJar) "." = false /\
  exists directory, V2.jar_path newJar = pathJoin sampleLinux directory (V2.jar_name newJar).
Proof. apply (v2_found_jars_reported sampleLinux newJar). vm_compute. right. left. Defined.

(** An archive whose extension is in upper case, next to a hidden one: the
    first variant reports both, the second none. *)
Example upper_case_and_hidden_archives :
  map V1.jar_name (V1.findAllJarFiles sampleHidden None V1.noOptions) = ["MOD.JAR"; ".x.jar"] /\
  V2.findAllJarFiles sampleHidden = [].
Proof. by vm_compute. Qed.

(** ** Original-name guess: what an answer looks like *)

Lemma substring_0_0 (s : string) : String.substring 0 0 s = "".
Proof. by destruct s. Qed.

Lemma substringTo_From (n : nat) (s : string) :
  substringTo n s +:+ substringFrom n s = s.
Proof.
  revert n. induction s as [|c s IH]; intros n; [by destruct n|].
  destruct n as [|n].
  - rewrite substringFrom_0. unfold substringTo. by rewrite substring_0_0.
  - specialize (IH n). unfold substringTo, substringFrom in *.
    cbn [String.substring String.length]. rewrite append_cons.
    rewrite Nat.sub_succ. by rewrite IH.
Qed.

Lemma substringTo_length (n : nat) (s : string) :
  String.length (substringTo n s) = (n `min` String.length s)%nat.
Proof.
  unfold substringTo. revert n. induction s as [|c s IH]; intros [|n]; simpl; try done.
  by rewrite IH.
Qed.

Lemma afterDot_spec (s r : string) : V1.afterDot s = Some r <-> s = "." +:+ r.
Proof.
  unfold V1.afterDot. destruct s as [|c s]; [done|].
  case_bool_decide as Hc; [subst c|]; split; intros H; try done.
  - by injection H as ->.
  - by injection H as ->.
  - injection H as -> ->. done.
Qed.

Lemma matchExtTail_spec (rest g2 : string) :
  V1.matchExtTail rest = Some g2 ->
  exists outer,
    rest = "." +:+ g2 +:+ "." +:+ outer /\
    toLowerCase g2 ∈ V1.innerExts /\ toLowerCase outer ∈ V1.outerExts.
Proof.
  unfold V1.matchExtTail.
  destruct (V1.afterDot rest) as [r|] eqn:Hrest; [|done].
  apply afterDot_spec in Hrest as ->.
  destruct (filter _ V1.innerExts) as [|e es] eqn:Hfilter; [done|].
  intros [= <-].
  assert (e ∈ filter (fun e => V1.innerExtAt r e = true) V1.innerExts) as He
    by (rewrite Hfilter; left).
  apply list_elem_of_filter in He as [Hat He].
  unfold V1.innerExtAt in Hat. apply andb_true_iff in Hat as [Hinner Houter].
  apply bool_decide_eq_true in Hinner.
  destruct (V1.afterDot (substringFrom (String.length e) r)) as [outer|] eqn:Hdot; [|done].
  apply afterDot_spec in Hdot.
  exists outer. split; [|split].
  - rewrite <- Hdot. by rewrite substringTo_From.
  - by rewrite Hinner.
  - unfold V1.isOuterExt in Houter. by apply bool_decide_eq_true in Houter.
Qed.

Lemma matchDoubleExt_from_spec (n : nat) (filename g1 g2 : string) :
  V1.matchDoubleExt_from n filename = Some (g1, g2) ->
  g1 <> "" /\ V1.noLineTerminator g1 = true /\
  exists rest, filename = g1 +:+ rest /\ V1.matchExtTail rest = Some g2.
Proof.
  induction n as [|n IH]; [done|]. cbn [V1.matchDoubleExt_from].
  destruct (V1.noLineTerminator (substringTo (S n) filename)) eqn:Hline; [|done].
  destruct (V1.matchExtTail (substringFrom (S n) filename)) as [g|] eqn:Htail; [|done].
  intros [= <- <-]. split; [|split; [done|]].
  - intros Hempty.
    pose proof (substringTo_From (S n) filename) as Hsplit.
    rewrite Hempty in Hsplit. simpl in Hsplit.
    rewrite <- Hsplit in Htail at 1.
    unfold substringFrom in Htail.
    destruct filename as [|c filename]; [done|].
    unfold substringTo in Hempty. done.
  - exists (substringFrom (S n) filename). by rewrite substringTo_From.
Qed.

(** When the first variant answers with a name, the file name is that
    answer followed by a dot and one of the outer extensions, and the answer
    itself ends in a dot and one of the inner extensions; in particular the
    answer is never the file name itself. *)
Theorem v1_guess_strips_outer_extension (filename guess : string) :
  V1.getOriginalNameGuess filename = Some guess ->
  exists base inner outer,
    filename = guess +:+ "." +:+ outer /\
    guess = base +:+ "." +:+ inner /\
    base <> "" /\
    toLowerCase inner ∈ V1.innerExts /\
    toLowerCase outer ∈ V1.outerExts.
Proof.
  unfold V1.getOriginalNameGuess, V1.matchDoubleExt.
  destruct (V1.matchDoubleExt_from _ filename) as [[g1 g2]|] eqn:Hmatch; [|done].
  intros [= <-].
  apply matchDoubleExt_from_spec in Hmatch as (Hne & _ & rest & -> & Htail).
  apply matchExtTail_spec in Htail as (outer & -> & Hinner & Houter).
  exists g1, g2, outer. repeat split; try done.
  by rewrite !append_assoc.
Qed.

Lemma v1_guess_strips_outer_extension_witness :
  exists base inner outer,
    "Client.JAR.png" = "Client.JAR" +:+ "." +:+ outer /\
    "Client.JAR" = base +:+ "." +:+ inner /\
    base <> "" /\
    toLowerCase inner ∈ V1.innerExts /\
    toLowerCase outer ∈ V1.outerExts.
Proof. apply (v1_guess_strips_outer_extension "Client.JAR.png" "Client.JAR"). by vm_compute. Defined.

Lemma split_nonempty (sep : ascii) (s : string) : split sep s <> [].
Proof.
  induction s as [|c s IH]; simpl; [done|].
  destruct (decide (c = sep)); [done|]. by destruct (split sep s).
Qed.

(** Splitting distributes over a separator. *)
Lemma split_app_sep (sep : ascii) (x y : string) :
  split sep (x +:+ String sep y) = split sep x ++ split sep y.
Proof.
  induction x as [|c x IH].
  - simpl. by rewrite decide_True.
  - rewrite append_cons. simpl. rewrite IH.
    destruct (decide (c = sep)); [done|].
    pose proof (split_nonempty sep x). by destruct (split sep x).
Qed.

Lemma split_no_sep (sep : ascii) (s : string) :
  includes s (String sep "") = false -> split sep s = [s].
Proof.
  induction s as [|c s IH]; [done|].
  rewrite includes_cons. intros [Hc Hs]%orb_false_iff.
  simpl in Hc. simpl.
  destruct (decide (c = sep)) as [->|Hne].
  - rewrite decide_True in Hc by done. by destruct s.
  - by rewrite IH.
Qed.

(** In the second variant a name with more than two dot-separated parts is
    cut down to its first and its last part: whatever stands between the
    first dot and the last one is dropped. *)
Theorem v2_guess_drops_the_middle (stem middle ext : string) :
  includes stem "." = false ->
  includes ext "." = false ->
  V2.getOriginalNameGuess (stem +:+ "." +:+ middle +:+ "." +:+ ext) =
  stem +:+ "." +:+ ext.
Proof.
  intros Hfirst Hlast. unfold V2.getOriginalNameGuess. cbv zeta.
  change (stem +:+ "." +:+ middle +:+ "." +:+ ext)
    with (stem +:+ String "." (middle +:+ String "." ext)).
  rewrite !split_app_sep, (split_no_sep _ stem), (split_no_sep _ ext) by done.
  pose proof (split_nonempty "." middle) as Hmiddle.
  rewrite bool_decide_eq_true_2.
  - simpl. by rewrite app_comm_cons, last_snoc.
  - rewrite !length_app. simpl. destruct (split "." middle); [done|simpl; lia].
Qed.

Lemma v2_guess_drops_the_middle_witness :
  V2.getOriginalNameGuess ("mod" +:+ "." +:+ "jar.2024-01-02" +:+ "." +:+ "txt") =
  "mod" +:+ "." +:+ "txt".
Proof. by apply (v2_guess_drops_the_middle "mod" "jar.2024-01-02" "txt"). Defined.

(** ** Extension-change checker *)

Lemma similarTo_spec (fs : FileSystem) (directory : string) (items : list Dirent)
    (item : Dirent) (baseName : string) :
  Forall (fun similar =>
            V1.sf_name similar <> d_name item /\
            includes (toLowerCase (V1.sf_name similar)) (toLowerCase baseName) = true)
         (V1.similarTo fs directory items item baseName).
Proof.
  unfold V1.similarTo. induction items as [|otherItem items IH]; [constructor|].
  cbn [flat_map]. apply Forall_app. split; [|done].
  destruct (negb _ && _) eqn:Htest; [|constructor].
  apply andb_true_iff in Htest as [Hother Hbase].
  apply negb_true_iff, bool_decide_eq_false in Hother.
  destruct (stat fs _); [|constructor]. by apply Forall_singleton.
Qed.

Lemma v1_find_flags (fs : FileSystem) (now : nat -> Z) (levels : nat) :
  forall (directory : string) (state : list V1.ExtensionChange * nat),
    Forall (flagged now) state.1 ->
    Forall (flagged now) (V1.findRecentlyModifiedFiles levels fs now directory state).1.
Proof.
  induction levels as [|deeper IH]; intros directory state Hstate; [done|].
  cbn [V1.findRecentlyModifiedFiles].
  destruct (V1.shouldSkipDirectory directory); [done|].
  destruct (readdirTypes fs directory) as [items|]; [|done].
  apply (foldl_preserves (fun st => Forall (flagged now) st.1)); [|done].
  intros acc item _ Hacc. cbv zeta.
  destruct (d_isDirectory item); [by apply IH|].
  destruct (stat fs (pathJoin fs directory (d_name item))) as [stats|]; [|done].
  case_bool_decide as Hrecent; [|done].
  destruct (existsb _ V1.suspiciousExtensions) eqn:Hext; [|done].
  cbn [fst]. apply Forall_app. split; [done|]. apply Forall_singleton.
  split; [|split]; cbn [V1.ec_name V1.modifiedTime V1.similarFiles].
  - apply existsb_exists in Hext as (ext & Hin & Hext).
    exists ext. split; [by apply list_elem_of_In|done].
  - by exists state.2.
  - destruct (V1.getOriginalNameGuess (d_name item)) as [baseName|]; [|constructor].
    destruct (V1.truthy baseName); [|constructor].
    eapply Forall_impl; [apply similarTo_spec|].
    intros similar [Hother Hbase]. split; [done|]. by exists baseName.
Qed.

Lemma v1_changes_flagged (fs : FileSystem) (now : nat -> Z) :
  Forall (flagged now) (V1.checkFileExtensionChanges fs now).
Proof.
  unfold V1.checkFileExtensionChanges. cbv zeta.
  rewrite sort_perm.
  apply (foldl_preserves (fun st => Forall (flagged now) st.1)).
  - intros acc gameDir _ Hacc. destruct (existsSync fs gameDir); [|done].
    by apply v1_find_flags.
  - do 3 apply v1_find_flags. constructor.
Qed.

(** Every finding of [checkFileExtensionChanges] of the first variant has a
    name that holds one of the suspicious double extensions and, when the
    clock does not run backwards, was modified less than a week before the
    check began.  Its similar files are other entries of the same directory
    whose names hold the guessed original name; a finding whose name gives
    no guess has none. *)
Theorem v1_extension_changes_reported (fs : FileSystem) (now : nat -> Z)
    (change : V1.ExtensionChange) :
  (forall k, now 0%nat <= now k) ->
  change ∈ V1.checkFileExtensionChanges fs now ->
  (exists ext, ext ∈ V1.suspiciousExtensions /\
               includes (toLowerCase (V1.ec_name change)) ext = true) /\
  now 0%nat - 7 * 24 * 60 * 60 * 1000 < V1.modifiedTime change /\
  (forall similar, similar ∈ V1.similarFiles change ->
     V1.sf_name similar <> V1.ec_name change /\
     exists baseName,
       V1.getOriginalNameGuess (V1.ec_name change) = Some baseName /\
       includes (toLowerCase (V1.sf_name similar)) (toLowerCase baseName) = true) /\
  (V1.getOriginalNameGuess (V1.ec_name change) = None -> V1.similarFiles change = []).
Proof.
  intros Hclock Hin.
  pose proof (proj1 (Forall_forall _ _) (v1_changes_flagged fs now) _ Hin)
    as (Hext & [k Hk] & Hsimilar).
  split; [done|]. split; [specialize (Hclock k); lia|].
  rewrite Forall_forall in Hsimilar. split; [done|].
  intros Hnone. destruct (V1.similarFiles change) as [|similar rest]; [done|].
  destruct (Hsimilar similar) as (_ & baseName & Hguess & _); [left|congruence].
Qed.

Lemma v1_extension_changes_reported_witness :
  (exists ext, ext ∈ V1.suspiciousExtensions /\
               includes (toLowerCase (V1.ec_name disguisedArchive)) ext = true) /\
  sampleClock 0%nat - 7 * 24 * 60 * 60 * 1000 < V1.modifiedTime disguisedArchive /\
  (forall similar, similar ∈ V1.similarFiles disguisedArchive ->
     V1.sf_name similar <> V1.ec_name disguisedArchive /\
     exists baseName,
       V1.getOriginalNameGuess (V1.ec_name disguisedArchive) = Some baseName /\
       includes (toLowerCase (V1.sf_name similar)) (toLowerCase baseName) = true) /\
  (V1.getOriginalNameGuess (V1.ec_name disguisedArchive) = None ->
   V1.similarFiles disguisedArchive = []).
Proof.
  apply (v1_extension_changes_reported sampleDownloads sampleClock disguisedArchive).
  - intros k. unfold sampleClock. lia.
  - vm_compute. left.
Defined.

(** The findings of [checkFileExtensionChanges] of the first variant come
    in descending order of their modification time, whatever the file system
    holds: the times are read from [stat] and are always numbers. *)
Theorem v1_extension_changes_sorted (fs : FileSystem) (now : nat -> Z) :
  StronglySorted (fun a b => V1.modifiedTime b <= V1.modifiedTime a)
                 (V1.checkFileExtensionChanges fs now).
Proof.
  unfold V1.checkFileExtensionChanges. cbv zeta.
  apply (StronglySorted_weaken (fun change => Num (V1.modifiedTime change))).
  - intros a b. unfold notBefore, geb. by rewrite bool_decide_eq_true.
  - apply (sort_sorted (fun change => Num (V1.modifiedTime change))).
    by apply Forall_forall.
Qed.

(** ** Deleted-file finder: the searches of the trash *)

Section LinuxTrash.
Context (fs : FileSystem) (files : V1.TrashFiles) (infoPath : string)
        (timeThreshold : jsnum).

Lemma readTrashInfo_from (infoItems : list Dirent) (infoMap : gmap string V1.TrashInfo)
    (item : Dirent) :
  item ∈ infoItems ->
  map_Forall (fromInfoFile fs files infoPath infoItems timeThreshold) infoMap ->
  map_Forall (fromInfoFile fs files infoPath infoItems timeThreshold)
             (V1.readTrashInfo fs files infoPath timeThreshold infoMap item).
Proof.
  intros Hitem Hmap. unfold V1.readTrashInfo.
  destruct (d_isFile item && endsWith (d_name item) ".trashinfo") eqn:Hinfo; [|done].
  apply andb_true_iff in Hinfo as [Hfile Hends].
  destruct (V1.readText files _) as [content|] eqn:Hread; [|done].
  destruct (V1.matchAfter "Path=" content) as [originalPath|] eqn:Hpath; [|done].
  destruct (V1.matchAfter "DeletionDate=" content) as [deletionText|]; [|done].
  cbv zeta. destruct (geb _ timeThreshold) eqn:Hrecent; [|done].
  apply map_Forall_insert_2; [|done].
  split; [done|]. by exists item, content.
Qed.

Lemma infoMap_from (infoItems : list Dirent) :
  map_Forall (fromInfoFile fs files infoPath infoItems timeThreshold)
             (foldl (V1.readTrashInfo fs files infoPath timeThreshold) ∅ infoItems).
Proof.
  apply (foldl_preserves
           (map_Forall (fromInfoFile fs files infoPath infoItems timeThreshold))).
  - intros acc item Hitem Hacc. by apply readTrashInfo_from.
  - apply map_Forall_empty.
Qed.
End LinuxTrash.

(** Every finding of [searchLinuxTrash] of the first variant belongs to an
    entry of the [files] folder for which the [info] folder holds a
    [.trashinfo] file of that name with a [Path] and a [DeletionDate] line;
    the finding carries that path, and its deletion time is a number that
    is not before the threshold.  There is at most one finding for an entry
    of the [files] folder. *)
Theorem v1_linux_trash_findings (fs : FileSystem) (files : V1.TrashFiles)
    (trashPath infoPath : string) (timeThreshold : jsnum) (finding : V1.DeletedFile) :
  finding ∈ V1.searchLinuxTrash fs files trashPath infoPath [] timeThreshold ->
  geb (V1.deletedTime finding) timeThreshold = true /\
  V1.df_name finding = V1.pathBasename files (V1.df_path finding) /\
  exists trashItems infoItems item infoItem content,
    readdirTypes fs trashPath = Some trashItems /\
    readdirTypes fs infoPath = Some infoItems /\
    item ∈ trashItems /\
    infoItem ∈ infoItems /\
    d_isFile infoItem = true /\
    endsWith (d_name infoItem) ".trashinfo" = true /\
    V1.replaceFirst ".trashinfo" "" (d_name infoItem) = d_name item /\
    V1.readText files (pathJoin fs infoPath (d_name infoItem)) = Some content /\
    V1.matchAfter "Path=" content = Some (V1.df_path finding) /\
    (length (V1.searchLinuxTrash fs files trashPath infoPath [] timeThreshold)
       <= length trashItems)%nat.
Proof.
  unfold V1.searchLinuxTrash.
  destruct (negb _ || negb _); [by intros ?%elem_of_nil|].
  destruct (readdirTypes fs trashPath) as [trashItems|]; [|by intros ?%elem_of_nil].
  destruct (readdirTypes fs infoPath) as [infoItems|]; [|by intros ?%elem_of_nil].
  cbv zeta.
  pose proof (infoMap_from fs files infoPath timeThreshold infoItems) as Hmap.
  set (infoMap := foldl _ ∅ infoItems) in *.
  assert (forall items result,
            items ⊆ trashItems ->
            (length (foldl (V1.pushTrashed files infoMap) result items)
               <= length result + length items)%nat /\
            forall finding,
              finding ∈ foldl (V1.pushTrashed files infoMap) result items ->
              finding ∈ result \/
              exists item info,
                item ∈ trashItems /\ infoMap !! d_name item = Some info /\
                finding = V1.mkDeletedFile (V1.pathBasename files (V1.originalPath info))
                            (V1.originalPath info) (V1.deletionDate info) "") as Hloop.
  { induction items as [|item items IH]; intros result Hsub; simpl.
    - split; [lia|]. by left.
    - destruct (IH (V1.pushTrashed files infoMap result item)) as [Hlen Hfrom];
        [set_solver|].
      unfold V1.pushTrashed in Hlen, Hfrom |- *.
      destruct (infoMap !! d_name item) as [info|] eqn:Hinfo.
      + rewrite length_app in Hlen. simpl in Hlen. split; [lia|].
        intros f Hf. apply Hfrom in Hf as [Hf|Hf]; [|by right].
        apply elem_of_app in Hf as [Hf|Hf]; [by left|].
        apply list_elem_of_singleton in Hf as ->.
        right. exists item, info. split; [set_solver|done].
      + split; [lia|]. done. }
  destruct (Hloop trashItems [] ltac:(done)) as [Hlen Hfrom].
  intros Hfinding. apply Hfrom in Hfinding as [Hnil|(item & info & Hitem & Hinfo & ->)];
    [by apply elem_of_nil in Hnil|].
  apply Hmap in Hinfo as (Hrecent & infoItem & content & Hin & Hfile & Hends & Hname & Hread & Hpath).
  split; [done|]. split; [done|].
  exists trashItems, infoItems, item, infoItem, content. simpl in Hlen. by repeat split.
Qed.

Section RecycleBin.
Context (fs : FileSystem) (files : V1.TrashFiles) (timeThreshold : jsnum).

Lemma scanNameEnd_enough (buffer : list Z) (fuel more : nat) :
  forall nameEnd,
    (length buffer <= nameEnd + 2 * fuel)%nat ->
    V1.scanNameEnd (fuel + more) buffer nameEnd = V1.scanNameEnd fuel buffer nameEnd.
Proof.
  induction fuel as [|fuel IH]; intros nameEnd Hfuel.
  - destruct more as [|more]; [done|]. simpl.
    rewrite bool_decide_eq_false_2 by lia. done.
  - simpl. destruct (_ && _ && _); [|done]. apply IH. lia.
Qed.

Lemma scanNameEnd_nonzero (buffer : list Z) (fuel : nat) :
  forall nameEnd i,
    (nameEnd <= i < V1.scanNameEnd fuel buffer nameEnd)%nat -> buffer !! i <> Some 0.
Proof.
  induction fuel as [|fuel IH]; intros nameEnd i Hi; simpl in Hi; [lia|].
  destruct (_ && _ && _) eqn:Hcond; [|lia].
  apply andb_true_iff in Hcond as [[_ Hlow]%andb_true_iff Hhigh].
  apply negb_true_iff, bool_decide_eq_false in Hlow, Hhigh.
  destruct (decide (i = nameEnd)) as [->|]; [done|].
  destruct (decide (i = nameEnd + 1)%nat) as [->|]; [done|].
  apply (IH (nameEnd + 2)%nat). lia.
Qed.

Lemma scanNameEnd_stops (buffer : list Z) (fuel nameEnd : nat) :
  buffer !! nameEnd = Some 0 \/ buffer !! (nameEnd + 1)%nat = Some 0 ->
  V1.scanNameEnd fuel buffer nameEnd = nameEnd.
Proof.
  intros Hzero. destruct fuel as [|fuel]; [done|]. simpl.
  destruct (_ && _ && _) eqn:Hcond; [|done].
  apply andb_true_iff in Hcond as [[_ Hlow]%andb_true_iff Hhigh].
  apply negb_true_iff, bool_decide_eq_false in Hlow, Hhigh.
  by destruct Hzero.
Qed.

Lemma pushBinned_recent (fullPath : string) (subItems : list Dirent) :
  forall result,
    Forall (recent timeThreshold) result ->
    Forall (recent timeThreshold)
           (foldl (V1.pushBinned fs files fullPath timeThreshold) result subItems).
Proof.
  intros result. apply (foldl_preserves (Forall (recent timeThreshold))).
  intros acc subItem _ Hacc. unfold V1.pushBinned. cbv zeta.
  destruct (stat fs _) as [stats|]; [|done].
  destruct (geb _ timeThreshold) eqn:Hrecent; [|done].
  apply Forall_app. split; [done|]. by apply Forall_singleton.
Qed.

Lemma searchBinFolders_recent (directory : string) (items : list Dirent) :
  forall result,
    Forall (recent timeThreshold) result ->
    Forall (recent timeThreshold)
           (caught (forEach (V1.searchBinFolder fs files directory timeThreshold)
                            items result)).
Proof.
  induction items as [|item items IH]; intros result Hresult; simpl; [done|].
  unfold V1.searchBinFolder at 1. cbv zeta.
  destruct (d_isDirectory item); simpl; [|by apply IH].
  destruct (readdirTypes fs _) as [subItems|]; simpl.
  - apply IH. by apply pushBinned_recent.
  - destruct (V1.permissionDenied files _); simpl; [by apply IH|done].
Qed.

Lemma recycleBin_recent (userProfile : string) :
  Forall (recent timeThreshold) (V1.recycleBin fs files userProfile timeThreshold).
Proof.
  unfold V1.recycleBin, V1.searchRecycleBin.
  destruct (negb _); [constructor|].
  destruct (readdirTypes fs _) as [items|]; [|constructor].
  apply searchBinFolders_recent. constructor.
Qed.
End RecycleBin.

(** The scan of a [$I] file for the original name ends within the buffer,
    and it ends at the first 16-bit unit that has a zero byte: every byte of
    the text it selects is non-zero.  A name whose first character lies
    below U+0100 is stored with a zero high byte, so for such a name nothing
    is selected and the finding keeps the name of the [$R] file. *)
Theorem v1_recycle_bin_name_scan (fs : FileSystem) (files : V1.TrashFiles)
    (fullPath name : string) (buffer : list Z) :
  V1.readBuffer files (pathJoin fs fullPath (V1.replaceFirst "$R" "$I" name)) =
    Some buffer ->
  (forall more,
     V1.scanNameEnd (length buffer + more) buffer 24 =
     V1.scanNameEnd (length buffer) buffer 24) /\
  (forall i, (24 <= i < V1.scanNameEnd (length buffer) buffer 24)%nat ->
             buffer !! i <> Some 0) /\
  (buffer !! 25%nat = Some 0 -> V1.originalNameOf fs files fullPath name = name).
Proof.
  intros Hread. split; [|split].
  - intros more. apply scanNameEnd_enough. lia.
  - apply scanNameEnd_nonzero.
  - intros Hzero. unfold V1.originalNameOf. cbv zeta. rewrite Hread.
    rewrite (scanNameEnd_stops buffer (length buffer) 24) by by right.
    destruct (startsWith name "$R"); [|done].
    destruct (existsSync fs _); [|done].
    destruct (bool_decide (24 < length buffer)%nat); [|done].
    by rewrite bool_decide_eq_false_2 by lia.
Qed.

(** A folder of the recycle bin that cannot be listed ends the search unless
    the error is a permission error: the folders after it are not examined,
    and what was found before it is kept.  After a permission error the
    search goes on with the next folder. *)
Theorem v1_recycle_bin_stops_at_unreadable_folder (fs : FileSystem)
    (files : V1.TrashFiles) (directory : string) (timeThreshold : jsnum)
    (before after : list Dirent) (folder : Dirent) (result : list V1.DeletedFile) :
  d_isDirectory folder = true ->
  readdirTypes fs (pathJoin fs directory (d_name folder)) = None ->
  let search := forEach (V1.searchBinFolder fs files directory timeThreshold) in
  caught (search (before ++ folder :: after) result) =
  if V1.permissionDenied files (pathJoin fs directory (d_name folder))
  then caught (andThen (search before result) (search after))
  else caught (search before result).
Proof.
  intros Hdir Hlist search. unfold search.
  rewrite forEach_app.
  destruct (forEach _ before result) as [found|found]; simpl;
    [|by destruct (V1.permissionDenied files _)].
  unfold V1.searchBinFolder at 1. cbv zeta. rewrite Hdir, Hlist.
  by destruct (V1.permissionDenied files _).
Qed.

Lemma searchLinuxTrash_recent (fs : FileSystem) (files : V1.TrashFiles)
    (trashPath infoPath : string) (timeThreshold : jsnum) :
  Forall (recent timeThreshold)
         (V1.searchLinuxTrash fs files trashPath infoPath [] timeThreshold).
Proof.
  unfold V1.searchLinuxTrash.
  destruct (negb _ || negb _); [constructor|].
  destruct (readdirTypes fs trashPath) as [trashItems|]; [|constructor].
  destruct (readdirTypes fs infoPath) as [infoItems|]; [|constructor].
  cbv zeta.
  pose proof (infoMap_from fs files infoPath timeThreshold infoItems) as Hmap.
  apply (foldl_preserves (Forall (recent timeThreshold))); [|constructor].
  intros acc item _ Hacc. unfold V1.pushTrashed.
  destruct (_ !! d_name item) as [info|] eqn:Hinfo; [|done].
  apply Forall_app. split; [done|]. apply Forall_singleton.
  by apply Hmap in Hinfo as [Hrecent _].
Qed.

Lemma recent_valid (timeThreshold : jsnum) (finding : V1.DeletedFile) :
  recent timeThreshold finding -> valid (V1.deletedTime finding).
Proof. unfold recent, geb, valid. by destruct (V1.deletedTime finding). Qed.

(** Whatever the trash holds, the findings that the first variant takes
    from the Linux trash and from the recycle bin carry deletion times that
    are numbers and are not before the threshold.  So on Linux the list of
    [getRecentlyDeletedFiles] is in descending order of the deletion time
    without any condition on the dates, and on Windows it is as soon as the
    events of the log carry valid dates. *)
Theorem v1_trash_findings_in_order (fs : FileSystem) (files : V1.TrashFiles)
    (userProfile : string) (timeThreshold : jsnum)
    (eventLogs : option (list V1.DeletedFile)) :
  Forall (fun finding => geb (V1.deletedTime finding) timeThreshold = true)
         (V1.linuxTrash fs files timeThreshold ++
          V1.recycleBin fs files userProfile timeThreshold) /\
  (platform fs = linux ->
   StronglySorted (notBefore V1.deletedTime)
     (V1.getRecentlyDeletedFiles fs (V1.linuxTrash fs files timeThreshold) eventLogs)) /\
  (platform fs = win32 ->
   (forall events, eventLogs = Some events ->
                   Forall (fun event => valid (V1.deletedTime event)) events) ->
   StronglySorted (notBefore V1.deletedTime)
     (V1.getRecentlyDeletedFiles fs (V1.recycleBin fs files userProfile timeThreshold)
        eventLogs)).
Proof.
  pose proof (searchLinuxTrash_recent fs files
                (pathJoinAll fs (homedir fs) [".local"; "share"; "Trash"; "files"])
                (pathJoinAll fs (homedir fs) [".local"; "share"; "Trash"; "info"])
                timeThreshold) as Hlinux.
  pose proof (recycleBin_recent fs files timeThreshold userProfile) as Hbin.
  split; [by apply Forall_app|]. split.
  - intros Hplatform. unfold V1.getRecentlyDeletedFiles, V1.collectDeletedFiles.
    rewrite Hplatform. apply (sort_sorted V1.deletedTime).
    eapply Forall_impl; [exact Hlinux|]. apply recent_valid.
  - intros Hplatform Hevents.
    unfold V1.getRecentlyDeletedFiles, V1.collectDeletedFiles.
    rewrite Hplatform. apply (sort_sorted V1.deletedTime).
    assert (Forall (fun b => valid (V1.deletedTime b))
              (V1.recycleBin fs files userProfile timeThreshold)) as Hvalid.
    { eapply Forall_impl; [exact Hbin|]. apply recent_valid. }
    destruct eventLogs as [events|]; [|done].
    apply Forall_app. split; [done|].
    apply Forall_forall. intros event [_ Hin]%list_elem_of_filter.
    by apply (proj1 (Forall_forall _ _) (Hevents events eq_refl)).
Qed.

Lemma v1_linux_trash_findings_witness :
  geb (V1.deletedTime trashedArchive) (Num 1704164000000) = true /\
  V1.df_name trashedArchive = V1.pathBasename sampleTrashFiles (V1.df_path trashedArchive) /\
  exists trashItems infoItems item infoItem content,
    readdirTypes sampleTrash "/home/u/.local/share/Trash/files" = Some trashItems /\
    readdirTypes sampleTrash "/home/u/.local/share/Trash/info" = Some infoItems /\
    item ∈ trashItems /\
    infoItem ∈ infoItems /\
    d_isFile infoItem = true /\
    endsWith (d_name infoItem) ".trashinfo" = true /\
    V1.replaceFirst ".trashinfo" "" (d_name infoItem) = d_name item /\
    V1.readText sampleTrashFiles
      (pathJoin sampleTrash "/home/u/.local/share/Trash/info" (d_name infoItem)) =
      Some content /\
    V1.matchAfter "Path=" content = Some (V1.df_path trashedArchive) /\
    (length (V1.searchLinuxTrash sampleTrash sampleTrashFiles
               "/home/u/.local/share/Trash/files" "/home/u/.local/share/Trash/info"
               [] (Num 1704164000000))
       <= length trashItems)%nat.
Proof.
  apply (v1_linux_trash_findings sampleTrash sampleTrashFiles
           "/home/u/.local/share/Trash/files" "/home/u/.local/share/Trash/info"
           (Num 1704164000000) trashedArchive).
  vm_compute. left.
Defined.

Lemma v1_trash_findings_in_order_witness :
  V1.linuxTrash sampleTrash sampleTrashFiles (Num 1704164000000) = [trashedArchive] /\
  StronglySorted (notBefore V1.deletedTime)
    (V1.getRecentlyDeletedFiles sampleTrash
       (V1.linuxTrash sampleTrash sampleTrashFiles (Num 1704164000000)) None).
Proof.
  split; [by vm_compute|].
  by apply (proj1 (proj2 (v1_trash_findings_in_order sampleTrash sampleTrashFiles
                            "" (Num 1704164000000) None))).
Defined.

Lemma v1_recycle_bin_name_scan_witness :
  (forall more,
     V1.scanNameEnd (length sampleInfoBuffer + more) sampleInfoBuffer 24 =
     V1.scanNameEnd (length sampleInfoBuffer) sampleInfoBuffer 24) /\
  (forall i, (24 <= i < V1.scanNameEnd (length sampleInfoBuffer) sampleInfoBuffer 24)%nat ->
             sampleInfoBuffer !! i <> Some 0) /\
  (sampleInfoBuffer !! 25%nat = Some 0 ->
   V1.originalNameOf sampleBin sampleBinFiles "C:\Users\u\$Recycle.Bin\S-1-5-21"
     "$RAB12.jar" = "$RAB12.jar").
Proof.
  apply (v1_recycle_bin_name_scan sampleBin sampleBinFiles
           "C:\Users\u\$Recycle.Bin\S-1-5-21" "$RAB12.jar" sampleInfoBuffer).
  by vm_compute.
Defined.

Lemma v1_recycle_bin_stops_at_unreadable_folder_witness :
  map V1.df_name (V1.recycleBin sampleBin sampleBinFiles "C:\Users\u" (Num 1000)) =
    ["$RAB12.jar"; "$IAB12.jar"] /\
  caught (forEach (V1.searchBinFolder sampleBin sampleBinFiles "C:\Users\u\$Recycle.Bin"
                     (Num 1000))
            ([mkDirent "S-1-5-21" true false] ++
             mkDirent "S-1-5-18" true false :: [mkDirent "S-1-5-99" true false]) []) =
  if V1.permissionDenied sampleBinFiles
       (pathJoin sampleBin "C:\Users\u\$Recycle.Bin" (d_name (mkDirent "S-1-5-18" true false)))
  then caught (andThen
                 (forEach (V1.searchBinFolder sampleBin sampleBinFiles
                             "C:\Users\u\$Recycle.Bin" (Num 1000))
                    [mkDirent "S-1-5-21" true false] [])
                 (forEach (V1.searchBinFolder sampleBin sampleBinFiles
                             "C:\Users\u\$Recycle.Bin" (Num 1000))
                    [mkDirent "S-1-5-99" true false]))
  else caught (forEach (V1.searchBinFolder sampleBin sampleBinFiles
                          "C:\Users\u\$Recycle.Bin" (Num 1000))
                 [mkDirent "S-1-5-21" true false] []).
Proof.
  split; [by vm_compute|].
  by apply (v1_recycle_bin_stops_at_unreadable_folder sampleBin sampleBinFiles
              "C:\Users\u\$Recycle.Bin" (Num 1000)
              [mkDirent "S-1-5-21" true false] [mkDirent "S-1-5-99" true false]
              (mkDirent "S-1-5-18" true false) []).
Defined.

(** ** The API of the preload script and the handlers behind it *)

Lemma handle_returns {Arg V : Type} (systemUtils : Main.SystemUtils Arg V)
    (desktop : Main.Desktop Arg) (channel : Main.Channel) (arg : Arg) :
  exists reply, Main.handle systemUtils desktop channel arg = Returned reply.
Proof.
  destruct channel; simpl; try (rewrite guarded_spec; by eexists).
  apply exportResults_returns.
Qed.

(** Every function of [keniboxAPI] except [getCurrentTime] invokes a channel
    for which the main process has registered a handler, so the call
    resolves with a reply.  No two functions share a channel, every
    registered channel has its function, and a handler whose function sends
    no argument does not read one. *)
Theorem preload_invokes_registered_channels {Arg V : Type}
    (systemUtils : Main.SystemUtils Arg V) (desktop : Main.Desktop Arg) :
  (forall api, Preload.channel api = None <-> api = Preload.getCurrentTime) /\
  (forall api channel,
      Preload.channel api = Some channel ->
      channel ∈ Main.registered /\
      forall arg, exists reply,
        Main.handle systemUtils desktop channel arg = Returned reply) /\
  (forall a b channel,
      Preload.channel a = Some channel -> Preload.channel b = Some channel -> a = b) /\
  (forall channel, channel ∈ Main.registered ->
                   exists api, Preload.channel api = Some channel) /\
  (forall api channel (undefined sixty four : Arg),
      Preload.channel api = Some channel ->
      Preload.argument undefined sixty four api None = None ->
      forall x y,
        Main.handle systemUtils desktop channel x =
        Main.handle systemUtils desktop channel y).
Proof.
  split; [|split; [|split; [|split]]].
  - intros api. by destruct api.
  - intros api channel Hchannel. split; [apply every_channel_registered|].
    intros arg. apply handle_returns.
  - intros a b channel Ha Hb. destruct a, b; simpl in *; congruence.
  - intros channel _.
    destruct channel;
      [exists Preload.findJarFiles | exists Preload.checkExtensionChanges
      |exists Preload.getDeletedFiles | exists Preload.getExecutedJars
      |exists Preload.checkUSBDisconnection | exists Preload.checkScreenRecording
      |exists Preload.openBrowserHistory | exists Preload.detectBrowsers
      |exists Preload.detectMinecraftCheats | exists Preload.detectStoppedServices
      |exists Preload.getFolderHistory | exists Preload.getExecutionHistory
      |exists Preload.openMinecraftFiles | exists Preload.openFileLocation
      |exists Preload.getCommandHistory | exists Preload.exportResults]; done.
  - intros api channel undefined sixty four Hchannel Hnone x y.
    destruct api; simpl in *; try discriminate; by injection Hchannel as <-.
Qed.

Lemma preload_invokes_registered_channels_witness :
  Main.get_deleted_files ∈ Main.registered /\
  forall arg, exists reply,
    Main.handle sampleUtils sampleDesktop Main.get_deleted_files arg = Returned reply.
Proof.
  by apply (proj1 (proj2 (preload_invokes_registered_channels sampleUtils sampleDesktop))
              Preload.getDeletedFiles Main.get_deleted_files).
Defined.

(** ** Opening the location of a file *)

(** The link that opens the location of a file never shows its error text:
    the handler behind [openFileLocation] resolves whatever happens, so the
    click handler of the renderer always takes the branch that writes the
    text for success. *)
Theorem location_link_never_shows_error {V : Type}
    (systemUtils : Main.SystemUtils string V) (desktop : Main.Desktop string)
    (filePath : string) :
  filePath <> "" ->
  Renderer.locationLinkText (Main.handle systemUtils desktop Main.open_file_location)
                            filePath = Some "✓ Abierto".
Proof.
  intros Hpath. unfold Renderer.locationLinkText, V1.truthy.
  rewrite bool_decide_eq_false_2 by done. simpl.
  rewrite guarded_spec. done.
Qed.

Lemma location_link_never_shows_error_witness :
  Renderer.locationLinkText (Main.handle sampleUtils sampleDesktop Main.open_file_location)
                            "C:\missing.jar" = Some "✓ Abierto".
Proof. by apply (location_link_never_shows_error sampleUtils sampleDesktop "C:\missing.jar"). Defined.

(** [openFileLocation] of the first variant starts something only for a
    path that exists: the file selected in the explorer on Windows, the
    folder of the file elsewhere, the path itself when it is no file.  For a
    path that does not exist it throws, the handler of the main process
    answers with the message that names the path, and the link of the
    renderer shows the text for success all the same.  The second variant
    answers with an error object of its own and runs no command. *)
Theorem missing_path_is_not_opened (fs : FileSystem) (shell : V1.Shell)
    (systemUtils : Main.SystemUtils string V1.Opened) (desktop : Main.Desktop string)
    (dirname : string -> string) (execPromise : string -> option JsError)
    (filePath : string) :
  Main.openFileLocation systemUtils = V1.openFileLocation fs shell ->
  (forall opened,
     V1.openFileLocation fs shell filePath = Returned opened ->
     existsSync fs filePath = true /\
     V1.start shell opened = None /\
     exists stats,
       stat fs filePath = Some stats /\
       opened = if st_isFile stats
                then if bool_decide (platform fs = win32)
                     then V1.ExplorerSelect filePath
                     else V1.OpenPath (V1.dirname shell filePath)
                else V1.OpenPath filePath) /\
  (existsSync fs filePath = false ->
   Main.handle systemUtils desktop Main.open_file_location filePath =
     Returned (Main.ErrorObject ("La ruta no existe: " +:+ filePath)) /\
   (filePath <> "" ->
    Renderer.locationLinkText (Main.handle systemUtils desktop Main.open_file_location)
                              filePath = Some "✓ Abierto") /\
   V2.openFileLocation fs dirname execPromise filePath =
     (V2.OpenError "El archivo no existe", [])).
Proof.
  intros Hutils. split.
  - intros opened. unfold V1.openFileLocation.
    destruct (existsSync fs filePath); [|done]. simpl.
    destruct (stat fs filePath) as [stats|]; [|done]. cbv zeta.
    destruct (V1.start shell _) eqn:Hstart; [done|].
    intros [= <-]. split; [done|]. split; [done|]. by exists stats.
  - intros Hmissing. split; [|split].
    + simpl. rewrite guarded_spec, Hutils. unfold V1.openFileLocation.
      by rewrite Hmissing.
    + intros Hpath. unfold Renderer.locationLinkText, V1.truthy.
      rewrite bool_decide_eq_false_2 by done. simpl. by rewrite guarded_spec.
    + unfold V2.openFileLocation. by rewrite Hmissing.
Qed.

Lemma missing_path_is_not_opened_witness :
  Main.handle sampleOpener sampleDesktop Main.open_file_location "C:\missing.jar" =
    Returned (Main.ErrorObject ("La ruta no existe: " +:+ "C:\missing.jar")) /\
  ("C:\missing.jar" <> "" ->
   Renderer.locationLinkText (Main.handle sampleOpener sampleDesktop Main.open_file_location)
                             "C:\missing.jar" = Some "✓ Abierto") /\
  V2.openFileLocation sampleWindows (fun p => p) (fun _ => None) "C:\missing.jar" =
    (V2.OpenError "El archivo no existe", []).
Proof.
  by apply (proj2 (missing_path_is_not_opened sampleWindows sampleShell sampleOpener
                     sampleDesktop (fun p => p) (fun _ => None) "C:\missing.jar" eq_refl)).
Defined.

(** ** USB disconnection check *)

Lemma usbEventStep_bounded (thirtyMinutesAgo : Z) (result : V1.UsbResult)
    (event : V1.UsbEvent) :
  usbReport result -> usbReport (caught (V1.usbEventStep thirtyMinutesAgo result event)).
Proof.
  intros [Hflag Hlen]. unfold V1.usbEventStep.
  destruct (geb _ _); [|done]. cbv zeta.
  destruct (V1.eventDevice event) as [deviceInfo|]; simpl; [|done].
  split; [done|]. apply Forall_app. split; [done|]. apply Forall_singleton. simpl.
  case_bool_decide as Hlong; [|lia].
  rewrite length_app_string, substringTo_length. cbn [String.length]. lia.
Qed.

Lemma usbEventStep_detailed (thirtyMinutesAgo : Z) (result : V1.UsbResult)
    (event : V1.UsbEvent) :
  is_Some (V1.eventDevice event) ->
  (V1.disconnected result = true -> V1.details result <> []) ->
  V1.disconnected (caught (V1.usbEventStep thirtyMinutesAgo result event)) = true ->
  V1.details (caught (V1.usbEventStep thirtyMinutesAgo result event)) <> [].
Proof.
  intros [deviceInfo Hdevice] Hresult. unfold V1.usbEventStep. rewrite Hdevice.
  destruct (geb _ _); [|done]. simpl. intros _. by destruct (V1.details result).
Qed.

(** In the answer of [checkUSBDisconnection] of the first variant, details
    are given only together with [disconnected], and a device text is never
    longer than 100 characters and the three dots.  Conversely
    [disconnected] comes with at least one detail, provided that on Windows
    every event of the log names its device. *)
Theorem v1_usb_disconnection_report (fs : FileSystem) (probe : V1.UsbProbe) (now : Z) :
  (V1.details (V1.checkUSBDisconnection fs probe now) <> [] ->
   V1.disconnected (V1.checkUSBDisconnection fs probe now) = true) /\
  (platform fs = win32 ->
   Forall (fun detail => (String.length (V1.device detail) <= 103)%nat)
          (V1.details (V1.checkUSBDisconnection fs probe now))) /\
  ((platform fs = win32 ->
    forall events, V1.usbEvents probe = Some events ->
                   Forall (fun event => is_Some (V1.eventDevice event)) events) ->
   V1.disconnected (V1.checkUSBDisconnection fs probe now) = true ->
   V1.details (V1.checkUSBDisconnection fs probe now) <> []).
Proof.
  unfold V1.checkUSBDisconnection. cbv zeta.
  destruct (platform fs) eqn:Hplatform.
  - destruct (V1.usbEvents probe) as [events|]; [|by repeat split].
    assert (usbReport (caught (forEach (V1.usbEventStep (now - 30 * 60 * 1000)) events
                                       (V1.mkUsbResult false []))))
      as [Hflag Hlen].
    { apply (forEach_preserves usbReport); [|by split].
      intros s x _. apply usbEventStep_bounded. }
    split; [done|]. split; [done|].
    intros Hdevices. specialize (Hdevices eq_refl events eq_refl).
    apply (forEach_preserves
             (fun r => V1.disconnected r = true -> V1.details r <> [])); [|done].
    intros s x Hx. apply usbEventStep_detailed.
    by apply (proj1 (Forall_forall _ _) Hdevices).
  - destruct (V1.systemProfiler probe), (V1.usbLog probe); try by repeat split.
    case_bool_decide as Hlines; [|by repeat split].
    split; [done|]. split; [done|]. intros _ _. simpl.
    destruct (filter _ _); [simpl in Hlines; lia|done].
  - destruct (V1.dmesg probe); [|by repeat split].
    case_bool_decide as Hlines; [|by repeat split].
    split; [done|]. split; [done|]. intros _ _. simpl.
    destruct (filter _ _); [simpl in Hlines; lia|done].
  - destruct (V1.dmesg probe); [|by repeat split].
    case_bool_decide as Hlines; [|by repeat split].
    split; [done|]. split; [done|]. intros _ _. simpl.
    destruct (filter _ _); [simpl in Hlines; lia|done].
Qed.

Lemma v1_usb_disconnection_report_witness :
  map (fun detail => String.length (V1.device detail))
      (V1.details (V1.checkUSBDisconnection sampleWindows sampleUsbProbe 1700000600000)) =
    [103%nat] /\
  Forall (fun detail => (String.length (V1.device detail) <= 103)%nat)
         (V1.details (V1.checkUSBDisconnection sampleWindows sampleUsbProbe 1700000600000)).
Proof.
  split; [by vm_compute|].
  by apply (proj1 (proj2 (v1_usb_disconnection_report sampleWindows sampleUsbProbe
                            1700000600000))).
Defined.

(** Lines of the macOS log and of [dmesg]: the timestamp that is shown, and
    the device text; a kernel time that is padded with a blank is not
    removed. *)
Example v1_usb_line_texts :
  V1.findTimestamp "2024-01-02 03:04:05.678 kernel: USB device detach" =
    Some "2024-01-02 03:04:05" /\
  V1.findTimestamp "kernel: USB device detach" = None /\
  V1.trim (V1.removeBracketTime "[12345.678901] usb 1-1: USB disconnect ") =
    "usb 1-1: USB disconnect" /\
  V1.trim (V1.removeBracketTime "[  345.678901] usb 1-1: USB disconnect") =
    "[  345.678901] usb 1-1: USB disconnect".
Proof. by vm_compute. Qed.

(** An event of the log without a device: [disconnected] is set, and the
    loop ends before a detail is stored. *)
Example v1_usb_event_without_device :
  V1.checkUSBDisconnection sampleWindows
    (V1.mkUsbProbe (Some [V1.mkUsbEvent (Num 2000000) "1/1/1970" None]) None None None)
    2000000 = V1.mkUsbResult true [].
Proof. by vm_compute. Qed.

(** ** Mod scan: a file that cannot be examined *)

(** In [scanMinecraftMods] a mod archive whose [stat] fails ends the scan
    of its folder: the files listed after it are not examined, whatever
    their names, and what was found before it is kept.  In
    [checkMinecraftModFolders] only the archive itself is left out. *)
Theorem v1_mod_scan_stops_at_unreadable_file (fs : FileSystem) (now : Z)
    (modFolder : string) (result : V1.ModScan) (modFiles : list V1.ModFile)
    (before after : list Dirent) (broken : Dirent) :
  existsSync fs modFolder = true ->
  is_Some (stat fs modFolder) ->
  readdirTypes fs modFolder = Some (before ++ broken :: after) ->
  (forall file, file ∈ before -> is_Some (stat fs (pathJoin fs modFolder (d_name file)))) ->
  isModArchive broken = true ->
  stat fs (pathJoin fs modFolder (d_name broken)) = None ->
  listed (V1.scanModFolder fs now result modFolder) =
    listed result ++
    flat_map (fun file =>
                if isModArchive file && V1.flagsMod (d_name file) then [d_name file] else [])
             before /\
  foldl (V1.checkModFile fs modFolder) modFiles (before ++ broken :: after) =
    foldl (V1.checkModFile fs modFolder)
          (foldl (V1.checkModFile fs modFolder) modFiles before) after.
Proof.
  intros Hexists [folderStats Hfolder] Hfiles Hstats Harchive Hbroken. split.
  - unfold V1.scanModFolder. rewrite Hexists, Hfolder, Hfiles, forEach_app.
    destruct (scanModFiles_listed fs now modFolder before Hstats
                (V1.mkModScan (V1.suspiciousMods result) (V1.recentlyModifiedMods result)
                   (V1.modFolders result ++ [(modFolder, st_mtime folderStats)])))
      as (found & -> & Hfound).
    cbn [andThen forEach]. unfold V1.scanModFile at 1.
    unfold isModArchive in Harchive. rewrite Harchive, Hbroken. simpl.
    by rewrite Hfound.
  - rewrite foldl_app. cbn [foldl]. f_equal.
    unfold V1.checkModFile at 1. rewrite Hbroken.
    by destruct (d_isFile broken && _).
Qed.

Lemma v1_mod_scan_stops_at_unreadable_file_witness :
  listed (V1.scanMinecraftMods sampleBrokenMods 5000) = [] /\
  listed (V1.scanModFolder sampleBrokenMods 5000 (V1.mkModScan [] [] [])
            "/home/u/.minecraft/mods") =
    listed (V1.mkModScan [] [] []) ++
    flat_map (fun file =>
                if isModArchive file && V1.flagsMod (d_name file) then [d_name file] else [])
             [mkDirent "OptiFine-1.19.jar" false true] /\
  foldl (V1.checkModFile sampleBrokenMods "/home/u/.minecraft/mods") []
        ([mkDirent "OptiFine-1.19.jar" false true] ++
         mkDirent "broken.jar" false true :: [mkDirent "killaura-client.jar" false true]) =
    foldl (V1.checkModFile sampleBrokenMods "/home/u/.minecraft/mods")
          (foldl (V1.checkModFile sampleBrokenMods "/home/u/.minecraft/mods") []
                 [mkDirent "OptiFine-1.19.jar" false true])
          [mkDirent "killaura-client.jar" false true].
Proof.
  split; [by vm_compute|].
  apply (v1_mod_scan_stops_at_unreadable_file sampleBrokenMods 5000
           "/home/u/.minecraft/mods" (V1.mkModScan [] [] []) []
           [mkDirent "OptiFine-1.19.jar" false true]
           [mkDirent "killaura-client.jar" false true]
           (mkDirent "broken.jar" false true)).
  - by vm_compute.
  - by vm_compute; eexists.
  - by vm_compute.
  - intros file ->%list_elem_of_singleton. by vm_compute; eexists.
  - by vm_compute.
  - by vm_compute.
Defined.

(** ** Duplicates: which finding is kept *)

Lemma filter_first {A : Type} (P : A -> Prop) `{!forall x, Decision (P x)}
    (before after : list A) (x : A) :
  P x -> (forall y, y ∈ before -> ~ P y) ->
  take 1 (filter P (before ++ x :: after)) = [x].
Proof.
  intros Hx Hbefore. rewrite filter_app, filter_cons, decide_True by done.
  assert (filter P before = []) as ->; [|done].
  induction before as [|y before IH]; [done|].
  rewrite filter_cons, decide_False by (apply Hbefore; left).
  apply IH. intros z Hz. apply Hbefore. by right.
Qed.

(** Both variants of [getRecentlyExecutedJars] remove duplicates before
    they sort: of the findings with the same path (in the second variant:
    the same path up to letter case) the one that was collected first is
    returned, whatever the start times of the others. *)
Theorem executed_jars_keep_first_collected :
  (forall (before after : list V2.ExecutedJar) (jar : V2.ExecutedJar),
      (forall other, other ∈ before ->
                     toLowerCase (V2.ej_path other) <> toLowerCase (V2.ej_path jar)) ->
      filter (fun j => toLowerCase (V2.ej_path j) = toLowerCase (V2.ej_path jar))
             (V2.getRecentlyExecutedJars (before ++ jar :: after)) = [jar]) /\
  (forall (fs : FileSystem) (src : V1.JarSources)
          (before after : list V1.ExecutedJar) (jar : V1.ExecutedJar),
      V1.collectExecutedJars fs src = before ++ jar :: after ->
      (forall other, other ∈ before -> V1.ej_path other <> V1.ej_path jar) ->
      filter (fun j => V1.ej_path j = V1.ej_path jar)
             (V1.getRecentlyExecutedJars fs src) = [jar]).
Proof.
  split.
  - intros before after jar Hbefore.
    unfold V2.getRecentlyExecutedJars, V2.uniqueByLowerPath. cbv zeta.
    rewrite (sorted_unique_first (fun j => toLowerCase (V2.ej_path j))).
    by apply (filter_first
                (fun j => toLowerCase (V2.ej_path j) = toLowerCase (V2.ej_path jar))).
  - intros fs src before after jar Hcollected Hbefore.
    unfold V1.getRecentlyExecutedJars, V1.uniqueByPath. cbv zeta.
    rewrite (sorted_unique_first V1.ej_path), Hcollected.
    by apply (filter_first (fun j => V1.ej_path j = V1.ej_path jar)).
Qed.

Lemma executed_jars_keep_first_collected_witness :
  V2.ej_startTime lowerCaseJar2 = Num 1000 /\
  V2.ej_startTime upperCaseJar2 = Num 2000 /\
  filter (fun j => toLowerCase (V2.ej_path j) = toLowerCase (V2.ej_path lowerCaseJar2))
         (V2.getRecentlyExecutedJars ([] ++ lowerCaseJar2 :: [upperCaseJar2])) =
    [lowerCaseJar2].
Proof.
  split; [done|]. split; [done|].
  apply (proj1 executed_jars_keep_first_collected [] [upperCaseJar2] lowerCaseJar2).
  by intros other ?%elem_of_nil.
Defined.

(** ** Execution history: order and duplicates *)

Lemma keepUnseen_sublist {A : Type} (key : A -> string) (items : list A) :
  forall (state : gset string * list A),
    (foldl (keepUnseen key) state items).2 `sublist_of` state.2 ++ items.
Proof.
  induction items as [|x items IH]; intros [seen kept]; simpl.
  - by rewrite app_nil_r.
  - etrans; [apply IH|]. unfold keepUnseen. simpl.
    destruct (bool_decide (key x ∈ seen)); simpl.
    + apply sublist_app; [done|]. by apply sublist_cons.
    + by rewrite <- app_assoc.
Qed.

Lemma StronglySorted_sublist {A : Type} (R : A -> A -> Prop) (l k : list A) :
  l `sublist_of` k -> StronglySorted R k -> StronglySorted R l.
Proof.
  intros Hsub. induction Hsub as [|x l k Hsub IH|x l k Hsub IH]; intros Hk.
  - constructor.
  - apply StronglySorted_inv in Hk as [Hk Hx].
    constructor; [by apply IH|].
    apply Forall_forall. intros y Hy.
    apply (proj1 (Forall_forall _ _) Hx). by apply (sublist_subseteq _ _ Hsub).
  - apply StronglySorted_inv in Hk as [Hk Hx]. by apply IH.
Qed.

(** When the start times of all entries are dates, the list that
    [getCompleteExecutionHistory] of the first variant returns is in
    descending order of the start time, no two of its entries have the same
    name up to letter case, and of the collected entries with the same name
    it holds the one that started last: each collected entry is
    represented by an entry of its name that started no earlier. *)
Theorem v1_history_keeps_latest_run (localeCompare : string -> string -> Z)
    (result : list V1.HistoryEntry) (entry : V1.HistoryEntry) :
  Forall (fun item => valid (V1.startDate item)) result ->
  entry ∈ result ->
  StronglySorted (notBefore V1.startDate)
                 (V1.finishExecutionHistory localeCompare result) /\
  exists kept,
    filter (fun item => toLowerCase (V1.he_name item) = toLowerCase (V1.he_name entry))
           (V1.finishExecutionHistory localeCompare result) = [kept] /\
    kept ∈ result /\
    geb (V1.startDate kept) (V1.startDate entry) = true.
Proof.
  intros Hvalid Hentry. unfold V1.finishExecutionHistory. cbv zeta.
  assert (StronglySorted (notBefore V1.startDate)
            (sort (V1.byStartDateDesc localeCompare) result)) as Hsorted.
  { apply sort_sorted_like; [|done]. intros a b Ha Hb.
    unfold comes_before, V1.byStartDateDesc, byKeyDesc, sub, valid in *.
    by destruct (V1.startDate a), (V1.startDate b). }
  set (sorted := sort (V1.byStartDateDesc localeCompare) result) in *.
  split.
  - eapply StronglySorted_sublist; [|exact Hsorted].
    apply (keepUnseen_sublist _ sorted (∅, [])).
  - rewrite (unique_first (fun item => toLowerCase (V1.he_name item))).
    assert (entry ∈ sorted) as Hin by (unfold sorted; by rewrite sort_perm).
    set (same := fun item : V1.HistoryEntry =>
                   toLowerCase (V1.he_name item) = toLowerCase (V1.he_name entry)).
    assert (StronglySorted (notBefore V1.startDate) (filter same sorted)) as Hfs.
    { eapply StronglySorted_sublist; [apply sublist_filter|exact Hsorted]. }
    assert (entry ∈ filter same sorted) as Hfe by by apply list_elem_of_filter.
    destruct (filter same sorted) as [|kept others] eqn:Hfilter;
      [by apply elem_of_nil in Hfe|].
    exists kept. split; [done|].
    assert (kept ∈ filter same sorted) as Hk by (rewrite Hfilter; left).
    apply list_elem_of_filter in Hk as [_ Hk].
    split; [unfold sorted in Hk; by rewrite sort_perm in Hk|].
    apply elem_of_cons in Hfe as [->|Hlater].
    + pose proof (proj1 (Forall_forall _ _) Hvalid kept
                    ltac:(unfold sorted in Hk; by rewrite sort_perm in Hk)) as Hv.
      unfold geb, valid in *. destruct (V1.startDate kept); [|done].
      apply bool_decide_eq_true. lia.
    + apply StronglySorted_inv in Hfs as [_ Hfirst].
      by apply (proj1 (Forall_forall _ _) Hfirst).
Qed.

Lemma v1_history_keeps_latest_run_witness :
  StronglySorted (notBefore V1.startDate)
                 (V1.finishExecutionHistory (fun _ _ => 0) [firstRun; secondRun]) /\
  exists kept,
    filter (fun item => toLowerCase (V1.he_name item) = toLowerCase (V1.he_name firstRun))
           (V1.finishExecutionHistory (fun _ _ => 0) [firstRun; secondRun]) = [kept] /\
    kept ∈ [firstRun; secondRun] /\
    geb (V1.startDate kept) (V1.startDate firstRun) = true.
Proof.
  apply (v1_history_keeps_latest_run (fun _ _ => 0) [firstRun; secondRun] firstRun).
  - by repeat constructor.
  - left.
Defined.

Example v1_history_second_run_kept :
  V1.finishExecutionHistory (fun _ _ => 0) [firstRun; secondRun] = [secondRun].
Proof. by vm_compute. Qed.

(** Names that differ only in the case of an accented letter are one name:
    [CONFIGURACI(O)N.EXE] and [Configuraci(o)n.exe], written with the
    capital and the small O with acute accent (the code units 211 and
    243). *)
Example v1_history_accented_names :
  V1.finishExecutionHistory (fun _ _ => 0)
    [V1.mkHistoryEntry ("CONFIGURACI" +:+ String "211" "N.EXE") "Prefetch" "" (Num 1000);
     V1.mkHistoryEntry ("Configuraci" +:+ String "243" "n.exe") "Event Log" "" (Num 2000)] =
    [V1.mkHistoryEntry ("Configuraci" +:+ String "243" "n.exe") "Event Log" "" (Num 2000)].
Proof. by vm_compute. Qed.

(** ** Suspicious processes: the modules of the game *)

Lemma existsb_elem_true {A : Type} (f : A -> bool) (l : list A) (x : A) :
  x ∈ l -> f x = true -> existsb f l = true.
Proof. intros Hx Hf. apply existsb_exists. exists x. by rewrite <- list_elem_of_In. Qed.

Lemma dll_is_keyword (moduleName : string) :
  includes moduleName "dll" = true -> V1.isSuspiciousModule moduleName = true.
Proof.
  intros Hdll. unfold V1.isSuspiciousModule. apply orb_true_iff. left.
  apply (existsb_elem_true _ _ "dll"); [|done]. unfold V1.processKeywords. set_solver.
Qed.

(** The word [dll] is one of the keywords, so the test of a module accepts
    every module whose name holds it, whatever the exclusions say; and the
    exclusion of names that hold [minecraft] never decides, that word being
    a keyword too.  A module passes unreported only when its name holds no
    keyword and one of the other excluded texts. *)
Theorem v1_module_test (moduleName : string) :
  (includes moduleName "dll" = true -> V1.isSuspiciousModule moduleName = true) /\
  (V1.isSuspiciousModule moduleName = false <->
   (forall keyword, keyword ∈ V1.processKeywords -> includes moduleName keyword = false) /\
   (includes moduleName "java" = true \/ startsWith moduleName "jvm" = true \/
    startsWith moduleName "nt" = true \/ startsWith moduleName "api-ms-win" = true \/
    includes moduleName "vcruntime" = true \/ includes moduleName "msvcp" = true \/
    includes moduleName "system" = true)).
Proof.
  split; [apply dll_is_keyword|].
  unfold V1.isSuspiciousModule.
  - rewrite orb_false_iff. split.
    + intros [Hkeywords Hexcluded]. split.
      * intros keyword Hkeyword.
        destruct (includes moduleName keyword) eqn:Hinc; [|done].
        by rewrite (existsb_elem_true _ _ keyword) in Hkeywords.
      * destruct (includes moduleName "minecraft") eqn:Hgame.
        { rewrite (existsb_elem_true _ _ "minecraft") in Hkeywords; [done| |done].
          unfold V1.processKeywords. set_solver. }
        simpl in Hexcluded.
        destruct (includes moduleName "java"); [by left|].
        destruct (startsWith moduleName "jvm"); [by right; left|].
        destruct (startsWith moduleName "nt"); [by right; right; left|].
        destruct (startsWith moduleName "api-ms-win"); [by right; right; right; left|].
        destruct (includes moduleName "vcruntime"); [by do 4 right; left|].
        destruct (includes moduleName "msvcp"); [by do 5 right; left|].
        destruct (includes moduleName "system"); [by do 6 right|done].
    + intros [Hkeywords Hexcluded]. split.
      * destruct (existsb _ V1.processKeywords) eqn:Hsome; [|done].
        apply existsb_exists in Hsome as (keyword & Hin & Hinc).
        apply list_elem_of_In in Hin. by rewrite Hkeywords in Hinc.
      * destruct Hexcluded as [->|[->|[->|[->|[->|[->| ->]]]]]];
          by rewrite ?andb_false_r.
Qed.

Lemma v1_module_test_witness :
  V1.isSuspiciousModule "ntdll.dll" = true /\
  V1.isSuspiciousModule "java.exe" = false.
Proof.
  split; [by apply (proj1 (v1_module_test "ntdll.dll"))|by vm_compute].
Defined.

(** On Windows every module of a [minecraft.exe] process whose name holds
    [dll] is reported as an injected DLL: for each row of the task list that
    names the game and each quoted name in the module list of its process,
    the answer holds an entry for that module. *)
Theorem v1_every_dll_of_the_game_is_reported (fs : FileSystem) (probe : V1.ProcessProbe)
    (stdout process first second modulesOutput line quoted : string)
    (others : list string) :
  platform fs = win32 ->
  V1.tasklist probe = Some stdout ->
  V1.nonBlankLines stdout <> [] ->
  process ∈ split V1.lineFeed stdout ->
  includes (toLowerCase process) "minecraft.exe" = true ->
  V1.csvValues probe process = Some (first :: second :: others) ->
  V1.modulesOf probe (V1.removeQuotes second) = Some modulesOutput ->
  line ∈ V1.moduleLines modulesOutput ->
  V1.matchQuoted line = Some quoted ->
  includes (toLowerCase quoted) "dll" = true ->
  V1.InjectedModule "minecraft.exe" (V1.removeQuotes second) (toLowerCase quoted)
                     "DLL inyectado" ∈ V1.detectSuspiciousProcesses fs probe.
Proof.
  intros Hplatform Htasklist Hlines Hprocess Hgame Hvalues Hmodules Hline Hquoted Hdll.
  unfold V1.detectSuspiciousProcesses. rewrite Hplatform, Htasklist.
  destruct (V1.nonBlankLines stdout) as [|header rows]; [done|]. cbv zeta.
  apply elem_of_app. right.
  apply list_elem_of_In, in_flat_map. exists process. split.
  { apply list_elem_of_In. by apply list_elem_of_filter. }
  unfold V1.injectedModules. rewrite Hvalues. cbv zeta. rewrite Hmodules.
  apply in_flat_map. exists line. split; [by apply list_elem_of_In|].
  unfold V1.moduleFinding. rewrite Hquoted. cbv zeta.
  rewrite (dll_is_keyword (toLowerCase quoted) Hdll). by left.
Qed.

Lemma v1_every_dll_of_the_game_is_reported_witness :
  V1.InjectedModule "minecraft.exe" (V1.removeQuotes (inQuotes "4242"))
                     (toLowerCase "ntdll.dll") "DLL inyectado"
    ∈ V1.detectSuspiciousProcesses sampleWindows sampleProcessProbe.
Proof.
  apply (v1_every_dll_of_the_game_is_reported sampleWindows sampleProcessProbe
           sampleTasklist gameRow (inQuotes "minecraft.exe") (inQuotes "4242")
           sampleModules (inQuotes "ntdll.dll") "ntdll.dll" [inQuotes "Minecraft"]);
    try by vm_compute.
  - vm_compute. right. left.
  - vm_compute. left.
Defined.

(** The game itself and the libraries of the system and of Java in it are
    all reported. *)
Example v1_game_with_its_own_libraries :
  V1.detectSuspiciousProcesses sampleWindows sampleProcessProbe =
  [V1.KeywordProcess "minecraft.exe" "4242" (Some "Minecraft") ["minecraft"];
   V1.InjectedModule "minecraft.exe" "4242" "ntdll.dll" "DLL inyectado";
   V1.InjectedModule "minecraft.exe" "4242" "jvm.dll" "DLL inyectado";
   V1.InjectedModule "minecraft.exe" "4242" "java.dll" "DLL inyectado"].
Proof. by vm_compute. Qed.

(** ** Command history of the shells *)




(** When the Bash history is the only history file, the commands come in
    the order of the file, oldest first: they all carry the modification
    time of the file, and the sort leaves entries with equal timestamps in
    place.  They are the last 50 non-blank lines of the file. *)
Theorem v1_bash_history_in_file_order (fs : FileSystem) (files : V1.HistoryFiles)
    (content : string) :
  existsSync fs (pathJoin fs (homedir fs) ".bash_history") = true ->
  existsSync fs (pathJoin fs (homedir fs) ".zsh_history") = false ->
  existsSync fs (pathJoin fs (homedir fs) ".sh_history") = false ->
  existsSync fs (pathJoin fs (homedir fs) ".history") = false ->
  existsSync fs (pathJoinAll fs (homedir fs) [".local"; "share"; "fish"; "fish_history"])
    = false ->
  V1.readHistory files (pathJoin fs (homedir fs) ".bash_history") = Some content ->
  is_Some (stat fs (pathJoin fs (homedir fs) ".bash_history")) ->
  map V1.command (V1.shellCommandHistory fs files) =
  V1.sliceLast 50 (V1.nonBlankLines content).
Proof.
  intros Hbash Hzsh Hsh Hhistory Hfish Hread [stats Hstat].
  unfold V1.shellCommandHistory, V1.shellHistoryFiles. cbv zeta. cbn [foldl].
  unfold V1.readShellHistory at 5. cbn [fst snd]. rewrite Hbash, Hread, Hstat. cbv zeta.
  unfold V1.readShellHistory at 4. cbn [fst snd]. rewrite Hzsh.
  unfold V1.readShellHistory at 3. cbn [fst snd]. rewrite Hsh.
  unfold V1.readShellHistory at 2. cbn [fst snd]. rewrite Hhistory.
  unfold V1.readShellHistory at 1. cbn [fst snd]. rewrite Hfish.
  rewrite app_nil_l, sort_fixed.
  - rewrite map_map. unfold V1.commandOfLine.
    rewrite bool_decide_eq_false_2 by done. simpl. apply map_id.
  - intros a b (la & -> & _)%list_elem_of_fmap (lb & -> & _)%list_elem_of_fmap.
    unfold comes_before, V1.byTimestampDesc, V1.commandOfLine.
    rewrite bool_decide_eq_false_2 by done. simpl.
    apply bool_decide_eq_false. lia.
Qed.

Lemma v1_bash_history_in_file_order_witness :
  map V1.command (V1.shellCommandHistory sampleShellHome sampleHistoryFiles) =
    V1.sliceLast 50 (V1.nonBlankLines sampleHistory) /\
  V1.sliceLast 50 (V1.nonBlankLines sampleHistory) =
    ["ls"; "java -jar client.jar"; "rm client.jar"].
Proof.
  split; [|by vm_compute].
  apply (v1_bash_history_in_file_order sampleShellHome sampleHistoryFiles sampleHistory);
    try by vm_compute.
  by vm_compute; eexists.
Defined.

(** ** Second variant: files that look renamed *)

Lemma lastIndexOfDot_none (name : string) :
  includes name "." = false -> V2.lastIndexOfDot name = None.
Proof.
  induction name as [|c name IH]; [done|].
  rewrite includes_cons. intros [Hc Hname]%orb_false_iff.
  simpl. rewrite (IH Hname). simpl in Hc.
  case_bool_decide as Hdot; [|done]. subst c. by destruct name.
Qed.

Lemma baseNameOf_no_dot (name : string) :
  includes name "." = false -> V2.baseNameOf name = "".
Proof.
  intros Hname. unfold V2.baseNameOf. rewrite (lastIndexOfDot_none name Hname).
  unfold substringTo. apply substring_0_0.
Qed.

(** In the second variant every recently modified file whose name has more
    than two dot-separated parts is reported with the reason that names
    multiple extensions, and with the guess that keeps the first and the
    last part of the name. *)
Theorem v2_multiple_extensions_reported (fs : FileSystem) (basename : string -> string)
    (dayAgo : nat -> Z) (file : V2.RecentFile) :
  file ∈ V2.recentlyModifiedFiles fs dayAgo ->
  (2 < length (split "." (basename (V2.rf_path file))))%nat ->
  exists entry,
    entry ∈ V2.checkFileExtensionChanges fs basename dayAgo /\
    V2.rn_path entry = V2.rf_path file /\
    V2.rn_name entry = basename (V2.rf_path file) /\
    V2.reason entry = "Múltiples extensiones" /\
    V2.originalName entry =
      Some (default "" (split "." (basename (V2.rf_path file)) !! 0%nat) +:+ "." +:+
            default "" (last (split "." (basename (V2.rf_path file))))).
Proof.
  intros Hfile Hparts. eexists. split.
  - unfold V2.checkFileExtensionChanges. cbv zeta.
    apply list_elem_of_In, in_flat_map. exists file.
    split; [by apply list_elem_of_In|].
    unfold V2.renamedEntries. cbv zeta.
    rewrite (bool_decide_eq_true_2 _ Hparts). cbn [orb].
    apply in_or_app. left. left. reflexivity.
  - simpl. repeat split. unfold V2.getOriginalNameGuess.
    by rewrite (bool_decide_eq_true_2 _ Hparts).
Qed.

Lemma v2_multiple_extensions_reported_witness :
  exists entry,
    entry ∈ V2.checkFileExtensionChanges sampleRecent lastSegment (fun _ => 0) /\
    V2.rn_path entry = V2.rf_path disguisedFile /\
    V2.rn_name entry = lastSegment (V2.rf_path disguisedFile) /\
    V2.reason entry = "Múltiples extensiones" /\
    V2.originalName entry =
      Some (default "" (split "." (lastSegment (V2.rf_path disguisedFile)) !! 0%nat) +:+
            "." +:+
            default "" (last (split "." (lastSegment (V2.rf_path disguisedFile))))).
Proof.
  apply (v2_multiple_extensions_reported sampleRecent lastSegment (fun _ => 0) disguisedFile).
  - vm_compute. do 2 right. left.
  - vm_compute. lia.
Defined.

(** In the second variant a name without a dot has the empty base name, so
    two recently modified files without a dot in their names are reported as
    similar files of one another, whatever their names are. *)
Theorem v2_files_without_dot_are_similar (fs : FileSystem) (basename : string -> string)
    (dayAgo : nat -> Z) (file other : V2.RecentFile) :
  file ∈ V2.recentlyModifiedFiles fs dayAgo ->
  other ∈ V2.recentlyModifiedFiles fs dayAgo ->
  V2.rf_path other <> V2.rf_path file ->
  includes (basename (V2.rf_path file)) "." = false ->
  includes (basename (V2.rf_path other)) "." = false ->
  exists entry,
    entry ∈ V2.checkFileExtensionChanges fs basename dayAgo /\
    V2.rn_path entry = V2.rf_path file /\
    V2.reason entry = "Archivos similares encontrados" /\
    (basename (V2.rf_path other), V2.rf_path other, V2.rf_modifiedTime other)
      ∈ V2.similarFiles entry.
Proof.
  intros Hfile Hother Hpaths Hname Hothername.
  set (similar :=
         filter (fun f =>
                   V2.baseNameOf (basename (V2.rf_path f)) =
                     V2.baseNameOf (basename (V2.rf_path file)) /\
                   V2.rf_path f <> V2.rf_path file)
                (V2.recentlyModifiedFiles fs dayAgo)).
  assert (other ∈ similar) as Hin.
  { apply list_elem_of_filter. split; [|done].
    by rewrite !baseNameOf_no_dot. }
  exists (V2.mkRenamedFile (basename (V2.rf_path file)) (V2.rf_path file)
            (V2.rf_modifiedTime file) None
            (map (fun f => (basename (V2.rf_path f), V2.rf_path f, V2.rf_modifiedTime f))
                 similar)
            "Archivos similares encontrados").
  split; [|split; [done|split; [done|]]].
  - unfold V2.checkFileExtensionChanges. cbv zeta.
    apply list_elem_of_In, in_flat_map. exists file.
    split; [by apply list_elem_of_In|].
    unfold V2.renamedEntries. cbv zeta. fold similar.
    apply in_or_app. right.
    rewrite bool_decide_eq_true_2; [by left|].
    destruct similar; [by apply elem_of_nil in Hin|simpl; lia].
  - simpl. apply list_elem_of_fmap. by exists other.
Qed.

Lemma v2_files_without_dot_are_similar_witness :
  exists entry,
    entry ∈ V2.checkFileExtensionChanges sampleRecent lastSegment (fun _ => 0) /\
    V2.rn_path entry = V2.rf_path licenseFile /\
    V2.reason entry = "Archivos similares encontrados" /\
    (lastSegment (V2.rf_path makeFile), V2.rf_path makeFile, V2.rf_modifiedTime makeFile)
      ∈ V2.similarFiles entry.
Proof.
  apply (v2_files_without_dot_are_similar sampleRecent lastSegment (fun _ => 0)
           licenseFile makeFile); try by vm_compute.
  - vm_compute. left.
  - vm_compute. right. left.
Defined.

(** ** Second variant: lines of the Zsh history *)

Lemma takeDigits_dropDigits (s : string) : V1.takeDigits s +:+ V1.dropDigits s = s.
Proof.
  induction s as [|c s IH]; [done|]. simpl.
  destruct (V1.isDigit c); [|done]. by rewrite append_cons, IH.
Qed.

Lemma zshSeconds_spec (line seconds : string) :
  V2.zshSeconds line = Some seconds ->
  exists r,
    line = String ":" (String " " r) /\
    V1.truthy (V1.takeDigits r) && startsWith (V1.dropDigits r) ":" = true /\
    seconds = V1.takeDigits r.
Proof.
  unfold V2.zshSeconds. intros Hzsh.
  destruct line as [|c1 [|c2 r]]; [done| |].
  - by destruct c1 as [[] [] [] [] [] [] [] []].
  - destruct c1 as [[] [] [] [] [] [] [] []]; try done.
    destruct c2 as [[] [] [] [] [] [] [] []]; try done.
    exists r. destruct (V1.truthy _ && _); [|done]. by injection Hzsh as <-.
Qed.

(** In the second variant a line of the Zsh history that starts with a
    colon, a blank and the time loses only its first colon: the command that
    is returned still begins with the blank, the time and the colon that
    follows it.  (The first variant returns what follows the semicolon.) *)
Theorem v2_zsh_command_keeps_metadata (millisOf : string -> Z) (source line seconds : string) :
  V2.zshSeconds line = Some seconds ->
  V2.command (V2.commandOfLine millisOf source line) = substringFrom 1 line /\
  startsWith (V2.command (V2.commandOfLine millisOf source line))
             (" " +:+ seconds +:+ ":") = true /\
  V2.timestamp (V2.commandOfLine millisOf source line) = Some (millisOf seconds).
Proof.
  intros Hzsh. unfold V2.commandOfLine. rewrite Hzsh. cbv zeta.
  apply zshSeconds_spec in Hzsh as (r & -> & Hshape & Hzsh).
  subst seconds. apply andb_true_iff in Hshape as [_ Hcolon].
  apply startsWith_spec in Hcolon as [rest Hrest].
  simpl. split; [|split; [|done]].
  - change (substringFrom 1 (String ":" (String " " r)))
      with (substringFrom 0 (String " " r)).
    by rewrite substringFrom_0.
  - apply startsWith_spec. exists rest.
    rewrite <- (takeDigits_dropDigits r) at 1. rewrite Hrest.
    by rewrite !append_cons, !append_assoc.
Qed.

Lemma v2_zsh_command_keeps_metadata_witness :
  V2.command (V2.commandOfLine (fun _ => 0) "Zsh" ": 1700000000:0;ls -la") =
    substringFrom 1 ": 1700000000:0;ls -la" /\
  startsWith (V2.command (V2.commandOfLine (fun _ => 0) "Zsh" ": 1700000000:0;ls -la"))
             (" " +:+ "1700000000" +:+ ":") = true /\
  V2.timestamp (V2.commandOfLine (fun _ => 0) "Zsh" ": 1700000000:0;ls -la") =
    Some ((fun _ : string => 0) "1700000000").
Proof.
  by apply (v2_zsh_command_keeps_metadata (fun _ => 0) "Zsh" ": 1700000000:0;ls -la"
              "1700000000").
Defined.

(** The same line in both variants. *)
Example zsh_line_in_both_variants :
  V1.command (V1.commandOfLine (V1.mkHistoryFiles (fun _ => None) (fun _ => 1700000000000))
                "Zsh" 0 ": 1700000000:0;ls -la") = "ls -la" /\
  V2.command (V2.commandOfLine (fun _ => 1700000000000) "Zsh" ": 1700000000:0;ls -la") =
    " 1700000000:0;ls -la".
Proof. by vm_compute. Qed.
